(** * CNS_Prediction: the forecasting pipelines of [scr/ARIMA_lib.py] and
    [scr/xgb_lib.py], embedded in Rocq.

    The two scripts are thin orchestration layers over pandas, scikit-learn,
    pmdarima and xgboost.  The embedding keeps the data the way the code has
    it: a workbook is an ordered dictionary of sheets, a sheet is a
    [DataFrame] (ordered column labels and rows of dynamically typed cells),
    a forecaster is an object whose attributes are set by its methods, and a
    Python exception is a value of [exn] threaded through a state-and-error
    monad.  Numbers are exact rationals ([Qc]); the metrics are given a
    second time in binary64 ([Binary64]), where the rounding of numpy's
    sums shows.  Wall-clock measurements ([time.time()]) are
    not modelled; of the console output, only the final report of the
    time-series script is. *)

From Stdlib Require Import ZArith QArith Qcanon Ascii String List.
From Stdlib Require Reals Floats.
From stdpp Require Import base option numbers list sorting strings gmap.

Local Open Scope string_scope.
Local Open Scope list_scope.

(** ** Python exceptions and the monad of a method call *)

Inductive exn : Type :=
  | KeyError (labels : list string)      (* a column label is not in the frame *)
  | ValueError (msg : string)
  | TypeError (msg : string)
  | AttributeError (attr : string)       (* an attribute read before it is set *)
  | LibraryError (msg : string).         (* raised inside an external library *)

Inductive result (A : Type) : Type :=
  | Ok (a : A)
  | Raise (e : exn).
Arguments Ok {A} a.
Arguments Raise {A} e.

Definition rbind {A B} (r : result A) (k : A -> result B) : result B :=
  match r with
  | Ok a => k a
  | Raise e => Raise e
  end.

Declare Scope result_scope.
Delimit Scope result_scope with result.
Notation "'do' x <- r ; k" := (rbind r (fun x => k))
  (at level 10, x name, r at level 100, k at level 200) : result_scope.

Definition is_Ok {A} (r : result A) : Prop := exists a, r = Ok a.

(** A method of an object of class [S]: it reads and assigns attributes and
    either returns or raises; assignments made before a [raise] stay. *)
Definition method (S A : Type) : Type := S -> result A * S.

Definition mret {S A} (a : A) : method S A := fun s => (Ok a, s).
Definition mraise {S A} (e : exn) : method S A := fun s => (Raise e, s).
Definition mbind {S A B} (m : method S A) (k : A -> method S B) : method S B :=
  fun s => match m s with
           | (Ok a, s') => k a s'
           | (Raise e, s') => (Raise e, s')
           end.
Definition mlift {S A} (r : result A) : method S A := fun s => (r, s).
Definition mget {S} : method S S := fun s => (Ok s, s).
Definition mset {S} (f : S -> S) : method S unit := fun s => (Ok tt, f s).

Declare Scope method_scope.
Delimit Scope method_scope with method.
Notation "'do' x <- m ; k" := (mbind m (fun x => k))
  (at level 10, x name, m at level 100, k at level 200) : method_scope.
Notation "'run' m ; k" := (mbind m (fun _ => k))
  (at level 10, m at level 100, k at level 200) : method_scope.

(** ** pandas: cells, rows, frames *)

Module Pandas.

(** A cell: a missing value ([NaN]), a string or a number. *)
Inductive value : Type :=
  | NaN
  | Str (s : string)
  | Num (q : Qc).

Global Instance value_eq_dec : EqDecision value.
Proof. solve_decision. Defined.

(** A row maps column labels to cells; a label without a binding reads as
    [NaN] (what [pd.concat] leaves in a column a sheet did not have). *)
Abbreviation row := (gmap string value).

Record DataFrame : Type := mkDataFrame {
  df_columns : list string;
  df_rows : list row
}.

Definition cell (r : row) (c : string) : value := default NaN (r !! c).

(** [df[c]]: the column as a sequence of cells, [KeyError] without it. *)
Definition getitem (df : DataFrame) (c : string) : result (list value) :=
  if decide (c ∈ df_columns df) then Ok (map (fun r => cell r c) (df_rows df))
  else Raise (KeyError [c]).

(** [df[[c1, ..., cn]]]: the frame restricted to the listed columns, in the
    listed order; [KeyError] names the labels that are missing. *)
Definition project (cols : list string) (r : row) : row :=
  list_to_map (map (fun c => (c, cell r c)) cols).

Definition getitem_list (df : DataFrame) (cols : list string) : result DataFrame :=
  match filter (fun c => c ∉ df_columns df) cols with
  | [] => Ok (mkDataFrame cols (map (project cols) (df_rows df)))
  | missing => Raise (KeyError missing)
  end.

(** [df.assign(c=v)] and [df[c] = ...]: the column is added at the end, or
    overwritten in place when the label exists. *)
Definition add_column (c : string) (cols : list string) : list string :=
  if decide (c ∈ cols) then cols else cols ++ [c].

Definition assign (c : string) (v : value) (df : DataFrame) : DataFrame :=
  mkDataFrame (add_column c (df_columns df)) (map (insert c v) (df_rows df)).

(** [df[c] = series], the series given by position. *)
Definition setitem (c : string) (vs : list value) (df : DataFrame) : DataFrame :=
  mkDataFrame (add_column c (df_columns df))
              (zip_with (fun r v => <[c := v]> r) (df_rows df) vs).

(** Union of column labels in order of first appearance (outer join,
    [sort=False]). *)
Fixpoint union_columns (acc : list string) (frames : list DataFrame) : list string :=
  match frames with
  | [] => acc
  | df :: rest =>
      union_columns (acc ++ filter (fun c => c ∉ acc) (df_columns df)) rest
  end.

(** [pd.concat(frames)]: rows stacked in order, columns joined; an empty
    list of frames is a [ValueError]. *)
Definition concat (frames : list DataFrame) : result DataFrame :=
  match frames with
  | [] => Raise (ValueError "No objects to concatenate")
  | _ => Ok (mkDataFrame (union_columns [] frames)
                         (List.concat (map df_rows frames)))
  end.

(** Element-wise comparisons of a column with a scalar.  A missing cell
    compares false with everything, itself included. *)
Definition eq_scalar (v x : value) : bool :=
  match v, x with
  | NaN, _ | _, NaN => false
  | _, _ => bool_decide (v = x)
  end.

Definition le_scalar (v : value) (z : Z) : bool :=
  match v with
  | Num q => bool_decide (q ≤ Qc_of_Z z)%Qc
  | _ => false
  end.

Definition lt_scalar (v : value) (z : Z) : bool :=
  match v with
  | Num q => bool_decide (q < Qc_of_Z z)%Qc
  | _ => false
  end.

(** [df[mask]]: the rows at the positions where the mask holds.  The masks
    of this program are computed from a column of the frame they index, so
    mask and frame are aligned position by position. *)
Fixpoint select (mask : list bool) (rows : list row) : list row :=
  match mask, rows with
  | b :: mask', r :: rows' =>
      if b then r :: select mask' rows' else select mask' rows'
  | _, _ => []
  end.

Definition getitem_mask (df : DataFrame) (mask : list bool) : DataFrame :=
  mkDataFrame (df_columns df) (select mask (df_rows df)).

(** [df.empty]: no rows or no columns. *)
Definition empty (df : DataFrame) : bool :=
  bool_decide (df_rows df = [] ∨ df_columns df = []).

(** [series.unique()]: distinct cells in order of first appearance; missing
    cells count as one value. *)
Fixpoint unique_from (seen : list value) (l : list value) : list value :=
  match l with
  | [] => []
  | x :: l' =>
      if decide (x ∈ seen) then unique_from seen l'
      else x :: unique_from (x :: seen) l'
  end.

Definition unique (l : list value) : list value := unique_from [] l.

End Pandas.

(** ** scikit-learn: the regression metrics and the label encoder

    Library code the scripts call; modelled by the definitions its
    documentation gives, over exact rationals: what the metrics are when
    no sum is rounded.  [Binary64] below has them as numpy computes them. *)

Module Sklearn.
Import Pandas.
Local Open Scope Qc_scope.

(** [check_array]: the input as an array of finite numbers; a missing cell
    or a string is a [ValueError]. *)
Fixpoint as_float_array (l : list value) : result (list Qc) :=
  match l with
  | [] => Ok []
  | Num q :: l' =>
      match as_float_array l' with
      | Ok qs => Ok (q :: qs)
      | Raise e => Raise e
      end
  | NaN :: _ => Raise (ValueError "Input contains NaN")
  | Str _ :: _ => Raise (ValueError "could not convert string to float")
  end.

(** [_check_reg_targets]: equal lengths first, then at least one sample. *)
Definition check_reg_targets (y_true y_pred : list value)
  : result (list Qc * list Qc) :=
  if negb (length y_true =? length y_pred)%nat then
    Raise (ValueError "Found input variables with inconsistent numbers of samples")
  else
    (do yt <- as_float_array y_true;
     do yp <- as_float_array y_pred;
     match yt with
     | [] => Raise (ValueError "Found array with 0 sample(s)")
     | _ => Ok (yt, yp)
     end)%result.

(** [np.sum], [len] and [np.average] without rounding: an exact sum does
    not depend on the order of its terms.  [Binary64.np_sum] is the sum as
    numpy accumulates it. *)
Definition np_sum (l : list Qc) : Qc := foldr Qcplus 0 l.
Definition np_size (l : list Qc) : Qc := Qc_of_Z (Z.of_nat (length l)).
Definition np_average (l : list Qc) : Qc := np_sum l / np_size l.
Definition np_abs (x : Qc) : Qc := if decide (0 ≤ x) then x else - x.
Definition square (x : Qc) : Qc := x * x.

(** [np.median]: the middle of the sorted array, the mean of the two middle
    entries when the length is even. *)
Definition np_median (l : list Qc) : Qc :=
  let s := merge_sort Qcle l in
  let n := length s in
  if Nat.even n then
    (nth (n / 2 - 1) s 0 + nth (n / 2) s 0) / Qc_of_Z 2
  else nth (n / 2) s 0.

Definition residuals (yt yp : list Qc) : list Qc := zip_with Qcminus yt yp.

Definition mse_of (yt yp : list Qc) : Qc :=
  np_average (map square (residuals yt yp)).

(** The score [1 - numerator / denominator] with the library's convention
    for a zero denominator: 1 for a perfect fit, 0 otherwise. *)
Definition ratio_score (numerator denominator : Qc) : Qc :=
  if decide (denominator = 0) then
    (if decide (numerator = 0) then 1 else 0)
  else if decide (numerator = 0) then 1
  else 1 - numerator / denominator.

(** [r2_score]: not defined for fewer than two samples, where the library
    warns and returns nan ([None]). *)
Definition r2_of (yt yp : list Qc) : option Qc :=
  if (length yp <? 2)%nat then None
  else
    let numerator := np_sum (map square (residuals yt yp)) in
    let y_avg := np_average yt in
    let denominator := np_sum (map (fun y => square (y - y_avg)) yt) in
    Some (ratio_score numerator denominator).

Definition evs_of (yt yp : list Qc) : Qc :=
  let diff := residuals yt yp in
  let y_diff_avg := np_average diff in
  let numerator := np_average (map (fun d => square (d - y_diff_avg)) diff) in
  let y_true_avg := np_average yt in
  let denominator := np_average (map (fun y => square (y - y_true_avg)) yt) in
  ratio_score numerator denominator.

Definition mae_of (yt yp : list Qc) : Qc :=
  np_average (map np_abs (zip_with Qcminus yp yt)).

Definition medae_of (yt yp : list Qc) : Qc :=
  np_median (map np_abs (zip_with Qcminus yp yt)).

Definition mean_squared_error (y_true y_pred : list value) : result Qc :=
  (do p <- check_reg_targets y_true y_pred; Ok (mse_of p.1 p.2))%result.
Definition r2_score (y_true y_pred : list value) : result (option Qc) :=
  (do p <- check_reg_targets y_true y_pred; Ok (r2_of p.1 p.2))%result.
Definition explained_variance_score (y_true y_pred : list value) : result Qc :=
  (do p <- check_reg_targets y_true y_pred; Ok (evs_of p.1 p.2))%result.
Definition mean_absolute_error (y_true y_pred : list value) : result Qc :=
  (do p <- check_reg_targets y_true y_pred; Ok (mae_of p.1 p.2))%result.
Definition median_absolute_error (y_true y_pred : list value) : result Qc :=
  (do p <- check_reg_targets y_true y_pred; Ok (medae_of p.1 p.2))%result.

(** [np.sqrt] of a non-negative rational, as a real number. *)
Definition np_sqrt (q : Qc) : Rdefinitions.R := R_sqrt.sqrt (Rdefinitions.Q2R q).

(** *** LabelEncoder *)

(** The order of the sorted vocabulary: strings by code point, numbers by
    value, missing cells last. *)
Definition value_le (a b : value) : Prop :=
  match a, b with
  | _, NaN => True
  | NaN, _ => False
  | Str s, Str t => String.leb s t = true
  | Num p, Num q => p ≤ q
  | Num _, Str _ => True
  | Str _, Num _ => False
  end.

Global Instance value_le_dec : RelDecision value_le.
Proof. intros [|s|p] [|t|q]; simpl; apply _. Defined.

Definition is_str (v : value) : bool := if v is Str _ then true else false.
Definition is_num (v : value) : bool := if v is Num _ then true else false.

(** The encoder takes strings or numbers, not a mix of them. *)
Definition uniform (l : list value) : bool :=
  forallb (fun v => negb (is_num v)) l || forallb (fun v => negb (is_str v)) l.

(** [LabelEncoder.fit]: [classes_] is the sorted set of the labels. *)
Definition fit (y : list value) : result (list value) :=
  if uniform y then Ok (merge_sort value_le (unique y))
  else Raise (TypeError "Encoders require their input argument must be uniformly strings or numbers.").

Fixpoint index_of (x : value) (l : list value) : option nat :=
  match l with
  | [] => None
  | c :: l' => if decide (c = x) then Some 0%nat else S <$> index_of x l'
  end.

(** [LabelEncoder.transform]: the position of each label in [classes_]; a
    label that was not seen by [fit] is a [ValueError]. *)
Fixpoint transform (classes : list value) (y : list value) : result (list nat) :=
  match y with
  | [] => Ok []
  | x :: y' =>
      match index_of x classes with
      | None => Raise (ValueError "y contains previously unseen labels")
      | Some i =>
          match transform classes y' with
          | Ok codes => Ok (i :: codes)
          | Raise e => Raise e
          end
      end
  end.

Definition fit_transform (y : list value) : result (list value * list nat) :=
  (do classes <- fit y;
   do codes <- transform classes y;
   Ok (classes, codes))%result.

(** [LabelEncoder.inverse_transform] of one code. *)
Definition inverse_transform (classes : list value) (code : nat) : option value :=
  classes !! code.

End Sklearn.

(** ** The metrics in binary64

    The arrays the metrics are computed from hold binary64 numbers, and
    numpy rounds after every addition, so a sum depends on the order of
    its terms.  This module gives the six metrics with that arithmetic
    (the kernel's primitive floats) and numpy's order of accumulation; it
    is what the scripts store for sequences that passed the checks of
    [Sklearn.check_reg_targets]. *)

Module Binary64.
Import Floats.PrimFloat.

Abbreviation float := PrimFloat.float.

(** numpy's [pairwise_sum], the inner loop of [np.add.reduce] on a
    contiguous array: fewer than 8 numbers are added one after the other,
    from the left; up to 128 numbers are added into 8 running sums that
    are then combined; a longer array is cut in two. *)
Definition sum_loop (res : float) (a : list float) : float :=
  fold_left PrimFloat.add a res.

(** The 8 running sums after [blocks] further blocks of 8 numbers. *)
Fixpoint add_blocks (blocks : nat) (r a : list float) : list float :=
  match blocks with
  | O => r
  | S blocks' =>
      add_blocks blocks' (zip_with PrimFloat.add r (take 8 a)) (drop 8 a)
  end.

(** From 8 to 128 numbers: the running sums start as the first 8 numbers,
    take the following whole blocks of 8, are combined in pairs, and the
    numbers left over are added one after the other. *)
Definition unrolled_sum (a : list float) : float :=
  let n := length a in
  let r := add_blocks (n / 8 - 1) (take 8 a) (drop 8 a) in
  let at_ i := nth i r zero in
  let res := (((at_ 0%nat + at_ 1%nat) + (at_ 2%nat + at_ 3%nat))
              + ((at_ 4%nat + at_ 5%nat) + (at_ 6%nat + at_ 7%nat)))%float in
  sum_loop res (drop (n - n mod 8) a).

(** [fuel] bounds the depth of the halving; the length of the array is
    enough. *)
Fixpoint pairwise_sum (fuel : nat) (a : list float) : float :=
  let n := length a in
  if (n <? 8)%nat then sum_loop zero a
  else if (n <=? 128)%nat then unrolled_sum a
  else
    match fuel with
    | O => unrolled_sum a
    | S fuel' =>
        let n2 := (n / 2 - (n / 2) mod 8)%nat in
        (pairwise_sum fuel' (take n2 a) + pairwise_sum fuel' (drop n2 a))%float
    end.

(** [np.sum]: the reduction starts from the identity of the addition. *)
Definition np_sum (a : list float) : float :=
  (zero + pairwise_sum (length a) a)%float.

(** The count of the entries, as a float. *)
Definition np_size (a : list float) : float :=
  of_uint63 (Uint63.of_Z (Z.of_nat (length a))).

(** [np.average] without weights: the sum divided by the count. *)
Definition np_mean (a : list float) : float := (np_sum a / np_size a)%float.

(** [x ** 2] on an array of floats. *)
Definition square (x : float) : float := (x * x)%float.

(** The order numpy sorts floats in: by value, every nan after every
    number. *)
Definition np_lt (x y : float) : bool :=
  (x <? y)%float || (is_nan y && negb (is_nan x)).
Definition np_le (x y : float) : Prop := np_lt y x = false.
Global Instance np_le_dec : RelDecision np_le.
Proof. intros x y. unfold np_le. apply _. Defined.

(** [np.median]: nan when an entry is nan; otherwise the mean of the one
    or two middle entries of the sorted array. *)
Definition np_median (a : list float) : float :=
  if existsb is_nan a then nan
  else
    let part := merge_sort np_le a in
    let sz := length a in
    np_mean (if Nat.even sz then take 2 (drop (sz / 2 - 1) part)
             else take 1 (drop (sz / 2) part)).

(** [np.average(output, weights=None)] over the single output column. *)
Definition uniform_average (x : float) : float := np_mean [x].

(** [y_true - y_pred] and [np.abs(y_pred - y_true)], entry by entry. *)
Definition residuals (yt yp : list float) : list float :=
  zip_with PrimFloat.sub yt yp.
Definition absolute_errors (yt yp : list float) : list float :=
  map abs (zip_with PrimFloat.sub yp yt).

(** The metrics of [sklearn.metrics], on one output column and without
    sample weights. *)
Definition mean_squared_error (yt yp : list float) : float :=
  uniform_average (np_mean (map square (residuals yt yp))).

Definition mean_absolute_error (yt yp : list float) : float :=
  uniform_average (np_mean (absolute_errors yt yp)).

Definition median_absolute_error (yt yp : list float) : float :=
  uniform_average (np_median (absolute_errors yt yp)).

(** [_assemble_r2_explained_variance], with [force_finite=True]. *)
Definition assemble_score (numerator denominator : float) : float :=
  let nonzero_denominator := negb (denominator =? zero)%float in
  let nonzero_numerator := negb (numerator =? zero)%float in
  if nonzero_denominator && nonzero_numerator
  then (one - numerator / denominator)%float
  else if nonzero_numerator then zero else one.

(** [r2_score]: nan for fewer than two samples; [weight] is [1.0]. *)
Definition r2_score (yt yp : list float) : float :=
  if (length yp <? 2)%nat then nan
  else
    let numerator :=
      np_sum (map (fun d => (one * square d)%float) (residuals yt yp)) in
    let y_avg := np_mean yt in
    let denominator :=
      np_sum (map (fun y => (one * square (y - y_avg))%float) yt) in
    uniform_average (assemble_score numerator denominator).

Definition explained_variance_score (yt yp : list float) : float :=
  let diff := residuals yt yp in
  let y_diff_avg := np_mean diff in
  let numerator := np_mean (map (fun d => square (d - y_diff_avg)%float) diff) in
  let y_true_avg := np_mean yt in
  let denominator := np_mean (map (fun y => square (y - y_true_avg)%float) yt) in
  uniform_average (assemble_score numerator denominator).



End Binary64.

(** The order of [Binary64.np_lt] on the specifications of the floats, and
    a rank in a lexicographic order that realises it. *)

Module FloatOrder.
Import Floats.SpecFloat.

Definition sf_is_nan (s : spec_float) : bool :=
  match s with S754_nan => true | _ => false end.

Definition sf_lt (s t : spec_float) : bool :=
  SFltb s t || (sf_is_nan t && negb (sf_is_nan s)).

Definition sf_rank (s : spec_float) : Z * Z * Z :=
  match s with
  | S754_nan => (3, 0, 0)
  | S754_infinity true => (-2, 0, 0)
  | S754_infinity false => (2, 0, 0)
  | S754_zero _ => (0, 0, 0)
  | S754_finite false m e => (1, e, Z.pos m)
  | S754_finite true m e => (-1, - e, - Z.pos m)
  end%Z.

Definition lex_lt (p q : Z * Z * Z) : Prop :=
  (p.1.1 < q.1.1 \/
   (p.1.1 = q.1.1 /\ (p.1.2 < q.1.2 \/ (p.1.2 = q.1.2 /\ p.2 < q.2))))%Z.

End FloatOrder.


(** A workbook as [pd.read_excel(file, sheet_name=None)] returns it: the
    sheets by name, in the order of the file. *)
Abbreviation Workbook := (list (string * Pandas.DataFrame)).

(** Reading an attribute of [self] that no method has assigned yet. *)
Definition attr {A} (name : string) (o : option A) : result A :=
  match o with
  | Some a => Ok a
  | None => Raise (AttributeError name)
  end.

(** [for x in xs: ...] over a fallible body that threads an accumulator. *)
Fixpoint for_each {X A} (body : X -> A -> result A) (xs : list X) (acc : A)
  : result A :=
  match xs with
  | [] => Ok acc
  | x :: rest =>
      match body x acc with
      | Ok acc' => for_each body rest acc'
      | Raise e => Raise e
      end
  end.

(** [[f(x) for x in xs]] with a fallible [f]. *)
Fixpoint comprehension {X Y} (f : X -> result Y) (xs : list X) : result (list Y) :=
  match xs with
  | [] => Ok []
  | x :: rest =>
      match f x with
      | Ok y =>
          match comprehension f rest with
          | Ok ys => Ok (y :: ys)
          | Raise e => Raise e
          end
      | Raise e => Raise e
      end
  end.

(** ** scr/ARIMA_lib.py *)

Module ARIMA.
Import Pandas Sklearn.

(** One entry of [predictions]: [(comune, prediction, true value)]. *)
Abbreviation prediction := (value * value * value)%type.

Record ARIMAForecaster : Type := mkARIMA {
  excel_data : Workbook;
  combined_data : DataFrame;
  train_data : option DataFrame;
  test_data : option DataFrame;
  total_time_set : bool;               (* [self.total_time]; the duration is not modelled *)
  predictions : option (list prediction);
  mse : option Qc;
  rmse : option Rdefinitions.R;
  r2 : option (option Qc);             (* [Some None] is nan *)
  evs : option Qc;
  mae : option Qc;
  medae : option Qc;
  (** the file [cns_deaths_predictions_ARIMA.csv], once written *)
  predictions_csv : option (list (value * value))
}.

Definition set_train_data (v : DataFrame) (s : ARIMAForecaster) : ARIMAForecaster :=
  mkARIMA (excel_data s) (combined_data s) (Some v) (test_data s)
    (total_time_set s) (predictions s) (mse s) (rmse s) (r2 s) (evs s) (mae s)
    (medae s) (predictions_csv s).
Definition set_test_data (v : DataFrame) (s : ARIMAForecaster) : ARIMAForecaster :=
  mkARIMA (excel_data s) (combined_data s) (train_data s) (Some v)
    (total_time_set s) (predictions s) (mse s) (rmse s) (r2 s) (evs s) (mae s)
    (medae s) (predictions_csv s).
Definition set_total_time (s : ARIMAForecaster) : ARIMAForecaster :=
  mkARIMA (excel_data s) (combined_data s) (train_data s) (test_data s)
    true (predictions s) (mse s) (rmse s) (r2 s) (evs s) (mae s)
    (medae s) (predictions_csv s).
Definition set_predictions (v : list prediction) (s : ARIMAForecaster) : ARIMAForecaster :=
  mkARIMA (excel_data s) (combined_data s) (train_data s) (test_data s)
    (total_time_set s) (Some v) (mse s) (rmse s) (r2 s) (evs s) (mae s)
    (medae s) (predictions_csv s).
Definition set_mse (v : Qc) (s : ARIMAForecaster) : ARIMAForecaster :=
  mkARIMA (excel_data s) (combined_data s) (train_data s) (test_data s)
    (total_time_set s) (predictions s) (Some v) (rmse s) (r2 s) (evs s) (mae s)
    (medae s) (predictions_csv s).
Definition set_rmse (v : Rdefinitions.R) (s : ARIMAForecaster) : ARIMAForecaster :=
  mkARIMA (excel_data s) (combined_data s) (train_data s) (test_data s)
    (total_time_set s) (predictions s) (mse s) (Some v) (r2 s) (evs s) (mae s)
    (medae s) (predictions_csv s).
Definition set_r2 (v : option Qc) (s : ARIMAForecaster) : ARIMAForecaster :=
  mkARIMA (excel_data s) (combined_data s) (train_data s) (test_data s)
    (total_time_set s) (predictions s) (mse s) (rmse s) (Some v) (evs s) (mae s)
    (medae s) (predictions_csv s).
Definition set_evs (v : Qc) (s : ARIMAForecaster) : ARIMAForecaster :=
  mkARIMA (excel_data s) (combined_data s) (train_data s) (test_data s)
    (total_time_set s) (predictions s) (mse s) (rmse s) (r2 s) (Some v) (mae s)
    (medae s) (predictions_csv s).
Definition set_mae (v : Qc) (s : ARIMAForecaster) : ARIMAForecaster :=
  mkARIMA (excel_data s) (combined_data s) (train_data s) (test_data s)
    (total_time_set s) (predictions s) (mse s) (rmse s) (r2 s) (evs s) (Some v)
    (medae s) (predictions_csv s).
Definition set_medae (v : Qc) (s : ARIMAForecaster) : ARIMAForecaster :=
  mkARIMA (excel_data s) (combined_data s) (train_data s) (test_data s)
    (total_time_set s) (predictions s) (mse s) (rmse s) (r2 s) (evs s) (mae s)
    (Some v) (predictions_csv s).
Definition set_predictions_csv (v : list (value * value)) (s : ARIMAForecaster)
  : ARIMAForecaster :=
  mkARIMA (excel_data s) (combined_data s) (train_data s) (test_data s)
    (total_time_set s) (predictions s) (mse s) (rmse s) (r2 s) (evs s) (mae s)
    (medae s) (Some v).

Section Forecaster.

(** What the script takes from outside.
    - [py_int]: Python's [int(str)], [None] where it raises [ValueError];
    - [date_range n]: [pd.date_range(start="2000-01-01", periods=n,
      freq="A")], which raises once the range leaves the timestamps pandas
      can represent; only whether it raises matters, the index it returns
      replaces row labels that nothing reads;
    - [auto_arima series]: [pm.auto_arima(series, ...)] followed by
      [model.predict(n_periods=1)] and [forecast[0]]: the one-step forecast
      for the series, or the exception the library raises. *)
Variable py_int : string -> option Z.
Variable date_range : nat -> result unit.
Variable auto_arima : list value -> result value.

(** The year a sheet is tagged with. *)
Definition year_value (y : Z) : value := Num (Qc_of_Z y).

Definition tag_sheet (sheet : string * DataFrame) : result DataFrame :=
  match py_int sheet.1 with
  | Some y => Ok (assign "year" (year_value y) sheet.2)
  | None => Raise (ValueError "invalid literal for int() with base 10")
  end.

Definition prepare_data (excel_data : Workbook) : result DataFrame :=
  (do data_frames <- comprehension tag_sheet excel_data;
   do combined_data <- concat data_frames;
   Ok combined_data)%result.

Definition init (excel_data : Workbook) : result ARIMAForecaster :=
  (do combined <- prepare_data excel_data;
   Ok (mkARIMA excel_data combined None None false None None None None None
         None None None))%result.

Definition split_data (train_year test_year : Z) : method ARIMAForecaster unit :=
  (do s <- mget;
   do years <- mlift (getitem (combined_data s) "year");
   run mset (set_train_data
     (getitem_mask (combined_data s) (map (fun v => le_scalar v train_year) years)));
   do years' <- mlift (getitem (combined_data s) "year");
   mset (set_test_data
     (getitem_mask (combined_data s)
        (map (fun v => eq_scalar v (year_value test_year)) years'))))%method.

Definition predict_arima (city_data : DataFrame) : result value :=
  (do _ <- date_range (length (df_rows city_data));
   do series <- getitem city_data "cns deaths";
   auto_arima series)%result.

(** [df[df["comune"] == comune]] *)
Definition city_slice (df : DataFrame) (comune : value) : result DataFrame :=
  (do col <- getitem df "comune";
   Ok (getitem_mask df (map (fun v => eq_scalar v comune) col)))%result.

(** [df.iloc[0][c]] *)
Definition iloc0 (df : DataFrame) (c : string) : result value :=
  match df_rows df with
  | [] => Raise (LibraryError "IndexError: single positional indexer is out-of-bounds")
  | r :: _ => if decide (c ∈ df_columns df) then Ok (cell r c)
              else Raise (KeyError [c])
  end.

(** The body of the loop of [train_and_evaluate]. *)
Definition evaluate_city (s : ARIMAForecaster) (comune : value)
    (predictions : list prediction) : result (list prediction) :=
  (do train <- attr "train_data" (train_data s);
   do city_train_data <- city_slice train comune;
   do test <- attr "test_data" (test_data s);
   do city_test_data <- city_slice test comune;
   if negb (empty city_train_data) && negb (empty city_test_data) then
     do prediction <- predict_arima city_train_data;
     do truth <- iloc0 city_test_data "cns deaths";
     Ok (predictions ++ [(comune, prediction, truth)])
   else Ok predictions)%result.

Definition calculate_evaluation_metrics (predictions : list prediction)
  : method ARIMAForecaster unit :=
  let y_true := map (fun p : prediction => p.2) predictions in
  let y_pred := map (fun p : prediction => p.1.2) predictions in
  (do m <- mlift (mean_squared_error y_true y_pred);
   run mset (set_mse m);
   run mset (set_rmse (np_sqrt m));
   do r <- mlift (r2_score y_true y_pred);
   run mset (set_r2 r);
   do e <- mlift (explained_variance_score y_true y_pred);
   run mset (set_evs e);
   do a <- mlift (mean_absolute_error y_true y_pred);
   run mset (set_mae a);
   do d <- mlift (median_absolute_error y_true y_pred);
   mset (set_medae d))%method.

Definition train_and_evaluate : method ARIMAForecaster unit :=
  (do s <- mget;
   do comuni <- mlift (getitem (combined_data s) "comune");
   do predictions <- mlift (for_each (evaluate_city s) (unique comuni) []);
   run mset set_total_time;
   run mset (set_predictions predictions);
   calculate_evaluation_metrics predictions)%method.

Definition save_predictions (predictions : list (value * value))
  : method ARIMAForecaster unit :=
  mset (set_predictions_csv predictions).

(** The body of the loop of [predict_upcoming_year]. *)
Definition forecast_city (s : ARIMAForecaster) (comune : value)
    (predictions : list (value * value)) : result (list (value * value)) :=
  (do city_train_data <- city_slice (combined_data s) comune;
   if negb (empty city_train_data) then
     do prediction <- predict_arima city_train_data;
     Ok (predictions ++ [(comune, prediction)])
   else Ok predictions)%result.

Definition predict_upcoming_year (year : Z) : method ARIMAForecaster unit :=
  (do s <- mget;
   do years <- mlift (getitem (combined_data s) "year");
   let upcoming_year_data :=
     getitem_mask (combined_data s)
       (map (fun v => eq_scalar v (year_value year)) years) in
   do comuni <- mlift (getitem (combined_data s) "comune");
   do predictions_upcoming_year <-
     mlift (for_each (forecast_city s) (unique comuni) []);
   save_predictions predictions_upcoming_year)%method.

(** The statements at the end of the script, with the default arguments. *)
Definition script (excel_data : Workbook) : result unit * option ARIMAForecaster :=
  match init excel_data with
  | Raise e => (Raise e, None)
  | Ok forecaster =>
      let '(r, s) :=
        (run split_data 2018 2019;
         run train_and_evaluate;
         predict_upcoming_year 2020)%method forecaster in
      (r, Some s)
  end.

End Forecaster.
End ARIMA.

(** ** scr/xgb_lib.py *)

Module XGB.
Import Pandas Sklearn.

(** A fitted regressor, seen through [model.predict]. *)
Definition Model : Type := DataFrame -> result (list value).

Record XGBoostForecaster : Type := mkXGB {
  sheets_dict : Workbook;
  data : DataFrame;
  le : list value;                     (* [self.le.classes_] after the fit *)
  train_data : option DataFrame;
  test_data : option DataFrame;
  X_train : option DataFrame;
  y_train : option (list value);
  X_test : option DataFrame;
  y_test : option (list value);
  best_xgb_model : option Model;
  y_pred : option (list value);
  mse : option Qc;
  rmse : option Rdefinitions.R;
  r2 : option (option Qc);
  evs : option Qc;
  mae : option Qc;
  medae : option Qc;
  (** the file [predictions.csv], once written *)
  predictions_csv : option (list value)
}.

(** Assignments to the attributes, one field at a time. *)
Record SplitAttrs : Type := mkSplit {
  s_train_data : option DataFrame;
  s_test_data : option DataFrame;
  s_X_train : option DataFrame;
  s_y_train : option (list value);
  s_X_test : option DataFrame;
  s_y_test : option (list value)
}.
Record MetricAttrs : Type := mkMetrics {
  m_mse : option Qc;
  m_rmse : option Rdefinitions.R;
  m_r2 : option (option Qc);
  m_evs : option Qc;
  m_mae : option Qc;
  m_medae : option Qc
}.

Definition split_attrs (s : XGBoostForecaster) : SplitAttrs :=
  mkSplit (train_data s) (test_data s) (X_train s) (y_train s) (X_test s) (y_test s).
Definition metric_attrs (s : XGBoostForecaster) : MetricAttrs :=
  mkMetrics (mse s) (rmse s) (r2 s) (evs s) (mae s) (medae s).

Definition with_split (f : SplitAttrs -> SplitAttrs) (s : XGBoostForecaster)
  : XGBoostForecaster :=
  let a := f (split_attrs s) in
  mkXGB (sheets_dict s) (data s) (le s) (s_train_data a) (s_test_data a)
    (s_X_train a) (s_y_train a) (s_X_test a) (s_y_test a) (best_xgb_model s)
    (y_pred s) (mse s) (rmse s) (r2 s) (evs s) (mae s) (medae s)
    (predictions_csv s).
Definition with_metrics (f : MetricAttrs -> MetricAttrs) (s : XGBoostForecaster)
  : XGBoostForecaster :=
  let a := f (metric_attrs s) in
  mkXGB (sheets_dict s) (data s) (le s) (train_data s) (test_data s)
    (X_train s) (y_train s) (X_test s) (y_test s) (best_xgb_model s)
    (y_pred s) (m_mse a) (m_rmse a) (m_r2 a) (m_evs a) (m_mae a) (m_medae a)
    (predictions_csv s).

Definition set_train_data (v : DataFrame) : XGBoostForecaster -> XGBoostForecaster :=
  with_split (fun a => mkSplit (Some v) (s_test_data a) (s_X_train a)
                         (s_y_train a) (s_X_test a) (s_y_test a)).
Definition set_test_data (v : DataFrame) : XGBoostForecaster -> XGBoostForecaster :=
  with_split (fun a => mkSplit (s_train_data a) (Some v) (s_X_train a)
                         (s_y_train a) (s_X_test a) (s_y_test a)).
Definition set_X_train (v : DataFrame) : XGBoostForecaster -> XGBoostForecaster :=
  with_split (fun a => mkSplit (s_train_data a) (s_test_data a) (Some v)
                         (s_y_train a) (s_X_test a) (s_y_test a)).
Definition set_y_train (v : list value) : XGBoostForecaster -> XGBoostForecaster :=
  with_split (fun a => mkSplit (s_train_data a) (s_test_data a) (s_X_train a)
                         (Some v) (s_X_test a) (s_y_test a)).
Definition set_X_test (v : DataFrame) : XGBoostForecaster -> XGBoostForecaster :=
  with_split (fun a => mkSplit (s_train_data a) (s_test_data a) (s_X_train a)
                         (s_y_train a) (Some v) (s_y_test a)).
Definition set_y_test (v : list value) : XGBoostForecaster -> XGBoostForecaster :=
  with_split (fun a => mkSplit (s_train_data a) (s_test_data a) (s_X_train a)
                         (s_y_train a) (s_X_test a) (Some v)).
Definition set_best_xgb_model (v : Model) (s : XGBoostForecaster) : XGBoostForecaster :=
  mkXGB (sheets_dict s) (data s) (le s) (train_data s) (test_data s)
    (X_train s) (y_train s) (X_test s) (y_test s) (Some v)
    (y_pred s) (mse s) (rmse s) (r2 s) (evs s) (mae s) (medae s)
    (predictions_csv s).
Definition set_y_pred (v : list value) (s : XGBoostForecaster) : XGBoostForecaster :=
  mkXGB (sheets_dict s) (data s) (le s) (train_data s) (test_data s)
    (X_train s) (y_train s) (X_test s) (y_test s) (best_xgb_model s)
    (Some v) (mse s) (rmse s) (r2 s) (evs s) (mae s) (medae s)
    (predictions_csv s).
Definition set_mse (v : Qc) : XGBoostForecaster -> XGBoostForecaster :=
  with_metrics (fun a => mkMetrics (Some v) (m_rmse a) (m_r2 a) (m_evs a)
                           (m_mae a) (m_medae a)).
Definition set_rmse (v : Rdefinitions.R) : XGBoostForecaster -> XGBoostForecaster :=
  with_metrics (fun a => mkMetrics (m_mse a) (Some v) (m_r2 a) (m_evs a)
                           (m_mae a) (m_medae a)).
Definition set_r2 (v : option Qc) : XGBoostForecaster -> XGBoostForecaster :=
  with_metrics (fun a => mkMetrics (m_mse a) (m_rmse a) (Some v) (m_evs a)
                           (m_mae a) (m_medae a)).
Definition set_evs (v : Qc) : XGBoostForecaster -> XGBoostForecaster :=
  with_metrics (fun a => mkMetrics (m_mse a) (m_rmse a) (m_r2 a) (Some v)
                           (m_mae a) (m_medae a)).
Definition set_mae (v : Qc) : XGBoostForecaster -> XGBoostForecaster :=
  with_metrics (fun a => mkMetrics (m_mse a) (m_rmse a) (m_r2 a) (m_evs a)
                           (Some v) (m_medae a)).
Definition set_medae (v : Qc) : XGBoostForecaster -> XGBoostForecaster :=
  with_metrics (fun a => mkMetrics (m_mse a) (m_rmse a) (m_r2 a) (m_evs a)
                           (m_mae a) (Some v)).
Definition set_predictions_csv (v : list value) (s : XGBoostForecaster)
  : XGBoostForecaster :=
  mkXGB (sheets_dict s) (data s) (le s) (train_data s) (test_data s)
    (X_train s) (y_train s) (X_test s) (y_test s) (best_xgb_model s)
    (y_pred s) (mse s) (rmse s) (r2 s) (evs s) (mae s) (medae s) (Some v).

(** The columns the assembler keeps, in its order. *)
Definition kept_columns : list string :=
  ["year"; "comune"; "PM2.5"; "PM10"; "cns deaths"].
Definition feature_columns : list string :=
  ["year"; "comune"; "PM2.5"; "PM10"].

(** [data.index // 107] on the fresh index [0 .. n-1] that
    [ignore_index=True] gives the concatenation. *)
Definition index_year (n : nat) : list value :=
  map (fun i : nat => Num (Qc_of_Z (Z.of_nat i / 107))) (seq 0 n).

Definition prepare_data (sheets_dict : Workbook) : result DataFrame :=
  (do data <- concat (map snd sheets_dict);
   let data := setitem "year" (index_year (length (df_rows data))) data in
   do data <- getitem_list data kept_columns;
   Ok data)%result.

Definition code_value (code : nat) : value := Num (Qc_of_Z (Z.of_nat code)).

Definition init (sheets_dict : Workbook) : result XGBoostForecaster :=
  (do data <- prepare_data sheets_dict;
   do comune <- getitem data "comune";
   do fitted <- fit_transform comune;
   let data := setitem "comune" (map code_value fitted.2) data in
   Ok (mkXGB sheets_dict data fitted.1 None None None None None None None None
         None None None None None None None))%result.

Definition split_data : method XGBoostForecaster unit :=
  (do s <- mget;
   do years <- mlift (getitem (data s) "year");
   run mset (set_train_data
     (getitem_mask (data s) (map (fun v => lt_scalar v 10) years)));
   do years' <- mlift (getitem (data s) "year");
   run mset (set_test_data
     (getitem_mask (data s) (map (fun v => eq_scalar v (Num (Qc_of_Z 10))) years')));
   do s <- mget;
   do train <- mlift (attr "train_data" (train_data s));
   do xtr <- mlift (getitem_list train feature_columns);
   run mset (set_X_train xtr);
   do ytr <- mlift (getitem train "cns deaths");
   run mset (set_y_train ytr);
   do test <- mlift (attr "test_data" (test_data s));
   do xte <- mlift (getitem_list test feature_columns);
   run mset (set_X_test xte);
   do yte <- mlift (getitem test "cns deaths");
   mset (set_y_test yte))%method.

Section Forecaster.

(** [grid_search_fit X y]: the grid search over the fixed parameter grid
    followed by the refit of the best configuration, or the exception the
    libraries raise. *)
Variable grid_search_fit : DataFrame -> list value -> result Model.

Definition train : method XGBoostForecaster unit :=
  (do s <- mget;
   do x <- mlift (attr "X_train" (X_train s));
   do y <- mlift (attr "y_train" (y_train s));
   do model <- mlift (grid_search_fit x y);
   mset (set_best_xgb_model model))%method.

Definition predict : method XGBoostForecaster unit :=
  (do s <- mget;
   do model <- mlift (attr "best_xgb_model" (best_xgb_model s));
   do x <- mlift (attr "X_test" (X_test s));
   do y <- mlift (model x);
   mset (set_y_pred y))%method.

Definition evaluate : method XGBoostForecaster unit :=
  (do s <- mget;
   do y_true <- mlift (attr "y_test" (y_test s));
   do y_hat <- mlift (attr "y_pred" (y_pred s));
   do m <- mlift (mean_squared_error y_true y_hat);
   run mset (set_mse m);
   run mset (set_rmse (np_sqrt m));
   do r <- mlift (r2_score y_true y_hat);
   run mset (set_r2 r);
   do e <- mlift (explained_variance_score y_true y_hat);
   run mset (set_evs e);
   do a <- mlift (mean_absolute_error y_true y_hat);
   run mset (set_mae a);
   do d <- mlift (median_absolute_error y_true y_hat);
   mset (set_medae d))%method.

Definition save_predictions : method XGBoostForecaster unit :=
  (do s <- mget;
   do y <- mlift (attr "y_pred" (y_pred s));
   mset (set_predictions_csv y))%method.

Definition script (sheets_dict : Workbook) : result unit * option XGBoostForecaster :=
  match init sheets_dict with
  | Raise e => (Raise e, None)
  | Ok forecaster =>
      let '(r, s) :=
        (run split_data; run train; run predict; run evaluate;
         save_predictions)%method forecaster in
      (r, Some s)
  end.

End Forecaster.
End XGB.

(** ** Vocabulary of the specification *)

Module Spec.
Import Pandas.

(** The identity of a record: its entity and its year. *)
Definition key (r : row) : value * value := (cell r "comune", cell r "year").

Definition year_field (r : row) : option Qc :=
  match r !! "year" with
  | Some (Num q) => Some q
  | _ => None
  end.

(** The record carries the calendar year [y]. *)
Definition has_year (y : Z) (r : row) : Prop :=
  r !! "year" = Some (Num (Qc_of_Z y)).

Definition year_le (t : Z) (r : row) : Prop :=
  match year_field r with
  | Some q => (q ≤ Qc_of_Z t)%Qc
  | None => False
  end.

Definition year_lt (t : Z) (r : row) : Prop :=
  match year_field r with
  | Some q => (q < Qc_of_Z t)%Qc
  | None => False
  end.

Definition year_eq (t : Z) (r : row) : Prop :=
  year_field r = Some (Qc_of_Z t).

Global Instance year_le_dec t r : Decision (year_le t r).
Proof. unfold year_le. destruct (year_field r); apply _. Defined.
Global Instance year_lt_dec t r : Decision (year_lt t r).
Proof. unfold year_lt. destruct (year_field r); apply _. Defined.
Global Instance year_eq_dec t r : Decision (year_eq t r).
Proof. unfold year_eq. apply _. Defined.

(** Two sets of records share no (entity_id, year) pair. *)
Definition disjoint_by_key (train test : DataFrame) : Prop :=
  forall r1 r2, r1 ∈ df_rows train -> r2 ∈ df_rows test -> key r1 <> key r2.

(** The rows of an entity: those whose identifier equals it. *)
Definition of_entity (comune : value) (r : row) : Prop :=
  comune <> NaN /\ cell r "comune" = comune.

Global Instance of_entity_dec c r : Decision (of_entity c r).
Proof. unfold of_entity. apply _. Defined.

(** Every row with the sheet it was read from. *)
Definition provenance (wb : Workbook) : list (string * row) :=
  flat_map (fun sheet : string * DataFrame =>
              map (fun r => (sheet.1, r)) (df_rows sheet.2)) wb.

(** Every row with the position, from 0, of the sheet it was read from. *)
Fixpoint sheet_positions (k : nat) (wb : Workbook) : list nat :=
  match wb with
  | [] => []
  | sheet :: rest =>
      replicate (length (df_rows sheet.2)) k ++ sheet_positions (S k) rest
  end.

(** The year of every record is the year its sheet is named for. *)
Definition year_matches_sheet (py_int : string -> option Z) (wb : Workbook)
    (rows : list row) : Prop :=
  Forall2 (fun (src : string * row) r =>
             exists y, py_int src.1 = Some y /\ has_year y r)
          (provenance wb) rows.

(** The columns every sheet is required to have, and a workbook in which
    some sheet lacks one of them. *)
Definition required_columns : list string := ["comune"; "cns deaths"].

Definition lacks_required_column (wb : Workbook) : Prop :=
  exists sheet c, sheet ∈ wb /\ c ∈ required_columns /\ (c ∉ df_columns sheet.2).

(** An assembler that fails on every such workbook. *)
Definition assembler_rejects_missing_column
    (assemble : Workbook -> result DataFrame) (wb : Workbook) : Prop :=
  lacks_required_column wb -> exists e, assemble wb = Raise e.

(** The slice of an entity in a frame, and an entity with rows on both
    sides of the split. *)
Definition entity_rows (c : value) (df : DataFrame) : list row :=
  filter (of_entity c) (df_rows df).

Definition entity_slice (c : value) (df : DataFrame) : DataFrame :=
  mkDataFrame (df_columns df) (entity_rows c df).

Definition has_both_slices (s : ARIMA.ARIMAForecaster) (c : value) : Prop :=
  exists train test,
    ARIMA.train_data s = Some train /\ ARIMA.test_data s = Some test /\
    entity_rows c train <> [] /\ entity_rows c test <> [].

Definition entity_of (p : value * value * value) : value := p.1.1.

(** A failing fit for one entity that leaves the run with the predictions
    of every entity whose fit succeeds. *)
Definition fit_failure_is_local (date_range : nat -> result unit)
    (auto_arima : list value -> result value) (s : ARIMA.ARIMAForecaster) : Prop :=
  forall r s',
    ARIMA.train_and_evaluate date_range auto_arima s = (r, s') ->
    exists preds,
      ARIMA.predictions s' = Some preds /\
      forall c train,
        ARIMA.train_data s = Some train -> has_both_slices s c ->
        is_Ok (ARIMA.predict_arima date_range auto_arima (entity_slice c train)) ->
        c ∈ map entity_of preds.

(** The six metrics a forecaster holds after an evaluation, each as the
    attribute is: unset, or set to a value ([Some None] for nan). *)
Record MetricsSummary : Type := mkSummary {
  ms_mse : option Qc;
  ms_rmse : option Rdefinitions.R;
  ms_r2 : option (option Qc);
  ms_evs : option Qc;
  ms_mae : option Qc;
  ms_medae : option Qc
}.

Definition arima_summary (s : ARIMA.ARIMAForecaster) : MetricsSummary :=
  mkSummary (ARIMA.mse s) (ARIMA.rmse s) (ARIMA.r2 s) (ARIMA.evs s)
    (ARIMA.mae s) (ARIMA.medae s).

Definition xgb_summary (s : XGB.XGBoostForecaster) : MetricsSummary :=
  mkSummary (XGB.mse s) (XGB.rmse s) (XGB.r2 s) (XGB.evs s)
    (XGB.mae s) (XGB.medae s).

(** The summary of a perfect prediction. *)
Definition perfect_summary : MetricsSummary :=
  mkSummary (Some 0%Qc) (Some (Rdefinitions.IZR 0)) (Some (Some 1%Qc))
    (Some 1%Qc) (Some 0%Qc) (Some 0%Qc).

(** The same with an undefined coefficient of determination. *)
Definition perfect_summary_nan_r2 : MetricsSummary :=
  mkSummary (Some 0%Qc) (Some (Rdefinitions.IZR 0)) (Some None)
    (Some 1%Qc) (Some 0%Qc) (Some 0%Qc).

(** The summary both scripts compute from a pair of numeric sequences. *)
Definition summary_of (yt yp : list Qc) : MetricsSummary :=
  mkSummary (Some (Sklearn.mse_of yt yp))
    (Some (Sklearn.np_sqrt (Sklearn.mse_of yt yp)))
    (Some (Sklearn.r2_of yt yp)) (Some (Sklearn.evs_of yt yp))
    (Some (Sklearn.mae_of yt yp)) (Some (Sklearn.medae_of yt yp)).

(** The forecaster once the six metrics of the pair are stored in it. *)
Definition store_summary (yt yp : list Qc) (s : ARIMA.ARIMAForecaster)
  : ARIMA.ARIMAForecaster :=
  ARIMA.set_medae (Sklearn.medae_of yt yp)
    (ARIMA.set_mae (Sklearn.mae_of yt yp)
       (ARIMA.set_evs (Sklearn.evs_of yt yp)
          (ARIMA.set_r2 (Sklearn.r2_of yt yp)
             (ARIMA.set_rmse (Sklearn.np_sqrt (Sklearn.mse_of yt yp))
                (ARIMA.set_mse (Sklearn.mse_of yt yp) s))))).



(** Predictions that equal the true values [y], one per entity of [cs]. *)
Definition perfect_predictions (cs : list value) (y : list Qc)
  : list (value * value * value) :=
  zip_with (fun c q => (c, Num q, Num q)) cs y.

(** The claim of exact scores for one sequence [y]. *)
Definition perfect_metrics_claim (y : list Qc) : Prop :=
  y <> [] ->
  forall (s : ARIMA.ARIMAForecaster) (cs : list value),
    length cs = length y ->
    arima_summary
      (ARIMA.calculate_evaluation_metrics (perfect_predictions cs y) s).2
    = perfect_summary.

(** What one pass of the loop of [train_and_evaluate] contributes. *)
Definition city_outcome (date_range : nat -> result unit)
    (auto_arima : list value -> result value)
    (s : ARIMA.ARIMAForecaster) (comune : value)
  : result (option (value * value * value)) :=
  (do train <- attr "train_data" (ARIMA.train_data s);
   do city_train_data <- ARIMA.city_slice train comune;
   do test <- attr "test_data" (ARIMA.test_data s);
   do city_test_data <- ARIMA.city_slice test comune;
   if negb (empty city_train_data) && negb (empty city_test_data) then
     do prediction <- ARIMA.predict_arima date_range auto_arima city_train_data;
     do truth <- ARIMA.iloc0 city_test_data "cns deaths";
     Ok (Some (comune, prediction, truth))
   else Ok None)%result.

(** What one pass of the loop of [predict_upcoming_year] contributes. *)
Definition forecast_outcome (date_range : nat -> result unit)
    (auto_arima : list value -> result value)
    (s : ARIMA.ARIMAForecaster) (comune : value)
  : result (option (value * value)) :=
  (do city_train_data <- ARIMA.city_slice (ARIMA.combined_data s) comune;
   if negb (empty city_train_data) then
     do prediction <- ARIMA.predict_arima date_range auto_arima city_train_data;
     Ok (Some (comune, prediction))
   else Ok None)%result.

(** C10 as the spec states it: whatever the call does, the list it saves
    holds a prediction for every entity that has a record. *)
Definition forecasts_every_entity (date_range : nat -> result unit)
    (auto_arima : list value -> result value)
    (s : ARIMA.ARIMAForecaster) (year : Z) : Prop :=
  forall r s',
    ARIMA.predict_upcoming_year date_range auto_arima year s = (r, s') ->
    exists preds,
      ARIMA.predictions_csv s' = Some preds /\
      forall c, entity_rows c (ARIMA.combined_data s) <> [] -> c ∈ map fst preds.

(** Disjointness of the two sets a call of [split_data] leaves in the
    forecaster, for the time-series and for the tabular variant. *)
Definition ARIMA_split_disjoint (s : ARIMA.ARIMAForecaster) (t k : Z) : Prop :=
  forall s' tr te,
    ARIMA.split_data t k s = (Ok tt, s') ->
    ARIMA.train_data s' = Some tr -> ARIMA.test_data s' = Some te ->
    disjoint_by_key tr te.

Definition XGB_split_disjoint (s : XGB.XGBoostForecaster) : Prop :=
  forall s' tr te,
    XGB.split_data s = (Ok tt, s') ->
    XGB.train_data s' = Some tr -> XGB.test_data s' = Some te ->
    disjoint_by_key tr te.

End Spec.

(** ** Concrete inputs for the examples *)

Module Examples.
Import Pandas.

(** [int(str)] on unsigned decimal literals, the sheet names of the
    workbook the scripts are run on. *)
Definition digit_of (a : ascii) : option Z :=
  let n := Z.of_nat (nat_of_ascii a) in
  if ((48 <=? n) && (n <=? 57))%Z then Some (n - 48)%Z else None.

Fixpoint parse_digits (acc : Z) (s : string) : option Z :=
  match s with
  | EmptyString => Some acc
  | String a s' =>
      match digit_of a with
      | Some d => parse_digits (10 * acc + d)%Z s'
      | None => None
      end
  end.

Definition parse_decimal (s : string) : option Z :=
  match s with
  | EmptyString => None
  | _ => parse_digits 0 s
  end.

Definition num (z : Z) : value := Num (Qc_of_Z z).

(** A row of a sheet: an entity and its outcome. *)
Definition obs (comune : string) (deaths : Z) : row :=
  {[ "comune" := Str comune; "cns deaths" := num deaths ]}.

Definition sheet (rows : list row) : DataFrame :=
  mkDataFrame ["comune"; "cns deaths"] rows.

(** One entity observed in one year. *)
Definition wb_one : Workbook := [("2018", sheet [obs "A" 5])].

(** Two entities over three years; "B" has no row in 2019. *)
Definition wb_two : Workbook :=
  [("2017", sheet [obs "A" 4; obs "B" 7]);
   ("2018", sheet [obs "A" 5; obs "B" 8]);
   ("2019", sheet [obs "A" 6])].

(** A sheet without the entity column. *)
Definition wb_no_comune : Workbook :=
  [("2018", mkDataFrame ["cns deaths"] [{[ "cns deaths" := num 5 ]}])].

(** A forecaster that carries the last observation forward and cannot be
    fitted on fewer than two observations. *)
Definition naive_forecast (series : list value) : result value :=
  match series with
  | [] | [_] => Raise (LibraryError "too few observations")
  | _ => Ok (List.last series NaN)
  end.

Definition any_range (n : nat) : result unit := Ok tt.

(** Sheets of the tabular variant, with the two covariates. *)
Definition xobs (comune : string) (pm25 pm10 deaths : Z) : row :=
  {[ "comune" := Str comune; "PM2.5" := num pm25; "PM10" := num pm10;
     "cns deaths" := num deaths ]}.
Definition xsheet (rows : list row) : DataFrame :=
  mkDataFrame ["comune"; "PM2.5"; "PM10"; "cns deaths"] rows.
Definition wb_x_one : Workbook := [("2018", xsheet [xobs "A" 10 20 5])].

(** A row of the assembled tabular dataset: the sheet's row with the year
    written into it, restricted to the columns the assembler keeps. *)
Definition xrow (y : Z) (comune : string) (pm25 pm10 deaths : Z) : row :=
  project XGB.kept_columns (<["year" := num y]> (xobs comune pm25 pm10 deaths)).

Definition d_x_one : DataFrame :=
  mkDataFrame XGB.kept_columns [xrow 0 "A" 10 20 5].
Definition wb_x_full : Workbook :=
  [("2009", xsheet (replicate 107 (xobs "A" 10 20 5)));
   ("2010", xsheet (replicate 107 (xobs "A" 11 21 6)))].

Definition d_x_full : DataFrame :=
  mkDataFrame XGB.kept_columns
    (replicate 107 (xrow 0 "A" 10 20 5) ++ replicate 107 (xrow 1 "A" 11 21 6)).

(** The rows of a sheet once tagged with its year, and the forecaster
    [__init__] builds from them. *)
Definition obs_in (y : Z) (comune : string) (deaths : Z) : row :=
  <["year" := num y]> (obs comune deaths).

Definition assembled (wb : Workbook) (rows : list row) : ARIMA.ARIMAForecaster :=
  ARIMA.mkARIMA wb (mkDataFrame ["comune"; "cns deaths"; "year"] rows)
    None None false None None None None None None None None.

Definition forecaster_one : ARIMA.ARIMAForecaster :=
  assembled wb_one [obs_in 2018 "A" 5].

Definition forecaster_two : ARIMA.ARIMAForecaster :=
  assembled wb_two
    [obs_in 2017 "A" 4; obs_in 2017 "B" 7; obs_in 2018 "A" 5; obs_in 2018 "B" 8;
     obs_in 2019 "A" 6].

(** What [split_data(2018, 2019)] leaves in [forecaster_two]. *)
Definition train_two : DataFrame :=
  mkDataFrame ["comune"; "cns deaths"; "year"]
    [obs_in 2017 "A" 4; obs_in 2017 "B" 7; obs_in 2018 "A" 5; obs_in 2018 "B" 8].
Definition test_two : DataFrame :=
  mkDataFrame ["comune"; "cns deaths"; "year"] [obs_in 2019 "A" 6].
Definition split_two : ARIMA.ARIMAForecaster :=
  ARIMA.set_test_data test_two (ARIMA.set_train_data train_two forecaster_two).

(** Workbooks with a column missing from one sheet, and from every sheet. *)
Definition wb_x_partial : Workbook :=
  [("2009", xsheet [xobs "A" 10 20 5]);
   ("2010", mkDataFrame ["comune"; "PM2.5"; "PM10"]
              [{[ "comune" := Str "A"; "PM2.5" := num 11; "PM10" := num 21 ]}])].

Definition d_no_comune : DataFrame :=
  mkDataFrame ["cns deaths"; "year"]
    [<["year" := num 2018]> {[ "cns deaths" := num 5 ]}].

Definition d_x_partial : DataFrame :=
  mkDataFrame XGB.kept_columns
    [xrow 0 "A" 10 20 5;
     project XGB.kept_columns
       (<["year" := num 0]>
          {[ "comune" := Str "A"; "PM2.5" := num 11; "PM10" := num 21 ]})].

Definition wb_x_no_deaths : Workbook :=
  [("2009", mkDataFrame ["comune"; "PM2.5"; "PM10"]
              [{[ "comune" := Str "A"; "PM2.5" := num 11; "PM10" := num 21 ]}])].

(** [forecaster_two] after [split_data(2018, 2019)] and
    [train_and_evaluate()] with the naive forecaster. *)
Definition evaluated_two : ARIMA.ARIMAForecaster :=
  (ARIMA.train_and_evaluate any_range naive_forecast split_two).2.

(** Two entities; "A" has a single observation up to 2018. *)
Definition wb_three : Workbook :=
  [("2017", sheet [obs "B" 7]);
   ("2018", sheet [obs "A" 5; obs "B" 8]);
   ("2019", sheet [obs "A" 6; obs "B" 9])].
Definition forecaster_three : ARIMA.ARIMAForecaster :=
  assembled wb_three
    [obs_in 2017 "B" 7; obs_in 2018 "A" 5; obs_in 2018 "B" 8;
     obs_in 2019 "A" 6; obs_in 2019 "B" 9].
Definition train_three : DataFrame :=
  mkDataFrame ["comune"; "cns deaths"; "year"]
    [obs_in 2017 "B" 7; obs_in 2018 "A" 5; obs_in 2018 "B" 8].
Definition test_three : DataFrame :=
  mkDataFrame ["comune"; "cns deaths"; "year"]
    [obs_in 2019 "A" 6; obs_in 2019 "B" 9].
Definition split_three : ARIMA.ARIMAForecaster :=
  ARIMA.set_test_data test_three (ARIMA.set_train_data train_three forecaster_three).

(** Two entities in the tabular variant, "B" first. *)
Definition wb_x_two : Workbook :=
  [("2009", xsheet [xobs "B" 10 20 5; xobs "A" 11 21 6]);
   ("2010", xsheet [xobs "B" 12 22 7])].

(** The row of the tabular dataset after the encoder replaced the
    identifier by its code. *)
Definition xenc (y : Z) (comune : string) (code : nat) (pm25 pm10 deaths : Z) : row :=
  <["comune" := XGB.code_value code]> (xrow y comune pm25 pm10 deaths).

(** The forecaster [__init__] builds from [wb_x_two]: "A" is coded 0 and
    "B" 1, and every row has the year index 0. *)
Definition x_two : XGB.XGBoostForecaster :=
  XGB.mkXGB wb_x_two
    (mkDataFrame XGB.kept_columns
       [xenc 0 "B" 1 10 20 5; xenc 0 "A" 0 11 21 6; xenc 0 "B" 1 12 22 7])
    [Str "A"; Str "B"]
    None None None None None None None None None None None None None None None.

(** Eleven sheets of 107 rows: the rows of the last sheet get the year
    index 10 and make up the test set. *)
Definition wb_x_eleven : Workbook :=
  map (fun name => (name, xsheet (replicate 106 (xobs "B" 10 20 5) ++ [xobs "A" 11 21 6])))
      ["2009"; "2010"; "2011"; "2012"; "2013"; "2014"; "2015"; "2016"; "2017";
       "2018"; "2019"].

Definition x_eleven_year (y : nat) : list row :=
  replicate 106 (xenc (Z.of_nat y) "B" 1 10 20 5)
  ++ [xenc (Z.of_nat y) "A" 0 11 21 6].

Definition x_eleven : XGB.XGBoostForecaster :=
  XGB.mkXGB wb_x_eleven
    (mkDataFrame XGB.kept_columns (flat_map x_eleven_year (seq 0 11)))
    [Str "A"; Str "B"]
    None None None None None None None None None None None None None None None.

Definition x_eleven_split : XGB.XGBoostForecaster := (XGB.split_data x_eleven).2.

End Examples.

(** ** The final report, and the forecasters a program can hold *)

Module Console.
Import Pandas.

(** What [print] shows for a value: a number, a real, nan, or a duration
    (whose value is not modelled). *)
Inductive shown : Type :=
  | ShowQ (q : Qc)
  | ShowR (x : Rdefinitions.R)
  | ShowNan
  | ShowSeconds.

Definition show_score (o : option Qc) : shown :=
  match o with
  | Some q => ShowQ q
  | None => ShowNan
  end.

(** [print(label, self.attr)] for each entry in turn.  The attribute is
    read before the line is printed: an unset attribute raises
    [AttributeError] after the lines above it were printed. *)
Fixpoint print_lines (entries : list (string * string * option shown))
  : list (string * shown) * result unit :=
  match entries with
  | [] => ([], Ok tt)
  | (label, _, Some v) :: rest =>
      let '(out, r) := print_lines rest in ((label, v) :: out, r)
  | (_, name, None) :: _ => ([], Raise (AttributeError name))
  end.

(** [ARIMAForecaster.print_evaluation_metrics]: the lines printed and the
    outcome. *)
Definition print_evaluation_metrics (s : ARIMA.ARIMAForecaster)
  : list (string * shown) * result unit :=
  print_lines
    [("Mean Squared Error:", "mse", ShowQ <$> ARIMA.mse s);
     ("Root Mean Squared Error:", "rmse", ShowR <$> ARIMA.rmse s);
     ("R2 Score:", "r2", show_score <$> ARIMA.r2 s);
     ("Explained Variance Score:", "evs", ShowQ <$> ARIMA.evs s);
     ("Mean Absolute Error:", "mae", ShowQ <$> ARIMA.mae s);
     ("Median Absolute Error:", "medae", ShowQ <$> ARIMA.medae s);
     ("Time taken to train the model:", "total_time",
      if ARIMA.total_time_set s then Some ShowSeconds else None)].

(** The forecasters a program can hold: the one the constructor returns,
    and the one a call of a method leaves, whether it returned or raised.
    There is a constructor for each method that assigns an attribute, with
    any arguments; [prepare_data], [predict_arima] and
    [print_evaluation_metrics] assign none and leave the forecaster as it
    is. *)
Inductive reachable (py_int : string -> option Z)
    (date_range : nat -> result unit) (auto_arima : list value -> result value)
    (wb : Workbook) : ARIMA.ARIMAForecaster -> Prop :=
  | reach_init s :
      ARIMA.init py_int wb = Ok s ->
      reachable py_int date_range auto_arima wb s
  | reach_split_data s t k :
      reachable py_int date_range auto_arima wb s ->
      reachable py_int date_range auto_arima wb (ARIMA.split_data t k s).2
  | reach_train_and_evaluate s :
      reachable py_int date_range auto_arima wb s ->
      reachable py_int date_range auto_arima wb
        (ARIMA.train_and_evaluate date_range auto_arima s).2
  | reach_calculate_evaluation_metrics s predictions :
      reachable py_int date_range auto_arima wb s ->
      reachable py_int date_range auto_arima wb
        (ARIMA.calculate_evaluation_metrics predictions s).2
  | reach_predict_upcoming_year s year :
      reachable py_int date_range auto_arima wb s ->
      reachable py_int date_range auto_arima wb
        (ARIMA.predict_upcoming_year date_range auto_arima year s).2
  | reach_save_predictions s predictions :
      reachable py_int date_range auto_arima wb s ->
      reachable py_int date_range auto_arima wb
        (ARIMA.save_predictions predictions s).2.

(** The metrics are all unset, or all set together with the fit time and
    the prediction list. *)
Definition metrics_unset (s : ARIMA.ARIMAForecaster) : Prop :=
  ARIMA.mse s = None /\ ARIMA.rmse s = None /\ ARIMA.r2 s = None /\
  ARIMA.evs s = None /\ ARIMA.mae s = None /\ ARIMA.medae s = None.

Definition metrics_set (s : ARIMA.ARIMAForecaster) : Prop :=
  is_Some (ARIMA.mse s) /\ is_Some (ARIMA.rmse s) /\ is_Some (ARIMA.r2 s) /\
  is_Some (ARIMA.evs s) /\ is_Some (ARIMA.mae s) /\ is_Some (ARIMA.medae s) /\
  ARIMA.total_time_set s = true /\ is_Some (ARIMA.predictions s).

(** The six metrics are set (the fit time may not be: a direct call of
    [calculate_evaluation_metrics] sets the metrics only). *)
Definition scores_set (s : ARIMA.ARIMAForecaster) : Prop :=
  is_Some (ARIMA.mse s) /\ is_Some (ARIMA.rmse s) /\ is_Some (ARIMA.r2 s) /\
  is_Some (ARIMA.evs s) /\ is_Some (ARIMA.mae s) /\ is_Some (ARIMA.medae s).

(** The six lines of the metrics, as the report prints them. *)
Definition metric_lines (m : Qc) (x : Rdefinitions.R) (r : option Qc)
    (e a d : Qc) : list (string * shown) :=
  [("Mean Squared Error:", ShowQ m);
   ("Root Mean Squared Error:", ShowR x);
   ("R2 Score:", show_score r);
   ("Explained Variance Score:", ShowQ e);
   ("Mean Absolute Error:", ShowQ a);
   ("Median Absolute Error:", ShowQ d)].

(** The whole script: the statements of [ARIMA.script] followed by the
    final [print_evaluation_metrics()]. *)
Definition main (py_int : string -> option Z)
    (date_range : nat -> result unit) (auto_arima : list value -> result value)
    (excel_data : Workbook)
  : list (string * shown) * result unit * option ARIMA.ARIMAForecaster :=
  match ARIMA.script py_int date_range auto_arima excel_data with
  | (Ok _, Some s) =>
      let '(out, r) := print_evaluation_metrics s in (out, r, Some s)
  | (r, o) => ([], r, o)
  end.

End Console.

(** ** The tabular forecaster once split *)

Module Pipeline.
Import Pandas Spec XGB.

(** The forecaster [split_data] leaves when the dataset has the assembled
    columns: the six attributes it assigns, in the order it assigns them. *)
Definition split_result (s : XGBoostForecaster) : XGBoostForecaster :=
  let tr := mkDataFrame (df_columns (data s))
              (filter (year_lt 10) (df_rows (data s))) in
  let te := mkDataFrame (df_columns (data s))
              (filter (year_eq 10) (df_rows (data s))) in
  set_y_test (map (fun r => cell r "cns deaths") (df_rows te))
    (set_X_test (mkDataFrame feature_columns
                   (map (project feature_columns) (df_rows te)))
       (set_y_train (map (fun r => cell r "cns deaths") (df_rows tr))
          (set_X_train (mkDataFrame feature_columns
                          (map (project feature_columns) (df_rows tr)))
             (set_test_data te (set_train_data tr s))))).

End Pipeline.

(** ** Further example runs *)

Module Scenarios.
Import Pandas Examples.

(** A regressor that predicts the same number for every row. *)
Definition constant_fit (X : DataFrame) (y : list value) : result XGB.Model :=
  Ok (fun X' => Ok (map (fun _ => num 5) (df_rows X'))).

(** [forecaster_two] split on a test year that has no sheet. *)
Definition no_test_two : ARIMA.ARIMAForecaster :=
  (ARIMA.split_data 2018 2020 forecaster_two).2.

(** [forecaster_two] after a direct call of
    [calculate_evaluation_metrics], without [train_and_evaluate]. *)
Definition scored_two : ARIMA.ARIMAForecaster :=
  (ARIMA.calculate_evaluation_metrics [(Str "A", num 5, num 6)] forecaster_two).2.

(** The whole time-series script on [wb_two], with the naive forecaster. *)
Definition main_two
  : list (string * Console.shown) * result unit * option ARIMA.ARIMAForecaster :=
  Console.main parse_decimal any_range naive_forecast wb_two.

End Scenarios.

(** ** Predictions that show the rounding of a sum *)

Module Rounding.
Import Floats.PrimFloat.


End Rounding.


(** Closed equations between runs of the model are checked by evaluation. *)
Ltac vm_refl :=
  lazymatch goal with
  | |- ?a = ?b => vm_cast_no_check (@eq_refl _ b)
  end.

(** ** Facts about the pandas operations *)

Section PandasFacts.
Import Pandas.

Lemma select_mask (p : row -> bool) (rows : list row) :
  select (map p rows) rows = filter (fun r => p r) rows.
Proof.
  induction rows as [|r rows IH]; [reflexivity|].
  cbn [map select]. rewrite filter_cons, IH.
  destruct (p r); [rewrite decide_True | rewrite decide_False]; simpl; auto.
Qed.

Lemma select_column_mask (p : value -> bool) (c : string) (rows : list row) :
  select (map p (map (fun r => cell r c) rows)) rows
  = filter (fun r => p (cell r c)) rows.
Proof. rewrite map_map. apply (select_mask (fun r => p (cell r c))). Qed.

Lemma getitem_Ok df c col :
  getitem df c = Ok col ->
  c ∈ df_columns df /\ col = map (fun r => cell r c) (df_rows df).
Proof. unfold getitem. case_decide; intros [= <-]; auto. Qed.

Lemma getitem_in df c :
  c ∈ df_columns df -> getitem df c = Ok (map (fun r => cell r c) (df_rows df)).
Proof. intros H. unfold getitem. by rewrite decide_True. Qed.

Lemma getitem_Raise df c e :
  getitem df c = Raise e -> (c ∉ df_columns df) /\ e = KeyError [c].
Proof. unfold getitem. case_decide; intros [= <-]; auto. Qed.

Lemma unique_from_elem seen l x :
  (x ∈ unique_from seen l) <-> (x ∈ l /\ (x ∉ seen)).
Proof.
  revert seen. induction l as [|a l IH]; intros seen; cbn [unique_from].
  - split; [intros H; by apply elem_of_nil in H | intros [H _]; by apply elem_of_nil in H].
  - destruct (decide (a ∈ seen)) as [Ha|Ha].
    + rewrite IH, elem_of_cons. split; [tauto|].
      intros [[->|H] Hn]; [contradiction | tauto].
    + rewrite !elem_of_cons, IH, elem_of_cons. split.
      * intros [->|[H Hn]]; [tauto|]. split; [tauto|]. intros Hs. apply Hn. tauto.
      * intros [[->|H] Hn]; [tauto|].
        destruct (decide (x = a)) as [->|Hxa]; [tauto|].
        right. split; [done|]. intros [?|?]; contradiction.
Qed.

Lemma unique_from_NoDup seen l : NoDup (unique_from seen l).
Proof.
  revert seen. induction l as [|a l IH]; intros seen; cbn [unique_from].
  - constructor.
  - destruct (decide (a ∈ seen)) as [Ha|Ha]; [apply IH|].
    constructor; [|apply IH].
    rewrite unique_from_elem. intros [_ Hn]. apply Hn. left.
Qed.

Lemma unique_elem l x : x ∈ unique l <-> x ∈ l.
Proof.
  unfold unique. rewrite unique_from_elem. split; [tauto|].
  intros H. split; [done|]. intros Hn. by apply elem_of_nil in Hn.
Qed.

Lemma unique_NoDup l : NoDup (unique l).
Proof. apply unique_from_NoDup. Qed.

End PandasFacts.

(** ** Facts about the two partitioners and the assemblers *)

Section MaskFacts.
Import Pandas Spec.

Lemma le_scalar_year t r : le_scalar (cell r "year") t <-> year_le t r.
Proof.
  unfold le_scalar, year_le, year_field, cell.
  destruct (r !! "year") as [[|s|q]|]; simpl; try tauto.
  apply bool_decide_spec.
Qed.

Lemma lt_scalar_year t r : lt_scalar (cell r "year") t <-> year_lt t r.
Proof.
  unfold lt_scalar, year_lt, year_field, cell.
  destruct (r !! "year") as [[|s|q]|]; simpl; try tauto.
  apply bool_decide_spec.
Qed.

Lemma eq_scalar_year t r :
  eq_scalar (cell r "year") (Num (Qc_of_Z t)) <-> year_eq t r.
Proof.
  unfold eq_scalar, year_eq, year_field, cell.
  destruct (r !! "year") as [[|s|q]|]; simpl;
    rewrite ?bool_decide_spec; split; (tauto || congruence).
Qed.

End MaskFacts.

Section ARIMAFacts.
Import Pandas Spec ARIMA.
Variable py_int : string -> option Z.

Lemma split_data_run (s : ARIMAForecaster) t k :
  "year" ∈ df_columns (combined_data s) ->
  split_data t k s =
    (Ok tt,
     set_test_data
       (mkDataFrame (df_columns (combined_data s))
          (filter (year_eq k) (df_rows (combined_data s))))
       (set_train_data
          (mkDataFrame (df_columns (combined_data s))
             (filter (year_le t) (df_rows (combined_data s)))) s)).
Proof.
  intros Hy. unfold split_data, mbind, mget, mlift, mset.
  rewrite (getitem_in _ _ Hy). cbv beta iota. unfold getitem_mask.
  rewrite !select_column_mask.
  rewrite (list_filter_iff (fun r => le_scalar (cell r "year") t) (year_le t))
    by (intros r; apply le_scalar_year).
  rewrite (list_filter_iff (fun r => eq_scalar (cell r "year") (year_value k))
             (year_eq k)) by (intros r; apply eq_scalar_year).
  reflexivity.
Qed.

Lemma comprehension_Ok {X Y} (f : X -> result Y) xs ys :
  comprehension f xs = Ok ys <-> Forall2 (fun x y => f x = Ok y) xs ys.
Proof.
  revert ys. induction xs as [|x xs IH]; intros ys; simpl.
  - split; [intros [= <-]; constructor | inversion 1; reflexivity].
  - destruct (f x) as [y|e] eqn:Hx.
    + destruct (comprehension f xs) as [ys'|e] eqn:Hxs.
      * split.
        -- intros [= <-]. constructor; [assumption | by apply IH].
        -- inversion 1 as [|? y0 ? ys0 Hy Hys]; subst.
           apply IH in Hys. congruence.
      * split; [discriminate|].
        inversion 1 as [|? y0 ? ys0 Hy Hys]; subst.
        apply IH in Hys. discriminate.
    + split; [discriminate|]. inversion 1; congruence.
Qed.

Lemma union_columns_elem c acc frames :
  c ∈ union_columns acc frames <->
  (c ∈ acc \/ exists df, df ∈ frames /\ c ∈ df_columns df).
Proof.
  revert acc. induction frames as [|df frames IH]; intros acc; simpl.
  - split; [auto | intros [H|(df & H & _)]; [done | by apply elem_of_nil in H]].
  - rewrite IH, elem_of_app, list_elem_of_filter. split.
    + intros [[H|[_ H]]|(df' & H1 & H2)]; eauto.
      * right. exists df. split; [left|done].
      * right. exists df'. split; [by right|done].
    + intros [H|(df' & H1 & H2)]; [by left; left|].
      apply elem_of_cons in H1 as [->|H1]; [|right; eauto].
      destruct (decide (c ∈ acc)); [by left; left | by left; right].
Qed.

Lemma concat_Ok frames d :
  concat frames = Ok d ->
  frames <> [] /\
  d = mkDataFrame (union_columns [] frames) (List.concat (map df_rows frames)).
Proof. destruct frames; [discriminate|]. intros [= <-]. split; [done|reflexivity]. Qed.

Lemma tag_sheet_Ok sheet df :
  ARIMA.tag_sheet py_int sheet = Ok df ->
  exists y, py_int sheet.1 = Some y /\
            df = assign "year" (ARIMA.year_value y) sheet.2.
Proof.
  unfold ARIMA.tag_sheet. destruct (py_int sheet.1) as [y|]; [|discriminate].
  intros [= <-]. eauto.
Qed.

Lemma add_column_elem c cols : c ∈ add_column c cols.
Proof. unfold add_column. case_decide; [done|]. apply elem_of_app. right. by left. Qed.

(** Every record of the assembled time-series dataset is the sheet's row
    with the year of the sheet's name written into it. *)
Lemma prepare_data_rows wb d :
  prepare_data py_int wb = Ok d ->
  Forall2 (fun (src : string * row) r =>
             exists y, py_int src.1 = Some y /\
                       r = <["year" := ARIMA.year_value y]> src.2)
          (provenance wb) (df_rows d).
Proof.
  unfold prepare_data, rbind.
  destruct (comprehension _ wb) as [frames|e] eqn:Hc; [|discriminate].
  destruct (concat frames) as [d'|e] eqn:Hd; [|discriminate].
  intros [= <-]. apply concat_Ok in Hd as [_ ->]. cbn [df_rows].
  apply comprehension_Ok in Hc. clear -Hc.
  induction Hc as [|sheet df wb frames Hs _ IH]; [constructor|].
  apply tag_sheet_Ok in Hs as (y & Hy & ->).
  cbn [provenance flat_map map List.concat assign df_rows].
  apply Forall2_app; [|exact IH].
  clear -Hy. induction (df_rows sheet.2) as [|r rows IHr]; constructor; eauto.
Qed.

Lemma prepare_data_year_column wb d :
  prepare_data py_int wb = Ok d -> "year" ∈ df_columns d.
Proof.
  unfold prepare_data, rbind.
  destruct (comprehension _ wb) as [frames|e] eqn:Hc; [|discriminate].
  destruct (concat frames) as [d'|e] eqn:Hd; [|discriminate].
  intros [= <-]. apply concat_Ok in Hd as [Hne ->]. cbn [df_columns].
  apply comprehension_Ok in Hc.
  destruct Hc as [|sheet df wb frames Hs _]; [done|].
  apply tag_sheet_Ok in Hs as (y & Hy & ->).
  apply union_columns_elem. right. eexists. split; [by left|].
  apply add_column_elem.
Qed.
End ARIMAFacts.

Section XGBFacts.
Import Pandas Spec XGB.

Lemma xgb_split_data_Ok (s s' : XGBoostForecaster) :
  split_data s = (Ok tt, s') ->
  train_data s' = Some (mkDataFrame (df_columns (data s))
                          (filter (year_lt 10) (df_rows (data s)))) /\
  test_data s' = Some (mkDataFrame (df_columns (data s))
                          (filter (year_eq 10) (df_rows (data s)))) /\
  data s' = data s.
Proof.
  unfold split_data, mbind, mget, mlift, mset.
  destruct (getitem (data s) "year") as [years|e] eqn:Hy; [|discriminate].
  apply getitem_Ok in Hy as [_ ->]. cbv beta iota.
  cbn [train_data test_data set_train_data set_test_data with_split
       split_attrs s_train_data s_test_data attr].
  unfold getitem_mask. rewrite !select_column_mask.
  rewrite (list_filter_iff (fun r => lt_scalar (cell r "year") 10) (year_lt 10))
    by (intros r; apply lt_scalar_year).
  rewrite (list_filter_iff (fun r => eq_scalar (cell r "year") (Num (Qc_of_Z 10)))
             (year_eq 10)) by (intros r; apply eq_scalar_year).
  destruct (getitem_list _ feature_columns) as [xtr|e]; [|discriminate].
  destruct (getitem _ "cns deaths") as [ytr|e]; [|discriminate].
  destruct (getitem_list _ feature_columns) as [xte|e]; [|discriminate].
  destruct (getitem _ "cns deaths") as [yte|e]; [|discriminate].
  intros [= <-]. cbn. auto.
Qed.
End XGBFacts.

(** ** The partitioner: claims C4 and C1 *)

Section SplitTheorems.
Import Pandas Spec Examples.

Lemma has_year_le y t r : has_year y r -> year_le t r <-> (y <= t)%Z.
Proof.
  unfold has_year, year_le, year_field. intros ->.
  symmetry. apply Z2Qc_inj_le.
Qed.

Lemma has_year_lt y t r : has_year y r -> year_lt t r <-> (y < t)%Z.
Proof.
  unfold has_year, year_lt, year_field. intros ->.
  symmetry. apply Z2Qc_inj_lt.
Qed.

Lemma has_year_eq y t r : has_year y r -> year_eq t r <-> y = t.
Proof.
  unfold has_year, year_eq, year_field. intros ->.
  split; [intros H; apply Z2Qc_inj; congruence | by intros ->].
Qed.

Lemma init_Ok py_int wb s :
  ARIMA.init py_int wb = Ok s ->
  ARIMA.prepare_data py_int wb = Ok (ARIMA.combined_data s) /\
  ARIMA.train_data s = None /\ ARIMA.test_data s = None.
Proof.
  unfold ARIMA.init, rbind.
  destruct (ARIMA.prepare_data py_int wb) as [d|e]; [|discriminate].
  intros [= <-]. auto.
Qed.

Lemma prepare_data_has_year py_int wb d :
  ARIMA.prepare_data py_int wb = Ok d ->
  Forall (fun r => exists y, has_year y r) (df_rows d).
Proof.
  intros H. apply prepare_data_rows in H.
  induction H as [|src r srcs rows (y & _ & ->) _ IH]; constructor; [|exact IH].
  exists y. unfold has_year. apply lookup_insert_eq.
Qed.

(** C4.  On every assembled dataset and for every pair of years the
    time-series [split_data] returns; it leaves as [train_data] exactly the
    records whose year is at most [train_year] and as [test_data] exactly
    those whose year equals [test_year], in the order and with the
    multiplicity of the dataset: nothing that passes a filter is dropped,
    nothing that fails it is kept.  Every record of the dataset carries an
    integer year, which is what the two filters compare. *)
Theorem split_data_exact py_int wb s t k :
  ARIMA.init py_int wb = Ok s ->
  exists tr te s',
    ARIMA.split_data t k s = (Ok tt, s') /\
    ARIMA.train_data s' = Some tr /\
    ARIMA.test_data s' = Some te /\
    df_rows tr = filter (year_le t) (df_rows (ARIMA.combined_data s)) /\
    df_rows te = filter (year_eq k) (df_rows (ARIMA.combined_data s)) /\
    Forall (fun r => exists y, has_year y r /\
                       (year_le t r <-> (y <= t)%Z) /\ (year_eq k r <-> y = k))
           (df_rows (ARIMA.combined_data s)).
Proof.
  intros Hinit. apply init_Ok in Hinit as (Hprep & _ & _).
  pose proof (prepare_data_year_column _ _ _ Hprep) as Hcol.
  do 3 eexists. split; [apply split_data_run, Hcol|].
  cbn. repeat split.
  eapply Forall_impl; [apply (prepare_data_has_year _ _ _ Hprep)|].
  intros r [y Hy]. exists y.
  auto using has_year_le, has_year_eq.
Qed.

Lemma init_wb_one : ARIMA.init parse_decimal wb_one = Ok forecaster_one.
Proof. vm_refl. Qed.

Lemma init_wb_two : ARIMA.init parse_decimal wb_two = Ok forecaster_two.
Proof. vm_refl. Qed.

(** C4 on the workbook [wb_two], split at 2018 / 2019. *)
Lemma split_data_exact_witness :
  ARIMA.init parse_decimal wb_two = Ok forecaster_two /\
  exists tr te s',
    ARIMA.split_data 2018 2019 forecaster_two = (Ok tt, s') /\
    ARIMA.train_data s' = Some tr /\
    ARIMA.test_data s' = Some te /\
    df_rows tr = filter (year_le 2018) (df_rows (ARIMA.combined_data forecaster_two)) /\
    df_rows te = filter (year_eq 2019) (df_rows (ARIMA.combined_data forecaster_two)) /\
    Forall (fun r => exists y, has_year y r /\
                       (year_le 2018 r <-> (y <= 2018)%Z) /\
                       (year_eq 2019 r <-> y = 2019%Z))
           (df_rows (ARIMA.combined_data forecaster_two)).
Proof.
  split; [exact init_wb_two|].
  exact (split_data_exact parse_decimal wb_two forecaster_two 2018 2019 init_wb_two).
Defined.

Lemma split_data_Ok s t k s' :
  ARIMA.split_data t k s = (Ok tt, s') ->
  ARIMA.train_data s' =
    Some (mkDataFrame (df_columns (ARIMA.combined_data s))
            (filter (year_le t) (df_rows (ARIMA.combined_data s)))) /\
  ARIMA.test_data s' =
    Some (mkDataFrame (df_columns (ARIMA.combined_data s))
            (filter (year_eq k) (df_rows (ARIMA.combined_data s)))).
Proof.
  destruct (decide ("year" ∈ df_columns (ARIMA.combined_data s))) as [Hy|Hy].
  - rewrite (split_data_run s t k Hy). intros [= <-]. auto.
  - unfold ARIMA.split_data, mbind, mget, mlift. unfold getitem.
    rewrite decide_False by done. discriminate.
Qed.

Lemma year_eq_cell k r : year_eq k r <-> cell r "year" = Num (Qc_of_Z k).
Proof.
  unfold year_eq, year_field, cell.
  destruct (r !! "year") as [[|s|q]|]; simpl; split; congruence.
Qed.

Lemma year_le_cell t r :
  year_le t r <-> exists q, cell r "year" = Num q /\ (q ≤ Qc_of_Z t)%Qc.
Proof.
  unfold year_le, year_field, cell.
  destruct (r !! "year") as [[|s|q]|]; simpl;
    (split; [try tauto; eauto | intros (q' & H & Hq); congruence]).
Qed.

Lemma year_lt_cell t r :
  year_lt t r <-> exists q, cell r "year" = Num q /\ (q < Qc_of_Z t)%Qc.
Proof.
  unfold year_lt, year_field, cell.
  destruct (r !! "year") as [[|s|q]|]; simpl;
    (split; [try tauto; eauto | intros (q' & H & Hq); congruence]).
Qed.

(** C1 (amended).  The sets [split_data] leaves share no (entity, year)
    pair in the tabular variant, and in the time-series variant whenever
    [train_year < test_year].  When [test_year <= train_year] every record
    of the test set is a record of the training set as well. *)
Theorem split_disjoint :
  (forall (s : ARIMA.ARIMAForecaster) (t k : Z),
      (t < k)%Z -> ARIMA_split_disjoint s t k) /\
  (forall s : XGB.XGBoostForecaster, XGB_split_disjoint s) /\
  (forall (s s' : ARIMA.ARIMAForecaster) (t k : Z) tr te,
      (k <= t)%Z ->
      ARIMA.split_data t k s = (Ok tt, s') ->
      ARIMA.train_data s' = Some tr -> ARIMA.test_data s' = Some te ->
      df_rows te ⊆ df_rows tr).
Proof.
  split; [|split].
  - intros s t k Htk s' tr te Hrun Htr Hte r1 r2 H1 H2 Hkey.
    apply split_data_Ok in Hrun as [Htr' Hte'].
    rewrite Htr in Htr'. rewrite Hte in Hte'.
    injection Htr' as ->. injection Hte' as ->. cbn [df_rows] in H1, H2.
    apply list_elem_of_filter in H1 as [H1 _].
    apply list_elem_of_filter in H2 as [H2 _].
    apply year_le_cell in H1 as (q & Hq & Hle). apply year_eq_cell in H2.
    injection Hkey as _ Hyear. rewrite Hq, H2 in Hyear.
    injection Hyear as ->. apply Z2Qc_inj_le in Hle. lia.
  - intros s s' tr te Hrun Htr Hte r1 r2 H1 H2 Hkey.
    apply xgb_split_data_Ok in Hrun as (Htr' & Hte' & _).
    rewrite Htr in Htr'. rewrite Hte in Hte'.
    injection Htr' as ->. injection Hte' as ->. cbn [df_rows] in H1, H2.
    apply list_elem_of_filter in H1 as [H1 _].
    apply list_elem_of_filter in H2 as [H2 _].
    apply year_lt_cell in H1 as (q & Hq & Hlt). apply year_eq_cell in H2.
    injection Hkey as _ Hyear. rewrite Hq, H2 in Hyear.
    injection Hyear as ->. apply Z2Qc_inj_lt in Hlt. lia.
  - intros s s' t k tr te Hkt Hrun Htr Hte r Hr.
    apply split_data_Ok in Hrun as [Htr' Hte'].
    rewrite Htr in Htr'. rewrite Hte in Hte'.
    injection Htr' as ->. injection Hte' as ->. cbn [df_rows] in *.
    apply list_elem_of_filter in Hr as [Hk Hr].
    apply list_elem_of_filter. split; [|exact Hr].
    apply year_le_cell. apply year_eq_cell in Hk.
    eexists. split; [exact Hk|]. exact (proj1 (Z2Qc_inj_le k t) Hkt).
Qed.


Lemma split_two_run :
  ARIMA.split_data 2018 2019 forecaster_two = (Ok tt, split_two).
Proof. vm_refl. Qed.

(** C1 on [forecaster_two]: with 2018 < 2019 the four training rows and the
    one test row share no key. *)
Lemma split_disjoint_witness :
  (2018 < 2019)%Z /\
  ARIMA.split_data 2018 2019 forecaster_two = (Ok tt, split_two) /\
  ARIMA.train_data split_two = Some train_two /\
  ARIMA.test_data split_two = Some test_two /\
  disjoint_by_key train_two test_two.
Proof.
  assert (Hlt : (2018 < 2019)%Z) by lia.
  split; [exact Hlt|]. split; [exact split_two_run|].
  split; [reflexivity|]. split; [reflexivity|].
  exact (proj1 split_disjoint forecaster_two 2018%Z 2019%Z Hlt
           split_two train_two test_two split_two_run eq_refl eq_refl).
Defined.

(** C1 as stated fails: with [train_year = test_year = 2018] the row of 2018
    is in both sets. *)
Lemma split_overlap_counterexample :
  ARIMA.init parse_decimal wb_one = Ok forecaster_one /\
  ~ ARIMA_split_disjoint forecaster_one 2018 2018.
Proof.
  split; [exact init_wb_one|].
  intros H.
  pose (d := ARIMA.combined_data forecaster_one).
  assert (Hrun : ARIMA.split_data 2018 2018 forecaster_one
                 = (Ok tt, ARIMA.set_test_data d (ARIMA.set_train_data d forecaster_one)))
    by vm_refl.
  assert (Hin : obs_in 2018 "A" 5 ∈ df_rows d) by left.
  exact (H _ d d Hrun eq_refl eq_refl _ _ Hin Hin eq_refl).
Qed.
End SplitTheorems.

(** ** The assemblers: claim C6 *)

Section YearTheorems.
Import Pandas Spec Examples.

Lemma getitem_list_Ok df cols d :
  getitem_list df cols = Ok d ->
  (forall c, c ∈ cols -> c ∈ df_columns df) /\
  d = mkDataFrame cols (map (project cols) (df_rows df)).
Proof.
  unfold getitem_list.
  destruct (filter _ cols) as [|c0 miss] eqn:Hf; [|discriminate].
  intros [= <-]. split; [|reflexivity].
  intros c Hc. destruct (decide (c ∈ df_columns df)) as [|Hn]; [done|].
  assert (c ∈ filter (fun c => c ∉ df_columns df) cols) as Hin
    by (apply list_elem_of_filter; auto).
  rewrite Hf in Hin. by apply elem_of_nil in Hin.
Qed.

Lemma getitem_list_Raise df cols e :
  getitem_list df cols = Raise e ->
  exists c, c ∈ cols /\ (c ∉ df_columns df) /\
            e = KeyError (filter (fun c => c ∉ df_columns df) cols).
Proof.
  unfold getitem_list.
  destruct (filter _ cols) as [|c0 miss] eqn:Hf; [discriminate|].
  intros [= <-]. exists c0.
  assert (c0 ∈ filter (fun c => c ∉ df_columns df) cols) as Hin
    by (rewrite Hf; left).
  apply list_elem_of_filter in Hin as [? ?]. auto.
Qed.

Lemma project_kept_year r :
  project XGB.kept_columns r !! "year" = Some (cell r "year").
Proof. unfold project, XGB.kept_columns. cbn [map list_to_map foldr]. 
  apply lookup_insert_eq. Qed.

Lemma index_year_lookup n i :
  (i < n)%nat ->
  XGB.index_year n !! i = Some (Num (Qc_of_Z (Z.of_nat i / 107))).
Proof.
  intros Hi. unfold XGB.index_year.
  rewrite list_lookup_fmap, lookup_seq_lt by done. reflexivity.
Qed.

Lemma provenance_rows wb :
  map snd (provenance wb) = List.concat (map df_rows (map snd wb)).
Proof.
  induction wb as [|[name df] wb IH]; [reflexivity|].
  cbn [provenance flat_map map List.concat fst snd].
  rewrite map_app, map_map. cbn [snd]. rewrite map_id.
  f_equal. exact IH.
Qed.

(** The rows of the assembled tabular dataset, position by position. *)
Lemma xgb_prepare_data_rows wb d :
  XGB.prepare_data wb = Ok d ->
  length (df_rows d) = length (provenance wb) /\
  forall i r, df_rows d !! i = Some r ->
    exists src, provenance wb !! i = Some src /\
      r = project XGB.kept_columns
            (<["year" := Num (Qc_of_Z (Z.of_nat i / 107))]> src.2).
Proof.
  unfold XGB.prepare_data, rbind.
  destruct (concat (map snd wb)) as [d0|e] eqn:Hc; [|discriminate].
  apply concat_Ok in Hc as [_ ->]. cbn [df_rows].
  destruct (getitem_list _ XGB.kept_columns) as [d1|e] eqn:Hg; [|discriminate].
  intros [= <-]. apply getitem_list_Ok in Hg as [_ ->].
  cbn [df_rows setitem].
  rewrite <- provenance_rows.
  split.
  - rewrite length_map, length_zip_with, length_map.
    unfold XGB.index_year. rewrite !length_map, length_seq. lia.
  - intros i r Hr.
    rewrite list_lookup_fmap in Hr.
    destruct (zip_with _ _ _ !! i) as [r1|] eqn:Hz; [|discriminate].
    injection Hr as <-.
    apply lookup_zip_with_Some in Hz as (r0 & v & -> & Hr0 & Hv).
    rewrite list_lookup_fmap in Hr0.
    destruct (provenance wb !! i) as [src|] eqn:Hsrc; [|discriminate].
    injection Hr0 as <-.
    rewrite index_year_lookup in Hv.
    + injection Hv as <-. eauto.
    + rewrite length_map. by eapply lookup_lt_Some.
Qed.

Lemma sheet_positions_full k wb i p :
  Forall (fun sheet : string * DataFrame =>
            length (df_rows sheet.2) = 107%nat) wb ->
  sheet_positions k wb !! i = Some p ->
  Z.of_nat p = (Z.of_nat k + Z.of_nat i / 107)%Z.
Proof.
  intros Hall. revert k i. induction Hall as [|sheet wb Hlen _ IH]; intros k i.
  - cbn. discriminate.
  - cbn [sheet_positions]. rewrite Hlen. intros Hp.
    destruct (decide (i < 107)%nat) as [Hi|Hi].
    + rewrite lookup_app_l in Hp by (rewrite length_replicate; lia).
      apply lookup_replicate in Hp as [-> _].
      rewrite Z.div_small by lia. lia.
    + rewrite lookup_app_r in Hp by (rewrite length_replicate; lia).
      rewrite length_replicate in Hp. apply IH in Hp. rewrite Hp.
      replace (Z.of_nat i) with (Z.of_nat (i - 107) + 1 * 107)%Z by lia.
      rewrite Z.div_add by lia. lia.
Qed.


(** C6 (amended).  In the time-series variant every record of the assembled
    dataset is its sheet's row with the integer the sheet is named for
    written into [year].  In the tabular variant the record at position [i]
    of the concatenation carries the year [i // 107]; that is the position
    of its sheet in the workbook, counted from 0, when every sheet has
    exactly 107 rows.  It is not the year the sheet is named for. *)
Theorem year_of_record :
  (forall py_int wb d,
      ARIMA.prepare_data py_int wb = Ok d ->
      Forall2 (fun (src : string * row) r =>
                 exists y, py_int src.1 = Some y /\
                           r = <["year" := Num (Qc_of_Z y)]> src.2)
              (provenance wb) (df_rows d)) /\
  (forall wb d,
      XGB.prepare_data wb = Ok d ->
      length (df_rows d) = length (provenance wb) /\
      forall i r, df_rows d !! i = Some r ->
        has_year (Z.of_nat i / 107) r /\
        (Forall (fun sheet : string * DataFrame =>
                   length (df_rows sheet.2) = 107%nat) wb ->
         forall k, sheet_positions 0 wb !! i = Some k ->
                   has_year (Z.of_nat k) r)).
Proof.
  split.
  - intros py_int wb d H. exact (prepare_data_rows py_int wb d H).
  - intros wb d H. apply xgb_prepare_data_rows in H as [Hlen Hrows].
    split; [exact Hlen|]. intros i r Hr.
    destruct (Hrows i r Hr) as (src & _ & ->).
    assert (Hy : has_year (Z.of_nat i / 107)
                   (project XGB.kept_columns
                      (<["year" := Num (Qc_of_Z (Z.of_nat i / 107))]> src.2))).
    { unfold has_year. rewrite project_kept_year. unfold cell.
      by rewrite lookup_insert_eq. }
    split; [exact Hy|].
    intros Hfull k Hk. apply (sheet_positions_full _ _ _ _ Hfull) in Hk.
    rewrite Hk. exact Hy.
Qed.

Lemma xgb_prepare_full : XGB.prepare_data wb_x_full = Ok d_x_full.
Proof. vm_refl. Qed.

(** C6 on two sheets of 107 rows: row 107 comes from the second sheet and
    carries the year index 1. *)
Lemma year_of_record_witness :
  XGB.prepare_data wb_x_full = Ok d_x_full /\
  df_rows d_x_full !! 107%nat = Some (xrow 1 "A" 11 21 6) /\
  Forall (fun sheet : string * DataFrame =>
            length (df_rows sheet.2) = 107%nat) wb_x_full /\
  sheet_positions 0 wb_x_full !! 107%nat = Some 1%nat /\
  has_year 1 (xrow 1 "A" 11 21 6).
Proof.
  assert (H2 : df_rows d_x_full !! 107%nat = Some (xrow 1 "A" 11 21 6))
    by reflexivity.
  assert (Hfull : Forall (fun sheet : string * DataFrame =>
              length (df_rows sheet.2) = 107%nat) wb_x_full).
  { repeat constructor; apply length_replicate. }
  assert (H3 : sheet_positions 0 wb_x_full !! 107%nat = Some 1%nat)
    by reflexivity.
  split; [exact xgb_prepare_full|]. split; [exact H2|].
  split; [exact Hfull|]. split; [exact H3|].
  exact (proj2 (proj2 (proj2 year_of_record wb_x_full _ xgb_prepare_full)
                  107%nat _ H2) Hfull 1%nat H3).
Defined.

Lemma xgb_prepare_one : XGB.prepare_data wb_x_one = Ok d_x_one.
Proof. vm_refl. Qed.

(** C6 as stated fails in the tabular variant: the only row of the sheet
    "2018" carries the year 0. *)
Lemma tabular_year_counterexample :
  XGB.prepare_data wb_x_one = Ok d_x_one /\
  ~ year_matches_sheet parse_decimal wb_x_one (df_rows d_x_one).
Proof.
  split; [exact xgb_prepare_one|].
  intros H. cbn [df_rows d_x_one] in H.
  apply Forall2_cons_1 in H as [(y & Hy & Hr) _].
  cbn in Hy. injection Hy as <-.
  unfold has_year, xrow in Hr. rewrite project_kept_year in Hr.
  unfold cell in Hr. rewrite lookup_insert_eq in Hr. cbn in Hr.
  injection Hr as Hr. vm_compute in Hr. discriminate Hr.
Qed.
End YearTheorems.

(** ** Missing columns: claim C3 *)

Section SchemaTheorems.
Import Pandas Spec Examples.

Lemma comprehension_Raise {X Y} (f : X -> result Y) xs e :
  comprehension f xs = Raise e -> exists x, x ∈ xs /\ f x = Raise e.
Proof.
  induction xs as [|x xs IH]; simpl; [discriminate|].
  destruct (f x) as [y|e'] eqn:Hx.
  - destruct (comprehension f xs) as [ys|e'']; [discriminate|].
    intros [= <-]. destruct IH as (x' & Hin & Hx'); [reflexivity|].
    exists x'. split; [by right|done].
  - intros [= <-]. exists x. split; [by left|done].
Qed.

Lemma comprehension_total {X Y} (f : X -> result Y) xs :
  Forall (fun x => is_Ok (f x)) xs -> is_Ok (comprehension f xs).
Proof.
  induction 1 as [|x xs [y Hy] _ [ys IH]]; simpl.
  - by eexists.
  - rewrite Hy, IH. by eexists.
Qed.

Lemma add_column_iff c' c cols : c' ∈ add_column c cols <-> c' = c \/ c' ∈ cols.
Proof.
  unfold add_column. case_decide.
  - split; [auto|]. intros [->|]; done.
  - rewrite elem_of_app, list_elem_of_singleton. tauto.
Qed.

Lemma arima_prepare_data_total py_int wb :
  is_Ok (ARIMA.prepare_data py_int wb) <->
  wb <> [] /\ Forall (fun sheet : string * DataFrame => is_Some (py_int sheet.1)) wb.
Proof.
  unfold ARIMA.prepare_data, rbind. split.
  - intros [d Hd].
    destruct (comprehension _ wb) as [frames|e] eqn:Hc; [|discriminate].
    destruct (concat frames) as [d'|e] eqn:Hcat; [|discriminate].
    apply concat_Ok in Hcat as [Hne _]. apply comprehension_Ok in Hc.
    split.
    + intros ->. inversion Hc. congruence.
    + clear -Hc. induction Hc as [|sheet df wb frames Hs _ IH]; constructor; auto.
      apply tag_sheet_Ok in Hs as (y & -> & _). by eexists.
  - intros [Hne Hall].
    destruct (comprehension_total (ARIMA.tag_sheet py_int) wb) as [frames Hf].
    { eapply Forall_impl; [exact Hall|]. intros sheet [y Hy].
      unfold ARIMA.tag_sheet. rewrite Hy. by eexists. }
    rewrite Hf. apply comprehension_Ok in Hf.
    destruct Hf; [done|]. simpl. by eexists.
Qed.

Lemma arima_prepare_data_Raise py_int wb e :
  ARIMA.prepare_data py_int wb = Raise e -> exists msg, e = ValueError msg.
Proof.
  unfold ARIMA.prepare_data, rbind.
  destruct (comprehension _ wb) as [frames|e'] eqn:Hc.
  - destruct frames; simpl; [|discriminate]. intros [= <-]. by eexists.
  - intros [= <-]. apply comprehension_Raise in Hc as (sheet & _ & Hs).
    unfold ARIMA.tag_sheet in Hs. destruct (py_int sheet.1); [discriminate|].
    injection Hs as <-. by eexists.
Qed.

Lemma xgb_prepare_data_KeyError wb :
  (exists labels, XGB.prepare_data wb = Raise (KeyError labels)) <->
  wb <> [] /\
  exists c, c ∈ ["comune"; "PM2.5"; "PM10"; "cns deaths"] /\
            Forall (fun sheet : string * DataFrame => c ∉ df_columns sheet.2) wb.
Proof.
  unfold XGB.prepare_data, rbind. split.
  - intros [labels H].
    destruct (concat (map snd wb)) as [d0|e] eqn:Hc.
    + apply concat_Ok in Hc as [Hne ->].
      destruct (getitem_list _ XGB.kept_columns) as [d1|e] eqn:Hg; [discriminate|].
      apply getitem_list_Raise in Hg as (c & Hc & Hn & _).
      cbn [setitem df_columns] in Hn. rewrite add_column_iff in Hn.
      split; [by destruct wb|].
      exists c. split.
      * unfold XGB.kept_columns in Hc. apply elem_of_cons in Hc as [->|Hc]; [|done].
        exfalso. apply Hn. by left.
      * apply Forall_forall. intros sheet Hs Hcs. apply Hn. right.
        apply union_columns_elem. right. exists sheet.2. split; [|done].
        apply list_elem_of_fmap. by exists sheet.
    + destruct wb; [|discriminate]. simpl in Hc. injection Hc as <-. discriminate.
  - intros [Hne (c & Hc & Hall)].
    destruct wb as [|sheet0 wb]; [done|].
    cbn [map concat].
    set (frames := sheet0.2 :: map snd wb).
    destruct (getitem_list _ XGB.kept_columns) as [d1|e] eqn:Hg.
    + exfalso. apply getitem_list_Ok in Hg as [Hin _].
      specialize (Hin c). cbn [setitem df_columns] in Hin.
      rewrite add_column_iff, union_columns_elem in Hin.
      destruct Hin as [->|[Hnil|(df & Hdf & Hcdf)]].
      * unfold XGB.kept_columns. by right.
      * repeat (apply elem_of_cons in Hc as [Hc|Hc]; [discriminate Hc|]).
        by apply elem_of_nil in Hc.
      * by apply elem_of_nil in Hnil.
      * change frames with (map snd (sheet0 :: wb)) in Hdf.
        apply list_elem_of_fmap in Hdf as (sheet & -> & Hs).
        rewrite Forall_forall in Hall. by apply (Hall sheet).
    + apply getitem_list_Raise in Hg as (_ & _ & _ & ->). by eexists.
Qed.


(** C3 (amended).  The time-series assembler never fails for a missing
    column: it returns exactly when the workbook has a sheet and every sheet
    name is an integer, and otherwise raises [ValueError]; without a
    [comune] column [train_and_evaluate] raises [KeyError] before it fits
    anything.  The tabular assembler raises [KeyError] exactly when one of
    [comune], [PM2.5], [PM10], [cns deaths] is in no sheet of a non-empty
    workbook; a failure of the assembler ends the script in the
    constructor, before any model is fitted. *)
Theorem schema_failures :
  (forall py_int wb,
      is_Ok (ARIMA.prepare_data py_int wb) <->
      wb <> [] /\
      Forall (fun sheet : string * DataFrame => is_Some (py_int sheet.1)) wb) /\
  (forall py_int wb e,
      ARIMA.prepare_data py_int wb = Raise e -> exists msg, e = ValueError msg) /\
  (forall date_range auto_arima s,
      "comune" ∉ df_columns (ARIMA.combined_data s) ->
      ARIMA.train_and_evaluate date_range auto_arima s
      = (Raise (KeyError ["comune"]), s)) /\
  (forall wb,
      (exists labels, XGB.prepare_data wb = Raise (KeyError labels)) <->
      wb <> [] /\
      exists c, c ∈ ["comune"; "PM2.5"; "PM10"; "cns deaths"] /\
                Forall (fun sheet : string * DataFrame =>
                          c ∉ df_columns sheet.2) wb) /\
  (forall grid_search_fit wb e,
      XGB.prepare_data wb = Raise e ->
      XGB.script grid_search_fit wb = (Raise e, None)).
Proof.
  split; [exact arima_prepare_data_total|].
  split; [exact arima_prepare_data_Raise|].
  split.
  { intros dr aa s Hn.
    unfold ARIMA.train_and_evaluate, mbind, mget, mlift, getitem.
    by rewrite decide_False. }
  split; [exact xgb_prepare_data_KeyError|].
  intros gs wb e H. unfold XGB.script, XGB.init, rbind. by rewrite H.
Qed.

(** C3 on a workbook without the outcome column: the constructor raises
    [KeyError] and the script stops there, whatever the fitting routine. *)
Lemma schema_failures_witness :
  XGB.prepare_data wb_x_no_deaths = Raise (KeyError ["cns deaths"]) /\
  forall grid_search_fit,
    XGB.script grid_search_fit wb_x_no_deaths
    = (Raise (KeyError ["cns deaths"]), None).
Proof.
  assert (H : XGB.prepare_data wb_x_no_deaths = Raise (KeyError ["cns deaths"]))
    by vm_refl.
  split; [exact H|].
  intros gs.
  exact (proj2 (proj2 (proj2 (proj2 schema_failures))) gs wb_x_no_deaths _ H).
Defined.

(** C3 as stated fails: a sheet without [comune] (time-series variant), and
    a sheet without [cns deaths] next to one that has it (tabular variant),
    are assembled without error. *)
Lemma missing_column_counterexample :
  ~ assembler_rejects_missing_column (ARIMA.prepare_data parse_decimal) wb_no_comune
  /\ ~ assembler_rejects_missing_column XGB.prepare_data wb_x_partial.
Proof.
  assert (H1 : ARIMA.prepare_data parse_decimal wb_no_comune = Ok d_no_comune)
    by vm_refl.
  assert (H2 : XGB.prepare_data wb_x_partial = Ok d_x_partial) by vm_refl.
  split; intros H.
  - destruct H as [e He]; [|congruence].
    eexists _, "comune". split; [left|]. split; [left|]. compute_done.
  - destruct H as [e He]; [|congruence].
    eexists _, "cns deaths". split; [right; left|].
    split; [right; left|]. compute_done.
Qed.
End SchemaTheorems.

(** ** The per-entity loops: claims C5 and C2 *)

Section LoopFacts.
Context {X A : Type}.
Variable body : X -> list A -> result (list A).
Variable step : X -> result (option A).
Hypothesis body_step : forall x acc,
  body x acc = match step x with
               | Ok (Some a) => Ok (acc ++ [a])
               | Ok None => Ok acc
               | Raise e => Raise e
               end.

Lemma for_each_Ok xs acc out :
  for_each body xs acc = Ok out <->
  exists steps, Forall2 (fun x o => step x = Ok o) xs steps /\
                out = acc ++ omap id steps.
Proof.
  revert acc. induction xs as [|x xs IH]; intros acc; cbn [for_each].
  - split.
    + intros [= <-]. exists []. split; [constructor|]. by rewrite app_nil_r.
    + intros (steps & Hs & ->). inversion Hs; subst. by rewrite app_nil_r.
  - rewrite body_step. destruct (step x) as [[a|]|e] eqn:Hx.
    + rewrite IH. split.
      * intros (steps & Hs & ->). exists (Some a :: steps).
        split; [by constructor|]. cbn. by rewrite <- app_assoc.
      * intros (steps & Hs & ->).
        inversion Hs as [|? o ? steps' Ho Hs']; subst.
        rewrite Hx in Ho. injection Ho as <-.
        exists steps'. split; [done|]. cbn. by rewrite <- app_assoc.
    + rewrite IH. split.
      * intros (steps & Hs & ->). exists (None :: steps).
        split; [by constructor|]. done.
      * intros (steps & Hs & ->).
        inversion Hs as [|? o ? steps' Ho Hs']; subst.
        rewrite Hx in Ho. injection Ho as <-.
        exists steps'. split; done.
    + split; [discriminate|].
      intros (steps & Hs & ->). inversion Hs; subst. congruence.
Qed.

Lemma for_each_total xs acc :
  Forall (fun x => is_Ok (step x)) xs -> is_Ok (for_each body xs acc).
Proof.
  intros H. revert acc. induction H as [|x xs [o Ho] _ IH]; intros acc.
  - by eexists.
  - cbn [for_each]. rewrite body_step, Ho. destruct o; apply IH.
Qed.

Lemma for_each_Raise before x after acc e :
  Forall (fun x => is_Ok (step x)) before ->
  step x = Raise e ->
  for_each body (before ++ x :: after) acc = Raise e.
Proof.
  intros H Hx. revert acc. induction H as [|x' xs [o Ho] _ IH]; intros acc.
  - cbn. by rewrite body_step, Hx.
  - cbn [app for_each]. rewrite body_step, Ho. destruct o; apply IH.
Qed.

End LoopFacts.

Section ARIMALoop.
Import Pandas Spec Examples ARIMA.
Variable date_range : nat -> result unit.
Variable auto_arima : list value -> result value.

Lemma eq_scalar_entity c r : eq_scalar (cell r "comune") c <-> of_entity c r.
Proof.
  unfold eq_scalar, of_entity.
  destruct (cell r "comune") as [|s|q] eqn:Hc; destruct c as [|s'|q'];
    rewrite ?bool_decide_spec; simpl; intuition congruence.
Qed.

Lemma city_slice_in df c :
  "comune" ∈ df_columns df -> city_slice df c = Ok (entity_slice c df).
Proof.
  intros H. unfold city_slice, rbind. rewrite (getitem_in _ _ H).
  unfold getitem_mask, entity_slice, entity_rows. rewrite select_column_mask.
  rewrite (list_filter_iff (fun r => eq_scalar (cell r "comune") c) (of_entity c))
    by (intros r; apply eq_scalar_entity).
  reflexivity.
Qed.

Lemma empty_entity_slice c df :
  df_columns df <> [] ->
  empty (entity_slice c df) = bool_decide (entity_rows c df = []).
Proof.
  intros H. unfold empty, entity_slice. cbn [df_rows df_columns].
  apply bool_decide_ext. tauto.
Qed.

Lemma evaluate_city_step s comune acc :
  evaluate_city date_range auto_arima s comune acc
  = match city_outcome date_range auto_arima s comune with
    | Ok (Some p) => Ok (acc ++ [p])
    | Ok None => Ok acc
    | Raise e => Raise e
    end.
Proof.
  unfold evaluate_city, city_outcome, rbind.
  destruct (attr "train_data" (train_data s)) as [train|]; [|done].
  destruct (city_slice train comune) as [ctd|]; [|done].
  destruct (attr "test_data" (test_data s)) as [test|]; [|done].
  destruct (city_slice test comune) as [cte|]; [|done].
  destruct (negb (empty ctd) && negb (empty cte)); [|done].
  destruct (predict_arima _ _ ctd); [|done].
  destruct (iloc0 cte "cns deaths"); done.
Qed.

Lemma city_outcome_slices s train test c :
  train_data s = Some train -> test_data s = Some test ->
  "comune" ∈ df_columns train -> "comune" ∈ df_columns test ->
  city_outcome date_range auto_arima s c =
    if decide (entity_rows c train <> [] /\ entity_rows c test <> []) then
      (do prediction <- predict_arima date_range auto_arima (entity_slice c train);
       do truth <- iloc0 (entity_slice c test) "cns deaths";
       Ok (Some (c, prediction, truth)))%result
    else Ok None.
Proof.
  intros Htr Hte Hc1 Hc2. unfold city_outcome. rewrite Htr, Hte. cbn [attr rbind].
  rewrite (city_slice_in _ _ Hc1), (city_slice_in _ _ Hc2). cbn [rbind].
  rewrite !empty_entity_slice by (intros E; rewrite E in *; by apply elem_of_nil in Hc1 || by apply elem_of_nil in Hc2).
  case_decide as Hd.
  - destruct Hd as [H1 H2]. rewrite !bool_decide_eq_false_2 by done. done.
  - destruct (decide (entity_rows c train = [])) as [E|E].
    + rewrite (bool_decide_eq_true_2 _ E). done.
    + rewrite (bool_decide_eq_false_2 _ E). cbn.
      destruct (decide (entity_rows c test = [])) as [E'|E'].
      * rewrite (bool_decide_eq_true_2 _ E'). done.
      * tauto.
Qed.


Lemma calculate_keeps_predictions ps s r s' :
  calculate_evaluation_metrics ps s = (r, s') -> predictions s' = predictions s.
Proof.
  unfold calculate_evaluation_metrics, mbind, mlift, mset.
  destruct (Sklearn.mean_squared_error _ _); [|by intros [= _ <-]].
  destruct (Sklearn.r2_score _ _); [|by intros [= _ <-]].
  destruct (Sklearn.explained_variance_score _ _); [|by intros [= _ <-]].
  destruct (Sklearn.mean_absolute_error _ _); [|by intros [= _ <-]].
  destruct (Sklearn.median_absolute_error _ _); by intros [= _ <-].
Qed.

Lemma train_and_evaluate_unfold s :
  train_and_evaluate date_range auto_arima s =
    match getitem (combined_data s) "comune" with
    | Raise e => (Raise e, s)
    | Ok comuni =>
        match for_each (evaluate_city date_range auto_arima s) (unique comuni) [] with
        | Raise e => (Raise e, s)
        | Ok preds =>
            calculate_evaluation_metrics preds
              (set_predictions preds (set_total_time s))
        end
    end.
Proof.
  unfold train_and_evaluate, mbind, mget, mlift, mset.
  destruct (getitem _ _); [|done]. destruct (for_each _ _ _); done.
Qed.

Lemma prepared_state py_int wb s0 t k s :
  init py_int wb = Ok s0 -> split_data t k s0 = (Ok tt, s) ->
  combined_data s = combined_data s0 /\
  train_data s = Some (mkDataFrame (df_columns (combined_data s0))
                         (filter (year_le t) (df_rows (combined_data s0)))) /\
  test_data s = Some (mkDataFrame (df_columns (combined_data s0))
                        (filter (year_eq k) (df_rows (combined_data s0)))) /\
  predictions s = None.
Proof.
  intros Hinit Hsplit.
  unfold init, rbind in Hinit.
  destruct (prepare_data py_int wb) as [d|] eqn:Hd; [|discriminate].
  injection Hinit as <-.
  pose proof (prepare_data_year_column _ _ _ Hd) as Hy.
  rewrite split_data_run in Hsplit by exact Hy.
  injection Hsplit as <-. cbn. auto.
Qed.

Lemma entity_rows_elem c df :
  entity_rows c df <> [] ->
  exists r, r ∈ df_rows df /\ of_entity c r.
Proof.
  unfold entity_rows. destruct (filter _ _) as [|r l] eqn:Hf; [done|].
  intros _. exists r.
  assert (Hr : r ∈ filter (of_entity c) (df_rows df)) by (rewrite Hf; left).
  apply list_elem_of_filter in Hr. tauto.
Qed.

Lemma omap_id_elem {A} (l : list (option A)) (a : A) :
  a ∈ omap id l <-> Some a ∈ l.
Proof.
  rewrite list_elem_of_omap. split.
  - intros (o & Ho & Hoa). simpl in Hoa. by subst.
  - intros H. by exists (Some a).
Qed.

(** C5.  After [split_data], the list [train_and_evaluate] stores in
    [predictions] has an entry for an entity exactly when the entity has a
    row in the training set and a row in the test set.  An entity without
    one of the two is passed over: provided the fit succeeds for the
    entities that have both, the loop completes and the list is stored. *)
Theorem predictions_iff_both_slices py_int wb s0 t k s r s' :
  init py_int wb = Ok s0 ->
  split_data t k s0 = (Ok tt, s) ->
  train_and_evaluate date_range auto_arima s = (r, s') ->
  (forall preds, predictions s' = Some preds ->
     forall c, c ∈ map entity_of preds <-> has_both_slices s c) /\
  ("comune" ∈ df_columns (combined_data s) ->
   (forall c train, train_data s = Some train -> has_both_slices s c ->
      is_Ok (predict_arima date_range auto_arima (entity_slice c train))) ->
   exists preds, predictions s' = Some preds).
Proof.
  intros Hinit Hsplit Hrun.
  destruct (prepared_state _ _ _ _ _ _ Hinit Hsplit) as (Hcomb & Htr & Hte & Hnone).
  rewrite train_and_evaluate_unfold in Hrun.
  destruct (getitem (combined_data s) "comune") as [comuni|e] eqn:Hget.
  2:{ injection Hrun as _ <-. split; [intros preds H; congruence|].
      intros Hc. apply getitem_Raise in Hget as [Hn _]. done. }
  apply getitem_Ok in Hget as [Hcol ->].
  set (train := mkDataFrame _ (filter (year_le t) _)) in Htr.
  set (test := mkDataFrame _ (filter (year_eq k) _)) in Hte.
  assert (Hc1 : "comune" ∈ df_columns train) by (cbn; by rewrite <- Hcomb).
  assert (Hc2 : "comune" ∈ df_columns test) by (cbn; by rewrite <- Hcomb).
  pose proof (city_outcome_slices s train test) as Hout.
  specialize (fun c => Hout c Htr Hte Hc1 Hc2).
  assert (Hslices : forall c, has_both_slices s c <->
            entity_rows c train <> [] /\ entity_rows c test <> []).
  { intros c. split.
    - intros (tr & te & Ht1 & Ht2 & H1 & H2).
      rewrite Htr in Ht1. rewrite Hte in Ht2.
      injection Ht1 as <-. injection Ht2 as <-. done.
    - intros [H1 H2]. by exists train, test. }
  split.
  - intros preds Hp c.
    destruct (for_each _ _ _) as [preds0|e] eqn:Hloop.
    2:{ injection Hrun as _ <-. congruence. }
    apply calculate_keeps_predictions in Hrun. rewrite Hrun in Hp.
    cbn in Hp. injection Hp as ->.
    apply (for_each_Ok _ _ (evaluate_city_step s)) in Hloop
      as (steps & Hsteps & ->). cbn [app].
    rewrite Hslices. rewrite list_elem_of_fmap. split.
    + intros (p & -> & Hin). apply omap_id_elem in Hin.
      apply list_elem_of_lookup in Hin as [i Hi].
      destruct (Forall2_lookup_r _ _ _ _ _ Hsteps Hi) as (c' & _ & Hc').
      rewrite Hout in Hc'. case_decide as Hd; [|discriminate].
      unfold rbind in Hc'.
      destruct (predict_arima _ _ _); [|discriminate].
      destruct (iloc0 _ _); [|discriminate].
      injection Hc' as <-. exact Hd.
    + intros Hd.
      assert (Hin : c ∈ unique (map (fun r => cell r "comune")
                                  (df_rows (combined_data s)))).
      { apply unique_elem. destruct Hd as [Hd _].
        apply entity_rows_elem in Hd as (r0 & Hr & [_ <-]).
        apply list_elem_of_fmap. exists r0. split; [done|].
        cbn in Hr. apply list_elem_of_filter in Hr as [_ Hr].
        by rewrite Hcomb. }
      apply list_elem_of_lookup in Hin as [i Hi].
      destruct (Forall2_lookup_l _ _ _ _ _ Hsteps Hi) as (o & Ho & Hc').
      rewrite Hout, decide_True in Hc' by done.
      unfold rbind in Hc'.
      destruct (predict_arima _ _ _) as [p|]; [|discriminate].
      destruct (iloc0 _ _) as [tv|]; [|discriminate].
      injection Hc' as <-. exists (c, p, tv). split; [done|].
      apply omap_id_elem. by eapply list_elem_of_lookup_2.
  - intros _ Hfit.
    destruct (for_each_total _ _ (evaluate_city_step s)
                (unique (map (fun r => cell r "comune") (df_rows (combined_data s)))) [])
      as [preds Hloop].
    { apply Forall_forall. intros c _. rewrite Hout.
      case_decide as Hd; [|by eexists].
      destruct (Hfit c train Htr (proj2 (Hslices c) Hd)) as [p Hp].
      rewrite Hp. cbn [rbind].
      unfold predict_arima, rbind in Hp.
      destruct (date_range _); [|discriminate].
      destruct (getitem (entity_slice c train) "cns deaths") eqn:Hg; [|discriminate].
      apply getitem_Ok in Hg as [Hcd _].
      unfold iloc0. destruct Hd as [_ Hd]. cbn [entity_slice df_rows df_columns].
      destruct (entity_rows c test); [done|].
      rewrite decide_True by exact Hcd. by eexists. }
    rewrite Hloop in Hrun. apply calculate_keeps_predictions in Hrun.
    exists preds. by rewrite Hrun.
Qed.

Lemma entity_rows_nonempty c df r :
  r ∈ df_rows df -> of_entity c r -> entity_rows c df <> [].
Proof.
  intros Hr Hc E.
  assert (H : r ∈ entity_rows c df) by (apply list_elem_of_filter; auto).
  rewrite E in H. by apply elem_of_nil in H.
Qed.

(** C2 (amended).  [train_and_evaluate] has no handler around the fit: when
    the fit raises for an entity that has rows on both sides of the split,
    and it succeeded for the entities before it, the call raises that same
    exception and leaves the forecaster as it was, without [predictions]:
    the run ends at the first entity whose fit fails. *)
Theorem fit_failure_aborts py_int wb s0 t k s comuni before c after train e :
  init py_int wb = Ok s0 ->
  split_data t k s0 = (Ok tt, s) ->
  getitem (combined_data s) "comune" = Ok comuni ->
  unique comuni = before ++ c :: after ->
  train_data s = Some train ->
  (forall c', c' ∈ before -> has_both_slices s c' ->
     is_Ok (predict_arima date_range auto_arima (entity_slice c' train))) ->
  has_both_slices s c ->
  predict_arima date_range auto_arima (entity_slice c train) = Raise e ->
  train_and_evaluate date_range auto_arima s = (Raise e, s).
Proof.
  intros Hinit Hsplit Hget Huniq Htrain Hbefore Hc Hfit.
  destruct (prepared_state _ _ _ _ _ _ Hinit Hsplit) as (Hcomb & Htr & Hte & _).
  rewrite train_and_evaluate_unfold, Hget, Huniq.
  apply getitem_Ok in Hget as [Hcol _].
  rewrite Htrain in Htr. injection Htr as Htr.
  set (test := mkDataFrame _ (filter (year_eq k) _)) in Hte.
  assert (Hc1 : "comune" ∈ df_columns train) by (rewrite Htr; cbn; by rewrite <- Hcomb).
  assert (Hc2 : "comune" ∈ df_columns test) by (cbn; by rewrite <- Hcomb).
  pose proof (city_outcome_slices s train test) as Hout.
  specialize (fun c => Hout c Htrain Hte Hc1 Hc2).
  assert (Hslices : forall c, has_both_slices s c ->
            entity_rows c train <> [] /\ entity_rows c test <> []).
  { intros c0 (tr & te & Ht1 & Ht2 & H1 & H2).
    rewrite Htrain in Ht1. rewrite Hte in Ht2.
    injection Ht1 as <-. injection Ht2 as <-. done. }
  rewrite (for_each_Raise _ _ (evaluate_city_step s) before c after [] e); [done| |].
  - apply Forall_forall. intros c' Hin. rewrite Hout.
    case_decide as Hd; [|by eexists].
    destruct (Hbefore c' Hin) as [p Hp]; [by exists train, test|].
    rewrite Hp. cbn [rbind].
    unfold predict_arima, rbind in Hp.
    destruct (date_range _); [|discriminate].
    destruct (getitem (entity_slice c' train) "cns deaths") eqn:Hg; [|discriminate].
    apply getitem_Ok in Hg as [Hcd _].
    unfold iloc0. destruct Hd as [_ Hd]. cbn [entity_slice df_rows df_columns].
    destruct (entity_rows c' test); [done|].
    rewrite decide_True; [by eexists|].
    cbn in Hcd. rewrite Htr in Hcd. exact Hcd.
  - rewrite Hout, decide_True by (by apply Hslices). by rewrite Hfit.
Qed.
End ARIMALoop.

Section LoopExamples.
Import Pandas Spec Examples.

Lemma init_wb_three : ARIMA.init parse_decimal wb_three = Ok forecaster_three.
Proof. vm_refl. Qed.

Lemma split_three_run :
  ARIMA.split_data 2018 2019 forecaster_three = (Ok tt, split_three).
Proof. vm_refl. Qed.

Lemma three_A_slices : has_both_slices split_three (Str "A").
Proof.
  exists train_three, test_three. split; [done|]. split; [done|].
  split.
  - apply (entity_rows_nonempty _ _ (obs_in 2018 "A" 5)); [right; left|].
    split; [discriminate|vm_refl].
  - apply (entity_rows_nonempty _ _ (obs_in 2019 "A" 6)); [left|].
    split; [discriminate|vm_refl].
Qed.

Lemma three_B_slices : has_both_slices split_three (Str "B").
Proof.
  exists train_three, test_three. split; [done|]. split; [done|].
  split.
  - apply (entity_rows_nonempty _ _ (obs_in 2017 "B" 7)); [left|].
    split; [discriminate|vm_refl].
  - apply (entity_rows_nonempty _ _ (obs_in 2019 "B" 9)); [right; left|].
    split; [discriminate|vm_refl].
Qed.

Lemma three_run_raises :
  ARIMA.train_and_evaluate any_range naive_forecast split_three
  = (Raise (LibraryError "too few observations"), split_three).
Proof. vm_refl. Qed.

(** C2 on [wb_three]: the fit succeeds for "B", raises for "A", and the
    call raises. *)
Lemma fit_failure_aborts_witness :
  ARIMA.init parse_decimal wb_three = Ok forecaster_three /\
  ARIMA.split_data 2018 2019 forecaster_three = (Ok tt, split_three) /\
  has_both_slices split_three (Str "B") /\
  is_Ok (ARIMA.predict_arima any_range naive_forecast
           (entity_slice (Str "B") train_three)) /\
  has_both_slices split_three (Str "A") /\
  ARIMA.predict_arima any_range naive_forecast (entity_slice (Str "A") train_three)
  = Raise (LibraryError "too few observations") /\
  ARIMA.train_and_evaluate any_range naive_forecast split_three
  = (Raise (LibraryError "too few observations"), split_three).
Proof.
  assert (HB : is_Ok (ARIMA.predict_arima any_range naive_forecast
                        (entity_slice (Str "B") train_three)))
    by (exists (num 8); vm_refl).
  assert (HA : ARIMA.predict_arima any_range naive_forecast
                 (entity_slice (Str "A") train_three)
               = Raise (LibraryError "too few observations")) by vm_refl.
  split; [exact init_wb_three|]. split; [exact split_three_run|].
  split; [exact three_B_slices|]. split; [exact HB|].
  split; [exact three_A_slices|]. split; [exact HA|].
  refine (fit_failure_aborts any_range naive_forecast parse_decimal wb_three
            forecaster_three 2018 2019 split_three
            (map (fun r => cell r "comune")
                 (df_rows (ARIMA.combined_data split_three)))
            [Str "B"] (Str "A") [] train_three _
            init_wb_three split_three_run _ _ eq_refl _ three_A_slices HA).
  - vm_refl.
  - vm_refl.
  - intros c' Hc' _. apply list_elem_of_singleton in Hc'. subst c'. exact HB.
Defined.

(** C2 as stated fails: after the failure for "A" no prediction list is
    stored, although the fit for "B" had succeeded. *)
Lemma fit_failure_counterexample :
  ARIMA.init parse_decimal wb_three = Ok forecaster_three /\
  ARIMA.split_data 2018 2019 forecaster_three = (Ok tt, split_three) /\
  ~ fit_failure_is_local any_range naive_forecast split_three.
Proof.
  split; [exact init_wb_three|]. split; [exact split_three_run|].
  intros H. destruct (H _ _ three_run_raises) as (preds & Hp & _).
  discriminate Hp.
Qed.

Lemma evaluated_two_run :
  ARIMA.train_and_evaluate any_range naive_forecast split_two
  = ((ARIMA.train_and_evaluate any_range naive_forecast split_two).1, evaluated_two).
Proof. unfold evaluated_two. by destruct (ARIMA.train_and_evaluate _ _ _). Qed.

(** C5 on [wb_two]: "B" has no row in 2019 and only "A" is predicted. *)
Lemma predictions_iff_both_slices_witness :
  ARIMA.init parse_decimal wb_two = Ok forecaster_two /\
  ARIMA.split_data 2018 2019 forecaster_two = (Ok tt, split_two) /\
  ARIMA.predictions evaluated_two = Some [(Str "A", num 5, num 6)] /\
  (forall c, c ∈ map entity_of [(Str "A", num 5, num 6)] <->
             has_both_slices split_two c).
Proof.
  assert (Hp : ARIMA.predictions evaluated_two = Some [(Str "A", num 5, num 6)])
    by vm_refl.
  split; [exact init_wb_two|]. split; [exact split_two_run|].
  split; [exact Hp|].
  exact (proj1 (predictions_iff_both_slices any_range naive_forecast parse_decimal
                  wb_two forecaster_two 2018 2019 split_two _ evaluated_two
                  init_wb_two split_two_run evaluated_two_run) _ Hp).
Defined.
End LoopExamples.

(** ** Forecasting the upcoming year: claim C10 *)

Section UpcomingYear.
Import Pandas Spec Examples ARIMA.
Variable date_range : nat -> result unit.
Variable auto_arima : list value -> result value.

Lemma forecast_city_step s comune acc :
  forecast_city date_range auto_arima s comune acc
  = match forecast_outcome date_range auto_arima s comune with
    | Ok (Some p) => Ok (acc ++ [p])
    | Ok None => Ok acc
    | Raise e => Raise e
    end.
Proof.
  unfold forecast_city, forecast_outcome, rbind.
  destruct (city_slice (combined_data s) comune) as [ctd|]; [|done].
  destruct (negb (empty ctd)); [|done].
  destruct (predict_arima _ _ ctd); done.
Qed.

Lemma forecast_outcome_slice s c :
  "comune" ∈ df_columns (combined_data s) ->
  forecast_outcome date_range auto_arima s c =
    if decide (entity_rows c (combined_data s) <> []) then
      (do prediction <- predict_arima date_range auto_arima
                          (entity_slice c (combined_data s));
       Ok (Some (c, prediction)))%result
    else Ok None.
Proof.
  intros Hc. unfold forecast_outcome. rewrite (city_slice_in _ _ Hc). cbn [rbind].
  rewrite empty_entity_slice
    by (intros E; rewrite E in Hc; by apply elem_of_nil in Hc).
  case_decide as Hd.
  - by rewrite bool_decide_eq_false_2.
  - rewrite bool_decide_eq_true_2; [done|].
    by destruct (decide (entity_rows c (combined_data s) = [])).
Qed.

Lemma predict_upcoming_year_unfold year s :
  predict_upcoming_year date_range auto_arima year s =
    match getitem (combined_data s) "year" with
    | Raise e => (Raise e, s)
    | Ok _ =>
        match getitem (combined_data s) "comune" with
        | Raise e => (Raise e, s)
        | Ok comuni =>
            match for_each (forecast_city date_range auto_arima s)
                    (unique comuni) [] with
            | Raise e => (Raise e, s)
            | Ok preds => (Ok tt, set_predictions_csv preds s)
            end
        end
    end.
Proof.
  unfold predict_upcoming_year, save_predictions, mbind, mget, mlift, mset.
  destruct (getitem _ "year"); [|done].
  destruct (getitem _ "comune"); [|done].
  destruct (for_each _ _ _); done.
Qed.

Lemma omap_steps_keys {X A} (f : X -> result (option A)) (key : A -> X)
    (xs : list X) (steps : list (option A)) :
  Forall2 (fun x o => f x = Ok o) xs steps ->
  (forall x a, f x = Ok (Some a) -> key a = x) ->
  forall k, k ∈ map key (omap id steps) -> k ∈ xs.
Proof.
  intros Hs Hkey. induction Hs as [|x o xs steps Hx _ IH]; cbn; [done|].
  intros k Hk. destruct o as [a|]; cbn in Hk.
  - apply elem_of_cons in Hk as [->|Hk]; [|right; auto].
    rewrite (Hkey x a Hx). left.
  - right. auto.
Qed.

Lemma omap_steps_NoDup {X A} (f : X -> result (option A)) (key : A -> X)
    (xs : list X) (steps : list (option A)) :
  Forall2 (fun x o => f x = Ok o) xs steps ->
  (forall x a, f x = Ok (Some a) -> key a = x) ->
  NoDup xs -> NoDup (map key (omap id steps)).
Proof.
  intros Hs Hkey. induction Hs as [|x o xs steps Hx Hs IH]; cbn; [constructor|].
  intros Hnd. apply NoDup_cons in Hnd as [Hnin Hnd].
  destruct o as [a|]; cbn; [|auto].
  apply NoDup_cons. split; [|auto].
  intros Hin. apply (omap_steps_keys f key xs steps Hs Hkey) in Hin.
  rewrite (Hkey x a Hx) in Hin. done.
Qed.

(** C10.  The result of [predict_upcoming_year] does not depend on its
    [year] argument.  On a dataset with the [year] and [comune] columns,
    and provided the fit returns on the rows of every entity, the call
    returns and the predictions file then holds one prediction for each
    entity that has a row, no entity twice, each prediction being the
    forecast fitted on all the rows of the entity, whatever their year;
    no other attribute of the forecaster changes.  (Rows whose identifier
    is missing belong to no entity.) *)
Theorem upcoming_year_forecasts (s : ARIMAForecaster) (year : Z) :
  (forall year', predict_upcoming_year date_range auto_arima year' s
                 = predict_upcoming_year date_range auto_arima year s) /\
  ("year" ∈ df_columns (combined_data s) ->
   "comune" ∈ df_columns (combined_data s) ->
   (forall c, entity_rows c (combined_data s) <> [] ->
      is_Ok (predict_arima date_range auto_arima
               (entity_slice c (combined_data s)))) ->
   exists s' preds,
     predict_upcoming_year date_range auto_arima year s = (Ok tt, s') /\
     predictions_csv s' = Some preds /\
     s' = set_predictions_csv preds s /\
     excel_data s' = excel_data s /\
     combined_data s' = combined_data s /\
     train_data s' = train_data s /\
     test_data s' = test_data s /\
     total_time_set s' = total_time_set s /\
     predictions s' = predictions s /\
     arima_summary s' = arima_summary s /\
     NoDup (map fst preds) /\
     (forall c, c ∈ map fst preds <-> entity_rows c (combined_data s) <> []) /\
     (forall c v, (c, v) ∈ preds ->
        predict_arima date_range auto_arima (entity_slice c (combined_data s))
        = Ok v)).
Proof.
  split; [intros year'; by rewrite !predict_upcoming_year_unfold|].
  intros Hy Hc Hfit. rewrite predict_upcoming_year_unfold.
  rewrite (getitem_in _ _ Hy), (getitem_in _ _ Hc).
  set (comuni := map (fun r => cell r "comune") (df_rows (combined_data s))).
  pose proof (forecast_outcome_slice s) as Hout.
  specialize (fun c => Hout c Hc).
  destruct (for_each_total _ _ (forecast_city_step s) (unique comuni) [])
    as [preds Hloop].
  { apply Forall_forall. intros c _. rewrite Hout.
    case_decide as Hd; [|by eexists].
    destruct (Hfit c Hd) as [p Hp]. rewrite Hp. by eexists. }
  rewrite Hloop. exists (set_predictions_csv preds s), preds.
  do 10 (split; [reflexivity|]).
  apply (for_each_Ok _ _ (forecast_city_step s)) in Hloop as (steps & Hsteps & ->).
  cbn [app].
  assert (Hkey : forall c (a : value * value),
            forecast_outcome date_range auto_arima s c = Ok (Some a) ->
            fst a = c /\ entity_rows c (combined_data s) <> [] /\
            predict_arima date_range auto_arima (entity_slice c (combined_data s))
            = Ok (snd a)).
  { intros c a Ha. rewrite Hout in Ha. case_decide as Hd; [|discriminate].
    unfold rbind in Ha. destruct (predict_arima _ _ _) as [p|]; [|discriminate].
    injection Ha as <-. auto. }
  split; [|split].
  - apply (omap_steps_NoDup (forecast_outcome date_range auto_arima s) fst (unique comuni) steps Hsteps).
    + intros c a Ha. by apply Hkey.
    + apply unique_NoDup.
  - intros c. rewrite list_elem_of_fmap. split.
    + intros (a & -> & Hin). apply omap_id_elem in Hin.
      apply list_elem_of_lookup in Hin as [i Hi].
      destruct (Forall2_lookup_r _ _ _ _ _ Hsteps Hi) as (c' & _ & Hc').
      apply Hkey in Hc' as (-> & Hd & _). exact Hd.
    + intros Hd.
      assert (Hin : c ∈ unique comuni).
      { apply unique_elem. apply entity_rows_elem in Hd as (r0 & Hr & [_ <-]).
        apply list_elem_of_fmap. by exists r0. }
      apply list_elem_of_lookup in Hin as [i Hi].
      destruct (Forall2_lookup_l _ _ _ _ _ Hsteps Hi) as (o & Ho & Hc').
      rewrite Hout, decide_True in Hc' by done.
      unfold rbind in Hc'.
      destruct (predict_arima _ _ _) as [p|]; [|discriminate].
      injection Hc' as <-. exists (c, p). split; [done|].
      apply omap_id_elem. by eapply list_elem_of_lookup_2.
  - intros c v Hin. apply omap_id_elem in Hin.
    apply list_elem_of_lookup in Hin as [i Hi].
    destruct (Forall2_lookup_r _ _ _ _ _ Hsteps Hi) as (c' & _ & Hc').
    apply Hkey in Hc' as (Hfst & _ & Hp). cbn in Hfst, Hp. by subst c'.
Qed.
End UpcomingYear.

Section UpcomingYearExample.
Import Pandas Spec Examples.

(** C10 on [forecaster_two]: one forecast for "A" and one for "B", each
    from all the years of the entity. *)
Lemma upcoming_year_forecasts_witness :
  "year" ∈ df_columns (ARIMA.combined_data forecaster_two) /\
  "comune" ∈ df_columns (ARIMA.combined_data forecaster_two) /\
  ARIMA.predict_upcoming_year any_range naive_forecast 2020 forecaster_two
  = (Ok tt, ARIMA.set_predictions_csv [(Str "A", num 6); (Str "B", num 8)]
              forecaster_two) /\
  exists s' preds,
     ARIMA.predict_upcoming_year any_range naive_forecast 2020 forecaster_two
     = (Ok tt, s') /\
     ARIMA.predictions_csv s' = Some preds /\
     s' = ARIMA.set_predictions_csv preds forecaster_two /\
     ARIMA.excel_data s' = ARIMA.excel_data forecaster_two /\
     ARIMA.combined_data s' = ARIMA.combined_data forecaster_two /\
     ARIMA.train_data s' = ARIMA.train_data forecaster_two /\
     ARIMA.test_data s' = ARIMA.test_data forecaster_two /\
     ARIMA.total_time_set s' = ARIMA.total_time_set forecaster_two /\
     ARIMA.predictions s' = ARIMA.predictions forecaster_two /\
     arima_summary s' = arima_summary forecaster_two /\
     NoDup (map fst preds) /\
     (forall c, c ∈ map fst preds <->
                entity_rows c (ARIMA.combined_data forecaster_two) <> []) /\
     (forall c v, (c, v) ∈ preds ->
        ARIMA.predict_arima any_range naive_forecast
          (entity_slice c (ARIMA.combined_data forecaster_two)) = Ok v).
Proof.
  assert (Hy : "year" ∈ df_columns (ARIMA.combined_data forecaster_two))
    by (do 2 right; left).
  assert (Hc : "comune" ∈ df_columns (ARIMA.combined_data forecaster_two))
    by left.
  split; [exact Hy|]. split; [exact Hc|]. split; [vm_refl|].
  apply (proj2 (upcoming_year_forecasts any_range naive_forecast forecaster_two 2020)
           Hy Hc).
  intros c Hd. apply entity_rows_elem in Hd as (r & Hr & [_ <-]).
  cbn [forecaster_two assembled ARIMA.combined_data df_rows] in Hr.
  repeat (apply elem_of_cons in Hr as [->|Hr]);
    [| | | | | by apply elem_of_nil in Hr]; vm_compute; by eexists.
Defined.

Lemma one_A_rows : entity_rows (Str "A") (ARIMA.combined_data forecaster_one) <> [].
Proof.
  apply (entity_rows_nonempty _ _ (obs_in 2018 "A" 5)); [left|].
  split; [discriminate|vm_refl].
Qed.

Lemma one_upcoming_run :
  ARIMA.predict_upcoming_year any_range naive_forecast 2020 forecaster_one
  = (Raise (LibraryError "too few observations"), forecaster_one).
Proof. vm_refl. Qed.

(** C10 as stated fails: "A" has a record in [forecaster_one], but its
    single observation is too short a series for the fit, which raises;
    the call raises with it and no prediction is saved for "A". *)
Lemma upcoming_year_counterexample :
  ARIMA.init parse_decimal wb_one = Ok forecaster_one /\
  entity_rows (Str "A") (ARIMA.combined_data forecaster_one) <> [] /\
  ARIMA.predict_upcoming_year any_range naive_forecast 2020 forecaster_one
  = (Raise (LibraryError "too few observations"), forecaster_one) /\
  ARIMA.predictions_csv forecaster_one = None /\
  ~ forecasts_every_entity any_range naive_forecast forecaster_one 2020.
Proof.
  split; [exact init_wb_one|]. split; [exact one_A_rows|].
  split; [exact one_upcoming_run|]. split; [reflexivity|].
  intros H. destruct (H _ _ one_upcoming_run) as (preds & Hp & _).
  discriminate Hp.
Qed.
End UpcomingYearExample.

(** ** The label encoder: claim C7 *)

Section LabelEncoder.
Import Pandas Spec Examples Sklearn.

Lemma index_of_lookup x l i : index_of x l = Some i -> l !! i = Some x.
Proof.
  revert i. induction l as [|c l IH]; intros i; cbn; [discriminate|].
  case_decide as Hc.
  - intros [= <-]. by subst.
  - destruct (index_of x l) as [j|]; [|discriminate].
    intros [= <-]. cbn. by apply IH.
Qed.

Lemma index_of_elem x l : x ∈ l -> is_Some (index_of x l).
Proof.
  induction l as [|c l IH]; [intros H; by apply elem_of_nil in H|].
  intros H. cbn. case_decide as Hc; [by eexists|].
  apply elem_of_cons in H as [->|H]; [done|].
  destruct (IH H) as [j ->]. by eexists.
Qed.

Lemma index_of_inj x y l i :
  index_of x l = Some i -> index_of y l = Some i -> x = y.
Proof.
  intros Hx Hy. apply index_of_lookup in Hx. apply index_of_lookup in Hy. congruence.
Qed.

Lemma transform_Ok classes y codes :
  transform classes y = Ok codes <->
  Forall2 (fun x c => index_of x classes = Some c) y codes.
Proof.
  revert codes. induction y as [|x y IH]; intros codes; cbn.
  - split; [intros [= <-]; constructor | by inversion 1].
  - destruct (index_of x classes) as [i|] eqn:Hi.
    + destruct (transform classes y) as [cs|e].
      * split.
        -- intros [= <-]. constructor; [done|]. by apply IH.
        -- inversion 1 as [|? c ? cs' Hc Hcs]; subst.
           apply IH in Hcs. congruence.
      * split; [discriminate|].
        inversion 1 as [|? c ? cs' Hc Hcs]; subst.
        apply IH in Hcs. discriminate.
    + split; [discriminate|]. inversion 1; congruence.
Qed.

Lemma transform_total classes y :
  (forall x, x ∈ y -> x ∈ classes) -> is_Ok (transform classes y).
Proof.
  induction y as [|x y IH]; intros H; cbn; [by eexists|].
  destruct (index_of_elem x classes) as [i ->]; [apply H; left|].
  destruct IH as [cs ->]; [intros z Hz; apply H; by right|]. by eexists.
Qed.

Lemma fit_Ok y classes :
  fit y = Ok classes ->
  classes = merge_sort value_le (unique y) /\
  NoDup classes /\ (forall v, v ∈ classes <-> v ∈ y).
Proof.
  unfold fit. destruct (uniform y); [|discriminate]. intros [= <-].
  split; [done|].
  pose proof (merge_sort_Permutation value_le (unique y)) as Hp.
  split.
  - rewrite Hp. apply unique_NoDup.
  - intros v. rewrite Hp. apply unique_elem.
Qed.

Lemma fit_transform_Ok y classes codes :
  fit_transform y = Ok (classes, codes) ->
  fit y = Ok classes /\ transform classes y = Ok codes.
Proof.
  unfold fit_transform, rbind.
  destruct (fit y) as [cls|]; [|discriminate].
  destruct (transform cls y) as [cs|] eqn:Ht; [|discriminate].
  intros [= <- <-]. auto.
Qed.

Lemma fit_transform_total y :
  is_Ok (fit y) -> is_Ok (fit_transform y).
Proof.
  intros [cls Hf]. unfold fit_transform, rbind. rewrite Hf.
  apply fit_Ok in Hf as (_ & _ & Hin).
  destruct (transform_total cls y) as [cs ->]; [intros x; apply Hin|].
  by eexists.
Qed.


Lemma xgb_init_Ok wb s :
  XGB.init wb = Ok s ->
  exists d0 comune codes,
    XGB.prepare_data wb = Ok d0 /\
    getitem d0 "comune" = Ok comune /\
    fit_transform comune = Ok (XGB.le s, codes) /\
    XGB.data s = setitem "comune" (map XGB.code_value codes) d0.
Proof.
  unfold XGB.init, rbind.
  destruct (XGB.prepare_data wb) as [d0|]; [|discriminate].
  destruct (getitem d0 "comune") as [comune|] eqn:Hg; [|discriminate].
  destruct (fit_transform comune) as [[cls codes]|] eqn:Hf; [|discriminate].
  intros [= <-]. exists d0, comune, codes. auto.
Qed.

Lemma xgb_split_data_le (s s' : XGB.XGBoostForecaster) r :
  XGB.split_data s = (r, s') -> XGB.le s' = XGB.le s.
Proof.
  unfold XGB.split_data, mbind, mget, mlift, mset.
  destruct (getitem (XGB.data s) "year") as [years|e]; [|by intros [= _ <-]].
  cbn [XGB.train_data XGB.test_data XGB.set_train_data XGB.set_test_data
       XGB.with_split XGB.split_attrs XGB.s_train_data XGB.s_test_data attr].
  destruct (getitem_list _ XGB.feature_columns) as [xtr|e]; [|by intros [= _ <-]].
  destruct (getitem _ "cns deaths") as [ytr|e]; [|by intros [= _ <-]].
  destruct (getitem_list _ XGB.feature_columns) as [xte|e]; [|by intros [= _ <-]].
  destruct (getitem _ "cns deaths") as [yte|e]; by intros [= _ <-].
Qed.

Lemma encoded_rows classes rows codes :
  Forall2 (fun x c => index_of x classes = Some c)
          (map (fun r => cell r "comune") rows) codes ->
  Forall2 (fun r0 r => exists code,
             index_of (cell r0 "comune") classes = Some code /\
             r = <["comune" := XGB.code_value code]> r0)
          rows
          (zip_with (fun (r : row) v => <["comune" := v]> r) rows
                    (map XGB.code_value codes)).
Proof.
  revert codes. induction rows as [|r rows IH]; intros codes H.
  - constructor.
  - cbn [map] in H. inversion H as [|? c ? cs Hc Hcs]; subst.
    cbn. constructor; [by exists c | by apply IH].
Qed.

(** C7.  The constructor of the tabular forecaster fits the encoder once,
    on the [comune] column of the whole assembled dataset: the vocabulary
    [le] has no duplicate and holds exactly the identifiers of that column,
    and every row carries the position of its identifier in [le].  The
    mapping is stable: transforming an identifier again gives the code the
    fit gave it, decoding the code gives the identifier back, and two
    identifiers never share a code.  [split_data] leaves [le] as it is, so
    every row of the test set carries the code a later [transform] of its
    identifier returns. *)
Theorem label_encoding_stable wb s :
  XGB.init wb = Ok s ->
  exists d0 comune,
    XGB.prepare_data wb = Ok d0 /\
    getitem d0 "comune" = Ok comune /\
    fit comune = Ok (XGB.le s) /\
    NoDup (XGB.le s) /\
    (forall v, v ∈ XGB.le s <-> v ∈ comune) /\
    Forall2 (fun r0 r => exists code,
               index_of (cell r0 "comune") (XGB.le s) = Some code /\
               r = <["comune" := XGB.code_value code]> r0)
            (df_rows d0) (df_rows (XGB.data s)) /\
    (forall x code,
        index_of x (XGB.le s) = Some code ->
        transform (XGB.le s) [x] = Ok [code] /\
        inverse_transform (XGB.le s) code = Some x) /\
    (forall x y code,
        index_of x (XGB.le s) = Some code ->
        index_of y (XGB.le s) = Some code -> x = y) /\
    (forall s' te r,
        XGB.split_data s = (Ok tt, s') ->
        XGB.test_data s' = Some te -> r ∈ df_rows te ->
        XGB.le s' = XGB.le s /\
        exists r0 code,
          r0 ∈ df_rows d0 /\
          r = <["comune" := XGB.code_value code]> r0 /\
          transform (XGB.le s') [cell r0 "comune"] = Ok [code]).
Proof.
  intros Hinit.
  apply xgb_init_Ok in Hinit as (d0 & comune & codes & Hprep & Hget & Hft & Hdata).
  exists d0, comune.
  apply fit_transform_Ok in Hft as [Hfit Htr].
  pose proof (fit_Ok _ _ Hfit) as (_ & Hnd & Hin).
  apply getitem_Ok in Hget as Hcol. destruct Hcol as [Hcol Hcomune].
  assert (Hrows : Forall2 (fun r0 r => exists code,
               index_of (cell r0 "comune") (XGB.le s) = Some code /\
               r = <["comune" := XGB.code_value code]> r0)
            (df_rows d0) (df_rows (XGB.data s))).
  { rewrite Hdata. cbn [setitem df_rows]. apply encoded_rows.
    apply transform_Ok in Htr. by rewrite <- Hcomune. }
  assert (Hstable : forall x code,
        index_of x (XGB.le s) = Some code ->
        transform (XGB.le s) [x] = Ok [code] /\
        inverse_transform (XGB.le s) code = Some x).
  { intros x code Hx. split.
    - cbn. by rewrite Hx.
    - by apply index_of_lookup. }
  repeat (split; [assumption|]).
  split; [intros x y code; apply index_of_inj|].
  intros s' te r Hsplit Hte Hr.
  pose proof (xgb_split_data_le _ _ _ Hsplit) as Hle.
  split; [exact Hle|].
  apply xgb_split_data_Ok in Hsplit as (_ & Hte' & _).
  rewrite Hte in Hte'. injection Hte' as ->. cbn [df_rows] in Hr.
  apply list_elem_of_filter in Hr as [_ Hr].
  apply list_elem_of_lookup in Hr as [i Hi].
  destruct (Forall2_lookup_r _ _ _ _ _ Hrows Hi) as (r0 & Hr0 & code & Hcode & ->).
  exists r0, code. split; [by eapply list_elem_of_lookup_2|]. split; [done|].
  rewrite Hle. by apply Hstable.
Qed.
End LabelEncoder.

Section LabelEncoderExample.
Import Pandas Spec Examples Sklearn.

Lemma init_wb_x_two : XGB.init wb_x_two = Ok x_two.
Proof. vm_refl. Qed.

Lemma init_wb_x_eleven : XGB.init wb_x_eleven = Ok x_eleven.
Proof. vm_refl. Qed.

Lemma split_x_eleven : XGB.split_data x_eleven = (Ok tt, x_eleven_split).
Proof. vm_refl. Qed.

Lemma test_x_eleven :
  XGB.test_data x_eleven_split
  = Some (mkDataFrame XGB.kept_columns (x_eleven_year 10)).
Proof. vm_refl. Qed.

(** C7 on eleven sheets of 107 rows: the row of "A" in the test set carries
    the code a later [transform] gives "A". *)
Lemma label_encoding_stable_witness :
  XGB.init wb_x_eleven = Ok x_eleven /\
  XGB.le x_eleven = [Str "A"; Str "B"] /\
  XGB.split_data x_eleven = (Ok tt, x_eleven_split) /\
  XGB.test_data x_eleven_split
  = Some (mkDataFrame XGB.kept_columns (x_eleven_year 10)) /\
  xenc 10 "A" 0 11 21 6 ∈ x_eleven_year 10 /\
  exists r0 code,
    xenc 10 "A" 0 11 21 6 = <["comune" := XGB.code_value code]> r0 /\
    transform (XGB.le x_eleven_split) [cell r0 "comune"] = Ok [code].
Proof.
  assert (Hin : xenc 10 "A" 0 11 21 6 ∈ x_eleven_year 10).
  { unfold x_eleven_year. apply elem_of_app. right. left. }
  split; [exact init_wb_x_eleven|]. split; [reflexivity|].
  split; [exact split_x_eleven|]. split; [exact test_x_eleven|].
  split; [exact Hin|].
  destruct (label_encoding_stable wb_x_eleven x_eleven init_wb_x_eleven)
    as (d0 & comune & _ & _ & _ & _ & _ & _ & _ & _ & Htest).
  destruct (Htest x_eleven_split _ _ split_x_eleven test_x_eleven Hin)
    as (_ & r0 & code & _ & Hr & Hcode).
  exists r0, code. split; [exact Hr | exact Hcode].
Defined.
End LabelEncoderExample.

(** ** The metrics: claims C8 and C9 *)

(** ** The order of a sorted array of binary64 numbers, and the median *)

Section Binary64Facts.
Import Floats.PrimFloat Floats.SpecFloat Floats.FloatOps Floats.FloatAxioms.
Import Binary64 FloatOrder.

Lemma SFcompare_refl s : s <> S754_nan -> SFcompare s s = Some Eq.
Proof.
  destruct s as [[]|[]| |[] m e]; cbn; try done; intros _.
  - by rewrite Z.compare_refl, Pos.compare_cont_refl.
  - by rewrite Z.compare_refl, Pos.compare_cont_refl.
Qed.

Lemma sf_lt_rank s t : sf_lt s t = true <-> lex_lt (sf_rank s) (sf_rank t).
Proof.
  unfold sf_lt, SFltb, lex_lt.
  destruct s as [[]|[]| |[] m e], t as [[]|[]| |[] m' e']; cbn;
    try (split; [discriminate || lia | lia || (intros _; reflexivity)]);
    try (split; [intros _; lia | reflexivity]).
  all: rewrite Pos.compare_cont_spec; cbn;
    destruct (Z.compare_spec e e'); cbn;
    try (split; [discriminate || (intros _; lia) | lia || (intros _; reflexivity)]).
  all: destruct (Pos.compare_spec m m'); cbn;
    (split; [discriminate || (intros _; lia) | lia || (intros _; reflexivity)]).
Qed.

Lemma is_nan_spec x : is_nan x = sf_is_nan (Prim2SF x).
Proof.
  unfold is_nan. rewrite eqb_spec. unfold SFeqb.
  destruct (Prim2SF x) as [[]|[]| |[] m e] eqn:E; try reflexivity;
    rewrite SFcompare_refl; done.
Qed.

Lemma np_lt_spec x y : np_lt x y = sf_lt (Prim2SF x) (Prim2SF y).
Proof. unfold np_lt, sf_lt. by rewrite ltb_spec, !is_nan_spec. Qed.

Lemma np_le_rank x y :
  np_le x y <-> ~ lex_lt (sf_rank (Prim2SF y)) (sf_rank (Prim2SF x)).
Proof.
  unfold np_le. rewrite np_lt_spec, <- sf_lt_rank.
  by destruct (sf_lt _ _).
Qed.

Local Instance np_le_trans : Transitive np_le.
Proof.
  intros x y z. rewrite !np_le_rank. unfold lex_lt.
  destruct (sf_rank (Prim2SF x)) as [[a1 a2] a3],
    (sf_rank (Prim2SF y)) as [[b1 b2] b3],
    (sf_rank (Prim2SF z)) as [[c1 c2] c3]; cbn. lia.
Qed.

Local Instance np_le_total : Total np_le.
Proof.
  intros x y. rewrite !np_le_rank. unfold lex_lt.
  destruct (sf_rank (Prim2SF x)) as [[a1 a2] a3],
    (sf_rank (Prim2SF y)) as [[b1 b2] b3]; cbn. lia.
Qed.







End Binary64Facts.

Section MetricFacts.
Import Pandas Spec Examples Sklearn.
Local Open Scope Qc_scope.

Lemma as_float_array_Num qs : as_float_array (map Num qs) = Ok qs.
Proof. induction qs as [|q qs IH]; cbn; [done|]. by rewrite IH. Qed.

Lemma check_reg_targets_Num yt yp :
  length yt = length yp -> yt <> [] ->
  check_reg_targets (map Num yt) (map Num yp) = Ok (yt, yp).
Proof.
  intros Hlen Hne. unfold check_reg_targets.
  rewrite !length_map, Hlen, Nat.eqb_refl. cbn [negb].
  rewrite !as_float_array_Num. cbn [rbind]. by destruct yt.
Qed.

Lemma np_sum_zeros l : Forall (fun x => x = 0) l -> np_sum l = 0.
Proof.
  induction 1 as [|x l -> _ IH]; cbn; [done|].
  unfold np_sum in IH. rewrite IH. apply Qcplus_0_l.
Qed.

Lemma np_average_zeros l : Forall (fun x => x = 0) l -> np_average l = 0.
Proof.
  intros H. unfold np_average. rewrite (np_sum_zeros l H).
  unfold Qcdiv. apply Qcmult_0_l.
Qed.

Lemma residuals_diag y : Forall (fun x => x = 0) (residuals y y).
Proof.
  unfold residuals. induction y as [|q y IH]; cbn; constructor; [|done].
  unfold Qcminus. apply Qcplus_opp_r.
Qed.

Lemma Forall_zero_map (f : Qc -> Qc) l :
  f 0 = 0 -> Forall (fun x => x = 0) l -> Forall (fun x => x = 0) (map f l).
Proof. intros Hf. induction 1 as [|x l -> _ IH]; cbn; constructor; done. Qed.

Lemma square_0 : square 0 = 0.
Proof. unfold square. apply Qcmult_0_l. Qed.

Lemma np_abs_0 : np_abs 0 = 0.
Proof. unfold np_abs. by case_decide. Qed.

Lemma nth_zeros l i : Forall (fun x : Qc => x = 0) l -> nth i l 0 = 0.
Proof.
  intros H. revert i. induction H as [|x l -> _ IH]; intros [|i]; cbn; auto.
Qed.

Lemma np_median_zeros l : Forall (fun x => x = 0) l -> np_median l = 0.
Proof.
  intros H. unfold np_median.
  assert (Hs : Forall (fun x => x = 0) (merge_sort Qcle l)).
  { by rewrite merge_sort_Permutation. }
  destruct (Nat.even _).
  - rewrite !nth_zeros by done. rewrite Qcplus_0_l. unfold Qcdiv. apply Qcmult_0_l.
  - by apply nth_zeros.
Qed.

Lemma ratio_score_perfect d : ratio_score 0 d = 1.
Proof. unfold ratio_score. case_decide; by rewrite decide_True. Qed.

Lemma mse_of_diag y : mse_of y y = 0.
Proof.
  unfold mse_of. apply np_average_zeros, Forall_zero_map;
    [apply square_0 | apply residuals_diag].
Qed.

Lemma r2_of_diag y : (2 <= length y)%nat -> r2_of y y = Some 1.
Proof.
  intros H. unfold r2_of.
  destruct (length y <? 2)%nat eqn:E; [apply Nat.ltb_lt in E; lia|].
  rewrite (np_sum_zeros (map square (residuals y y)))
    by (apply Forall_zero_map; [apply square_0 | apply residuals_diag]).
  by rewrite ratio_score_perfect.
Qed.

Lemma r2_of_single q : r2_of [q] [q] = None.
Proof. reflexivity. Qed.

Lemma evs_of_diag y : evs_of y y = 1.
Proof.
  unfold evs_of.
  rewrite (np_average_zeros (residuals y y)) by apply residuals_diag.
  rewrite (np_average_zeros (map _ (residuals y y))).
  - apply ratio_score_perfect.
  - apply Forall_zero_map; [|apply residuals_diag].
    unfold Qcminus. rewrite Qcplus_opp_r. apply square_0.
Qed.

Lemma mae_of_diag y : mae_of y y = 0.
Proof.
  unfold mae_of. apply np_average_zeros, Forall_zero_map;
    [apply np_abs_0 | apply residuals_diag].
Qed.

Lemma medae_of_diag y : medae_of y y = 0.
Proof.
  unfold medae_of. apply np_median_zeros, Forall_zero_map;
    [apply np_abs_0 | apply residuals_diag].
Qed.

Lemma np_sqrt_0 : np_sqrt 0 = Rdefinitions.IZR 0.
Proof.
  unfold np_sqrt. replace (Rdefinitions.Q2R 0%Qc) with (Rdefinitions.IZR 0).
  - apply R_sqrt.sqrt_0.
  - symmetry. apply RMicromega.Q2R_0.
Qed.


Lemma calculate_numeric (preds : list (value * value * value)) (yt yp : list Qc) s :
  map (fun p : value * value * value => p.2) preds = map Num yt ->
  map (fun p : value * value * value => p.1.2) preds = map Num yp ->
  preds <> [] ->
  ARIMA.calculate_evaluation_metrics preds s = (Ok tt, store_summary yt yp s).
Proof.
  intros Ht Hp Hne.
  assert (Hlen : length yt = length yp).
  { apply (f_equal length) in Ht, Hp. rewrite !length_map in Ht, Hp. lia. }
  assert (Hyt : yt <> []).
  { intros ->. destruct preds; [done|discriminate]. }
  unfold ARIMA.calculate_evaluation_metrics, mbind, mlift, mset.
  rewrite Ht, Hp.
  unfold mean_squared_error, r2_score, explained_variance_score,
    mean_absolute_error, median_absolute_error.
  rewrite (check_reg_targets_Num yt yp Hlen Hyt). reflexivity.
Qed.

Lemma arima_summary_store yt yp s :
  arima_summary (store_summary yt yp s) = summary_of yt yp.
Proof. reflexivity. Qed.

Lemma evaluate_numeric (yt yp : list Qc) (x : XGB.XGBoostForecaster) :
  XGB.y_test x = Some (map Num yt) -> XGB.y_pred x = Some (map Num yp) ->
  length yt = length yp -> yt <> [] ->
  exists x',
    XGB.evaluate x = (Ok tt, x') /\ xgb_summary x' = summary_of yt yp.
Proof.
  intros Ht Hp Hlen Hyt.
  unfold XGB.evaluate, mbind, mget, mlift, mset.
  rewrite Ht, Hp. cbn [attr].
  unfold mean_squared_error, r2_score, explained_variance_score,
    mean_absolute_error, median_absolute_error.
  rewrite (check_reg_targets_Num yt yp Hlen Hyt). cbn [rbind fst snd].
  eexists. split; [reflexivity|]. reflexivity.
Qed.

Lemma summary_of_diag y :
  summary_of y y =
    if (length y <? 2)%nat then perfect_summary_nan_r2 else perfect_summary.
Proof.
  unfold summary_of, perfect_summary, perfect_summary_nan_r2.
  rewrite mse_of_diag, np_sqrt_0, evs_of_diag, mae_of_diag, medae_of_diag.
  destruct (length y <? 2)%nat eqn:E.
  - unfold r2_of. by rewrite E.
  - rewrite r2_of_diag; [done|]. apply Nat.ltb_ge in E. lia.
Qed.

Lemma perfect_predictions_columns cs y :
  length cs = length y ->
  map (fun p : value * value * value => p.2) (perfect_predictions cs y) = map Num y /\
  map (fun p : value * value * value => p.1.2) (perfect_predictions cs y) = map Num y.
Proof.
  unfold perfect_predictions. revert y.
  induction cs as [|c cs IH]; intros [|q y] Hlen; try discriminate; [done|].
  cbn. destruct (IH y) as [-> ->]; [by injection Hlen|]. done.
Qed.

(** C8 (amended).  For a non-empty sequence [y] of numbers, both scripts
    return on the pair ([y], [y]) and store mse = 0, rmse = 0, explained
    variance = 1, mae = 0 and median absolute error = 0; they store
    r2 = 1 when [y] has at least two elements, and nan when it has one,
    where the coefficient of determination is not defined. *)
Theorem perfect_prediction_metrics (y : list Qc) :
  y <> [] ->
  (forall (s : ARIMA.ARIMAForecaster) (cs : list value),
      length cs = length y ->
      exists s',
        ARIMA.calculate_evaluation_metrics (perfect_predictions cs y) s
        = (Ok tt, s') /\
        arima_summary s' =
          if (length y <? 2)%nat then perfect_summary_nan_r2
          else perfect_summary) /\
  (forall x : XGB.XGBoostForecaster,
      XGB.y_test x = Some (map Num y) -> XGB.y_pred x = Some (map Num y) ->
      exists x',
        XGB.evaluate x = (Ok tt, x') /\
        xgb_summary x' =
          if (length y <? 2)%nat then perfect_summary_nan_r2
          else perfect_summary).
Proof.
  intros H. split.
  - intros s cs Hlen.
    destruct (perfect_predictions_columns cs y Hlen) as [Ht Hp].
    exists (store_summary y y s). split.
    + apply calculate_numeric; [done..|].
      unfold perfect_predictions. destruct cs, y; cbn in *; done.
    + by rewrite arima_summary_store, summary_of_diag.
  - intros x Ht Hp.
    destruct (evaluate_numeric y y x Ht Hp) as (x' & Hrun & Hsum); [done..|].
    exists x'. split; [done|]. by rewrite Hsum, summary_of_diag.
Qed.















End MetricFacts.

Section MetricExamples.
Import Pandas Spec Examples Sklearn.

(** C8 on the sequence 5, 7. *)
Lemma perfect_prediction_metrics_witness :
  [Qc_of_Z 5; Qc_of_Z 7] <> [] /\
  exists s',
    ARIMA.calculate_evaluation_metrics
      (perfect_predictions [Str "A"; Str "B"] [Qc_of_Z 5; Qc_of_Z 7])
      forecaster_two = (Ok tt, s') /\
    arima_summary s' = perfect_summary.
Proof.
  assert (H : [Qc_of_Z 5; Qc_of_Z 7] <> []) by discriminate.
  split; [exact H|].
  exact (proj1 (perfect_prediction_metrics [Qc_of_Z 5; Qc_of_Z 7] H)
           forecaster_two [Str "A"; Str "B"] eq_refl).
Defined.

(** C8 as stated fails for a single sample, where r2 is nan. *)
Lemma single_sample_counterexample : ~ perfect_metrics_claim [Qc_of_Z 5].
Proof.
  intros H.
  assert (Hne : [Qc_of_Z 5] <> []) by discriminate.
  specialize (H Hne forecaster_one [Str "A"] eq_refl).
  rewrite (calculate_numeric (perfect_predictions [Str "A"] [Qc_of_Z 5])
             [Qc_of_Z 5] [Qc_of_Z 5] forecaster_one eq_refl eq_refl) in H
    by discriminate.
  cbn [snd] in H. rewrite arima_summary_store, summary_of_diag in H.
  discriminate H.
Qed.


End MetricExamples.

Section RoundingExample.
Import Floats.PrimFloat Floats.FloatOps Rounding.



End RoundingExample.

(** ** Further properties of the time-series forecaster *)

Section ARIMAExtras.
Import Pandas Spec Examples ARIMA Console.
Variable py_int : string -> option Z.
Variable date_range : nat -> result unit.
Variable auto_arima : list value -> result value.

Lemma split_data_year_column s t k s' :
  split_data t k s = (Ok tt, s') -> "year" ∈ df_columns (combined_data s).
Proof.
  destruct (decide ("year" ∈ df_columns (combined_data s))) as [Hy|Hy]; [done|].
  unfold split_data, mbind, mget, mlift, getitem.
  rewrite decide_False by done. discriminate.
Qed.

(** X1.  [split_data] only selects: the training and the test rows are
    sub-sequences of the assembled rows, in their order.  When the training
    bound is below the test year the two sets and the rows the split
    leaves out (a year above the bound that is not the test year, or a
    year that is no number) make up the assembled dataset, every row
    exactly once. *)
Theorem split_partition s t k s' tr te :
  split_data t k s = (Ok tt, s') ->
  train_data s' = Some tr -> test_data s' = Some te ->
  df_rows tr `sublist_of` df_rows (combined_data s) /\
  df_rows te `sublist_of` df_rows (combined_data s) /\
  ((t < k)%Z ->
   df_rows tr ++ df_rows te
     ++ filter (fun r => ~ year_le t r /\ ~ year_eq k r) (df_rows (combined_data s))
   ≡ₚ df_rows (combined_data s)).
Proof.
  intros Hrun Htr Hte. apply split_data_Ok in Hrun as [Htr' Hte'].
  rewrite Htr in Htr'. rewrite Hte in Hte'.
  injection Htr' as ->. injection Hte' as ->. cbn [df_rows].
  set (rows := df_rows (combined_data s)).
  split; [apply sublist_filter|]. split; [apply sublist_filter|].
  intros Htk.
  rewrite <- (filter_app_complement (year_le t) rows) at 4.
  apply Permutation_app_head.
  rewrite <- (filter_app_complement (year_eq k) (filter (fun r => ~ year_le t r) rows)).
  rewrite !list_filter_filter.
  assert (E1 : filter (year_eq k) rows
               = filter (fun r => year_eq k r /\ ~ year_le t r) rows).
  { apply list_filter_iff. intros r. split; [|tauto].
    intros Hk. split; [done|]. intros Hle.
    apply year_eq_cell in Hk. apply year_le_cell in Hle as (q & Hq & Hle).
    rewrite Hk in Hq. injection Hq as <-. apply Z2Qc_inj_le in Hle. lia. }
  assert (E2 : filter (fun r => ~ year_le t r /\ ~ year_eq k r) rows
               = filter (fun r => ~ year_eq k r /\ ~ year_le t r) rows).
  { apply list_filter_iff. intros r. tauto. }
  by rewrite E1, E2.
Qed.

(** X2.  [split_data] reads the assembled dataset only: called again, with
    any pair of years, it does what it would have done on the forecaster
    before the first call, so the earlier training and test sets are
    replaced and nothing of them is left. *)
Theorem split_data_again s t k s1 t' k' :
  split_data t k s = (Ok tt, s1) ->
  split_data t' k' s1 = split_data t' k' s.
Proof.
  intros H. pose proof (split_data_year_column _ _ _ _ H) as Hy.
  rewrite (split_data_run s t k Hy) in H. injection H as <-.
  rewrite (split_data_run s t' k' Hy).
  rewrite split_data_run by exact Hy. reflexivity.
Qed.

Lemma unique_nonempty l : l <> [] -> unique l <> [].
Proof. destruct l as [|x l]; [done|]. intros _. unfold unique. cbn. discriminate. Qed.

Lemma calculate_empty s :
  calculate_evaluation_metrics [] s
  = (Raise (ValueError "Found array with 0 sample(s)"), s).
Proof. reflexivity. Qed.

(** X3.  [train_and_evaluate] before [split_data], on the forecaster the
    constructor returns: with at least one row the loop reads
    [self.train_data] at its first entity and raises [AttributeError],
    leaving the forecaster as it was (not even the fit time is set); with no
    row at all the loop does nothing and the metrics are asked of an empty
    list, a [ValueError], after the fit time and the empty prediction list
    were stored. *)
Theorem train_and_evaluate_unsplit wb s :
  init py_int wb = Ok s ->
  "comune" ∈ df_columns (combined_data s) ->
  train_and_evaluate date_range auto_arima s =
    (if decide (df_rows (combined_data s) = []) then
       (Raise (ValueError "Found array with 0 sample(s)"),
        set_predictions [] (set_total_time s))
     else (Raise (AttributeError "train_data"), s)) /\
  (df_rows (combined_data s) = [] ->
   predictions (train_and_evaluate date_range auto_arima s).2 = Some [] /\
   total_time_set (train_and_evaluate date_range auto_arima s).2 = true /\
   arima_summary (train_and_evaluate date_range auto_arima s).2
   = mkSummary None None None None None None) /\
  (df_rows (combined_data s) <> [] ->
   predictions (train_and_evaluate date_range auto_arima s).2 = None /\
   total_time_set (train_and_evaluate date_range auto_arima s).2 = false /\
   arima_summary (train_and_evaluate date_range auto_arima s).2
   = mkSummary None None None None None None).
Proof.
  intros Hinit Hc.
  assert (Heq : train_and_evaluate date_range auto_arima s =
    if decide (df_rows (combined_data s) = []) then
      (Raise (ValueError "Found array with 0 sample(s)"),
       set_predictions [] (set_total_time s))
    else (Raise (AttributeError "train_data"), s)).
  { apply init_Ok in Hinit as (_ & Htr & _).
    rewrite train_and_evaluate_unfold, (getitem_in _ _ Hc).
    case_decide as Hrows.
    - rewrite Hrows. cbn [map unique unique_from for_each]. apply calculate_empty.
    - destruct (unique _) as [|c cs] eqn:Hu.
      { exfalso. revert Hu. apply unique_nonempty.
        by destruct (df_rows (combined_data s)). }
      cbn [for_each]. unfold evaluate_city. rewrite Htr. reflexivity. }
  split; [exact Heq|]. rewrite Heq.
  unfold init, rbind in Hinit.
  destruct (prepare_data py_int wb) as [d|]; [|discriminate].
  injection Hinit as <-.
  split; intros Hrows.
  - rewrite decide_True by exact Hrows. by repeat split.
  - rewrite decide_False by exact Hrows. by repeat split.
Qed.

Lemma for_each_skip_all {X A} (body : X -> list A -> result (list A))
    (step : X -> result (option A)) xs acc :
  (forall x acc, body x acc = match step x with
                              | Ok (Some a) => Ok (acc ++ [a])
                              | Ok None => Ok acc
                              | Raise e => Raise e
                              end) ->
  Forall (fun x => step x = Ok None) xs ->
  for_each body xs acc = Ok acc.
Proof.
  intros Hb H. induction H as [|x xs Hx _ IH]; cbn [for_each]; [done|].
  by rewrite Hb, Hx.
Qed.

(** X4.  When the assembled dataset has no row of the test year, the
    evaluation loop skips every entity without fitting anything, and
    [train_and_evaluate] raises the [ValueError] of a metric over no
    sample; the forecaster keeps the empty prediction list and the fit
    time, and no metric. *)
Theorem train_and_evaluate_no_test_rows wb s0 t k s :
  init py_int wb = Ok s0 ->
  split_data t k s0 = (Ok tt, s) ->
  "comune" ∈ df_columns (combined_data s) ->
  Forall (fun r => ~ year_eq k r) (df_rows (combined_data s)) ->
  train_and_evaluate date_range auto_arima s
  = (Raise (ValueError "Found array with 0 sample(s)"),
     set_predictions [] (set_total_time s)) /\
  predictions (train_and_evaluate date_range auto_arima s).2 = Some [] /\
  total_time_set (train_and_evaluate date_range auto_arima s).2 = true /\
  arima_summary (train_and_evaluate date_range auto_arima s).2
  = arima_summary s.
Proof.
  intros Hinit Hsplit Hc Hnone.
  assert (Heq : train_and_evaluate date_range auto_arima s
                = (Raise (ValueError "Found array with 0 sample(s)"),
                   set_predictions [] (set_total_time s)));
    [|by rewrite Heq].
  destruct (prepared_state _ _ _ _ _ _ Hinit Hsplit) as (Hcomb & Htr & Hte & _).
  rewrite train_and_evaluate_unfold, (getitem_in _ _ Hc).
  set (train := mkDataFrame _ (filter (year_le t) _)) in Htr.
  set (test := mkDataFrame _ (filter (year_eq k) _)) in Hte.
  assert (Hc1 : "comune" ∈ df_columns train) by (cbn; by rewrite <- Hcomb).
  assert (Hc2 : "comune" ∈ df_columns test) by (cbn; by rewrite <- Hcomb).
  assert (Htest : df_rows test = []).
  { cbn. rewrite <- Hcomb. induction Hnone as [|r rows Hr _ IH]; [done|].
    rewrite filter_cons, decide_False by done. exact IH. }
  rewrite (for_each_skip_all _ (city_outcome date_range auto_arima s));
    [apply calculate_empty | apply evaluate_city_step |].
  apply Forall_forall. intros c _.
  rewrite (city_outcome_slices _ _ s train test c Htr Hte Hc1 Hc2).
  rewrite decide_False; [done|]. intros [_ H]. apply H.
  unfold entity_rows. by rewrite Htest.
Qed.

Lemma omap_steps_filter {X A} (E : X -> Prop) `{!forall x, Decision (E x)}
    (key : A -> X) (xs : list X) (steps : list (option A)) :
  Forall2 (fun x o => if decide (E x) then exists a, o = Some a /\ key a = x
                      else o = None) xs steps ->
  map key (omap id steps) = filter E xs.
Proof.
  induction 1 as [|x o xs steps Hx _ IH]; [done|].
  rewrite filter_cons. destruct (decide (E x)).
  - destruct Hx as (a & -> & <-). cbn. by rewrite IH.
  - subst o. cbn. exact IH.
Qed.

Lemma predict_arima_Ok df p :
  predict_arima date_range auto_arima df = Ok p ->
  date_range (length (df_rows df)) = Ok tt /\
  "cns deaths" ∈ df_columns df /\
  auto_arima (map (fun r => cell r "cns deaths") (df_rows df)) = Ok p.
Proof.
  unfold predict_arima, rbind.
  destruct (date_range _) as [[]|]; [|discriminate].
  destruct (getitem df "cns deaths") as [series|] eqn:Hg; [|discriminate].
  apply getitem_Ok in Hg as [Hc ->]. auto.
Qed.

(** X5.  The prediction list of [train_and_evaluate] follows the order of
    first appearance of the entities in the assembled dataset, restricted
    to those with rows on both sides of the split, each once.  The
    prediction of an entity is what the fit returns on its training
    outcomes, in row order; the truth is the outcome of its first test row
    (further test rows of the entity are ignored). *)
Theorem predictions_in_order wb s0 t k s r s' tr te preds :
  init py_int wb = Ok s0 ->
  split_data t k s0 = (Ok tt, s) ->
  train_data s = Some tr -> test_data s = Some te ->
  train_and_evaluate date_range auto_arima s = (r, s') ->
  predictions s' = Some preds ->
  map entity_of preds
  = filter (fun c => entity_rows c tr <> [] /\ entity_rows c te <> [])
      (unique (map (fun r => cell r "comune") (df_rows (combined_data s)))) /\
  NoDup (map entity_of preds) /\
  forall c p v, (c, p, v) ∈ preds ->
    auto_arima (map (fun r => cell r "cns deaths") (entity_rows c tr)) = Ok p /\
    exists r0, head (entity_rows c te) = Some r0 /\ v = cell r0 "cns deaths".
Proof.
  intros Hinit Hsplit Htr Hte Hrun Hp.
  destruct (prepared_state _ _ _ _ _ _ Hinit Hsplit) as (Hcomb & Htr' & Hte' & Hnone).
  rewrite train_and_evaluate_unfold in Hrun.
  destruct (getitem (combined_data s) "comune") as [comuni|e] eqn:Hget.
  2:{ injection Hrun as _ <-. congruence. }
  apply getitem_Ok in Hget as [Hcol ->].
  assert (Hc1 : "comune" ∈ df_columns tr).
  { rewrite Htr in Htr'. injection Htr' as ->. cbn. by rewrite <- Hcomb. }
  assert (Hc2 : "comune" ∈ df_columns te).
  { rewrite Hte in Hte'. injection Hte' as ->. cbn. by rewrite <- Hcomb. }
  pose proof (city_outcome_slices date_range auto_arima s tr te) as Hout.
  specialize (fun c => Hout c Htr Hte Hc1 Hc2).
  destruct (for_each _ _ _) as [preds0|e] eqn:Hloop.
  2:{ injection Hrun as _ <-. congruence. }
  apply calculate_keeps_predictions in Hrun. rewrite Hrun in Hp.
  cbn in Hp. injection Hp as ->.
  apply (for_each_Ok _ _ (evaluate_city_step date_range auto_arima s)) in Hloop
    as (steps & Hsteps & ->). cbn [app].
  assert (Hstep : forall c o, city_outcome date_range auto_arima s c = Ok o ->
            if decide (entity_rows c tr <> [] /\ entity_rows c te <> []) then
              exists p v, o = Some (c, p, v) /\
                predict_arima date_range auto_arima (entity_slice c tr) = Ok p /\
                iloc0 (entity_slice c te) "cns deaths" = Ok v
            else o = None).
  { intros c o Ho. rewrite Hout in Ho. case_decide; [|congruence].
    unfold rbind in Ho.
    destruct (predict_arima _ _ _) as [p|]; [|discriminate].
    destruct (iloc0 _ _) as [v|]; [|discriminate].
    injection Ho as <-. eauto. }
  assert (Hord : map entity_of (omap id steps)
                 = filter (fun c => entity_rows c tr <> [] /\ entity_rows c te <> [])
                     (unique (map (fun r => cell r "comune")
                                  (df_rows (combined_data s))))).
  { apply omap_steps_filter. eapply Forall2_impl; [exact Hsteps|].
    intros c o Ho. apply Hstep in Ho. case_decide; [|done].
    destruct Ho as (p & v & -> & _). by eexists. }
  split; [exact Hord|]. split.
  { rewrite Hord. apply NoDup_filter, unique_NoDup. }
  intros c p v Hin. apply omap_id_elem in Hin.
  apply list_elem_of_lookup in Hin as [i Hi].
  destruct (Forall2_lookup_r _ _ _ _ _ Hsteps Hi) as (c' & _ & Hc').
  apply Hstep in Hc'. case_decide; [|discriminate].
  destruct Hc' as (p' & v' & [= <- <- <-] & Hfit & Htruth).
  apply predict_arima_Ok in Hfit as (_ & _ & Hfit). split; [exact Hfit|].
  unfold iloc0 in Htruth. cbn [entity_slice df_rows df_columns] in Htruth.
  destruct (entity_rows c te) as [|r0 rest]; [discriminate|].
  case_decide; [|discriminate]. injection Htruth as <-. by exists r0.
Qed.

Lemma calculate_effect preds (s : ARIMAForecaster) :
  (exists yt yp,
      calculate_evaluation_metrics preds s = (Ok tt, store_summary yt yp s)) \/
  (exists e, calculate_evaluation_metrics preds s = (Raise e, s)).
Proof.
  unfold calculate_evaluation_metrics, mbind, mlift, mset.
  unfold Sklearn.mean_squared_error, Sklearn.r2_score,
    Sklearn.explained_variance_score, Sklearn.mean_absolute_error,
    Sklearn.median_absolute_error.
  destruct (Sklearn.check_reg_targets _ _) as [[yt yp]|e]; cbn [rbind fst snd].
  - left. by exists yt, yp.
  - right. by exists e.
Qed.


Lemma split_data_effect t k s :
  (split_data t k s).2 = s \/
  exists tr te, (split_data t k s).2 = set_test_data te (set_train_data tr s) /\
    tr = mkDataFrame (df_columns (combined_data s))
           (filter (year_le t) (df_rows (combined_data s))) /\
    te = mkDataFrame (df_columns (combined_data s))
           (filter (year_eq k) (df_rows (combined_data s))).
Proof.
  destruct (decide ("year" ∈ df_columns (combined_data s))) as [Hy|Hy].
  - right. rewrite (split_data_run s t k Hy). by eexists _, _.
  - left. unfold split_data, mbind, mget, mlift, getitem.
    by rewrite decide_False.
Qed.

Lemma train_and_evaluate_effect s :
  (train_and_evaluate date_range auto_arima s).2 = s \/
  exists preds,
    ((train_and_evaluate date_range auto_arima s).2
     = set_predictions preds (set_total_time s) \/
     exists yt yp,
       (train_and_evaluate date_range auto_arima s).2
       = store_summary yt yp (set_predictions preds (set_total_time s))).
Proof.
  rewrite train_and_evaluate_unfold.
  destruct (getitem _ _); [|by left].
  destruct (for_each _ _ _) as [preds|]; [|by left].
  right. exists preds.
  destruct (calculate_effect preds (set_predictions preds (set_total_time s)))
    as [(yt & yp & ->)|(e & ->)]; [right; by exists yt, yp | by left].
Qed.

Lemma predict_upcoming_year_effect year s :
  (exists preds,
      predict_upcoming_year date_range auto_arima year s
      = (Ok tt, set_predictions_csv preds s)) \/
  (exists e, predict_upcoming_year date_range auto_arima year s = (Raise e, s)).
Proof.
  rewrite predict_upcoming_year_unfold.
  destruct (getitem _ "year"); [|right; by eexists].
  destruct (getitem _ "comune"); [|right; by eexists].
  destruct (for_each _ _ _); [left|right]; by eexists.
Qed.

(** X8.  Whatever methods are called on a forecaster, with whatever
    arguments, in whatever order and whether they return or raise, the
    workbook and the assembled dataset are those of the constructor, and
    the training and test sets are either both unset or both a selection by
    year of that dataset. *)
Theorem reachable_dataset wb s :
  reachable py_int date_range auto_arima wb s ->
  excel_data s = wb /\
  prepare_data py_int wb = Ok (combined_data s) /\
  ((train_data s = None /\ test_data s = None) \/
   exists t k,
     train_data s = Some (mkDataFrame (df_columns (combined_data s))
                            (filter (year_le t) (df_rows (combined_data s)))) /\
     test_data s = Some (mkDataFrame (df_columns (combined_data s))
                           (filter (year_eq k) (df_rows (combined_data s))))).
Proof.
  induction 1 as [s Hinit|s t k _ IH|s _ IH|s preds _ IH|s year _ IH|s preds _ IH].
  - unfold init, rbind in Hinit.
    destruct (prepare_data py_int wb) as [d|] eqn:Hd; [|discriminate].
    injection Hinit as <-. cbn. split; [done|]. split; [done|]. by left.
  - destruct (split_data_effect t k s) as [->|(tr & te & -> & -> & ->)]; [done|].
    destruct IH as (H1 & H2 & _). cbn.
    split; [done|]. split; [done|]. right; by exists t, k.
  - destruct IH as (H1 & H2 & H3).
    by destruct (train_and_evaluate_effect s) as [->|(preds & [->|(yt & yp & ->)])].
  - by destruct (calculate_effect preds s) as [(yt & yp & ->)|(e & ->)].
  - by destruct (predict_upcoming_year_effect year s) as [(preds & ->)|(e & ->)].
  - exact IH.
Qed.

Lemma reachable_metrics wb s :
  reachable py_int date_range auto_arima wb s ->
  metrics_unset s \/ scores_set s.
Proof.
  induction 1 as [s Hinit|s t k _ IH|s _ IH|s preds _ IH|s year _ IH|s preds _ IH].
  - unfold init, rbind in Hinit.
    destruct (prepare_data py_int wb) as [d|] eqn:Hd; [|discriminate].
    injection Hinit as <-. left; by repeat split.
  - by destruct (split_data_effect t k s) as [->|(tr & te & -> & -> & ->)].
  - destruct (train_and_evaluate_effect s) as [->|(preds & [->|(yt & yp & ->)])].
    + done.
    + exact IH.
    + right. by repeat split.
  - destruct (calculate_effect preds s) as [(yt & yp & ->)|(e & ->)].
    + right. by repeat split.
    + exact IH.
  - by destruct (predict_upcoming_year_effect year s) as [(preds & ->)|(e & ->)].
  - exact IH.
Qed.

Lemma print_metrics_set s :
  metrics_set s ->
  exists m x r e a d,
     mse s = Some m /\ rmse s = Some x /\ r2 s = Some r /\ evs s = Some e /\
     mae s = Some a /\ medae s = Some d /\
     print_evaluation_metrics s =
       ([("Mean Squared Error:", ShowQ m);
         ("Root Mean Squared Error:", ShowR x);
         ("R2 Score:", show_score r);
         ("Explained Variance Score:", ShowQ e);
         ("Mean Absolute Error:", ShowQ a);
         ("Median Absolute Error:", ShowQ d);
         ("Time taken to train the model:", ShowSeconds)], Ok tt).
Proof.
  intros ([m Hm] & [x Hx] & [r Hr] & [e He] & [a Ha] & [d Hd] & Ht & _).
  exists m, x, r, e, a, d. repeat (split; [done|]).
  unfold print_evaluation_metrics. by rewrite Hm, Hx, Hr, He, Ha, Hd, Ht.
Qed.

(** X9.  On any forecaster a program can hold,
    [print_evaluation_metrics] never stops between two metric lines.  It
    raises [AttributeError] on [mse] before printing anything when no
    metric is set.  Otherwise all six metrics are set and it prints their
    six lines, in order; then it prints the time line and returns when the
    fit time is set, and raises [AttributeError] on [total_time] when it
    is not (the metrics were set by a direct call of
    [calculate_evaluation_metrics]). *)
Theorem print_outcomes wb s :
  reachable py_int date_range auto_arima wb s ->
  (metrics_unset s /\
   print_evaluation_metrics s = ([], Raise (AttributeError "mse"))) \/
  (exists m x r e a d,
     mse s = Some m /\ rmse s = Some x /\ r2 s = Some r /\ evs s = Some e /\
     mae s = Some a /\ medae s = Some d /\
     print_evaluation_metrics s =
       if total_time_set s
       then (metric_lines m x r e a d
               ++ [("Time taken to train the model:", ShowSeconds)], Ok tt)
       else (metric_lines m x r e a d, Raise (AttributeError "total_time"))).
Proof.
  intros H. apply reachable_metrics in H as [Hu|Hs].
  - left. split; [done|]. destruct Hu as (Hm & _).
    unfold print_evaluation_metrics. by rewrite Hm.
  - right. destruct Hs as ([m Hm] & [x Hx] & [r Hr] & [e He] & [a Ha] & [d Hd]).
    exists m, x, r, e, a, d. repeat (split; [done|]).
    unfold print_evaluation_metrics. rewrite Hm, Hx, Hr, He, Ha, Hd.
    by destruct (total_time_set s).
Qed.

(** X7.  [predict_upcoming_year] has no recovery either: the first entity,
    in order of first appearance, whose fit raises ends the call with that
    exception, and the forecaster is unchanged, so no prediction is saved,
    not even those of the entities fitted before. *)
Theorem upcoming_year_failure s year comuni before c after e :
  "year" ∈ df_columns (combined_data s) ->
  getitem (combined_data s) "comune" = Ok comuni ->
  unique comuni = before ++ c :: after ->
  (forall c', c' ∈ before -> entity_rows c' (combined_data s) <> [] ->
     is_Ok (predict_arima date_range auto_arima
              (entity_slice c' (combined_data s)))) ->
  entity_rows c (combined_data s) <> [] ->
  predict_arima date_range auto_arima (entity_slice c (combined_data s)) = Raise e ->
  predict_upcoming_year date_range auto_arima year s = (Raise e, s).
Proof.
  intros Hy Hget Huniq Hbefore Hc Hfit.
  rewrite predict_upcoming_year_unfold, (getitem_in _ _ Hy), Hget, Huniq.
  apply getitem_Ok in Hget as [Hcol _].
  pose proof (forecast_outcome_slice date_range auto_arima s) as Hout.
  specialize (fun c => Hout c Hcol).
  rewrite (for_each_Raise _ _ (forecast_city_step date_range auto_arima s)
             before c after [] e); [done| |].
  - apply Forall_forall. intros c' Hin. rewrite Hout.
    case_decide as Hd; [|by eexists].
    destruct (Hbefore c' Hin Hd) as [p ->]. by eexists.
  - rewrite Hout, decide_True by done. by rewrite Hfit.
Qed.

Lemma train_and_evaluate_Ok s s' :
  train_and_evaluate date_range auto_arima s = (Ok tt, s') ->
  metrics_set s' /\ predictions_csv s' = predictions_csv s.
Proof.
  rewrite train_and_evaluate_unfold.
  destruct (getitem _ _); [|discriminate].
  destruct (for_each _ _ _) as [preds|]; [|discriminate].
  destruct (calculate_effect preds (set_predictions preds (set_total_time s)))
    as [(yt & yp & ->)|(e & ->)]; [|discriminate].
  intros [= <-]. split; [by repeat split | done].
Qed.

Lemma train_and_evaluate_csv s :
  predictions_csv (train_and_evaluate date_range auto_arima s).2
  = predictions_csv s.
Proof.
  by destruct (train_and_evaluate_effect s) as [->|(preds & [->|(yt & yp & ->)])].
Qed.

Lemma split_data_csv t k s :
  predictions_csv (split_data t k s).2 = predictions_csv s.
Proof. by destruct (split_data_effect t k s) as [->|(tr & te & -> & _)]. Qed.

(** X10.  The script as a whole: either every call returns, and then the
    predictions file is written, the six metrics, the fit time and the
    prediction list are set and the report has seven lines; or a call
    raises, and then nothing was printed and no predictions file was
    written. *)
Theorem main_outcome wb out r o :
  main py_int date_range auto_arima wb = (out, r, o) ->
  (r = Ok tt /\
   exists s, o = Some s /\ is_Some (predictions_csv s) /\ metrics_set s /\
             length out = 7%nat) \/
  (exists e, r = Raise e /\ out = [] /\
             forall s, o = Some s -> predictions_csv s = None).
Proof.
  unfold main, script.
  destruct (init py_int wb) as [s0|e0] eqn:Hinit.
  2:{ intros [= <- <- <-]. right. exists e0. by repeat split. }
  assert (Hcsv0 : predictions_csv s0 = None).
  { unfold init, rbind in Hinit. destruct (prepare_data _ _); [|discriminate].
    by injection Hinit as <-. }
  unfold mbind.
  pose proof (split_data_csv 2018 2019 s0) as Hcsv1.
  destruct (split_data 2018 2019 s0) as [[[]|e1] s1]; cbn [snd] in Hcsv1.
  2:{ intros [= <- <- <-]. right. exists e1. repeat split; [done..|].
      intros s [= <-]. congruence. }
  pose proof (train_and_evaluate_csv s1) as Hcsv2.
  destruct (train_and_evaluate date_range auto_arima s1) as [[[]|e2] s2] eqn:Htrain;
    cbn [snd] in Hcsv2.
  2:{ intros [= <- <- <-]. right. exists e2. repeat split; [done..|].
      intros s [= <-]. congruence. }
  apply train_and_evaluate_Ok in Htrain as [Hset _].
  destruct (predict_upcoming_year_effect 2020 s2) as [(preds & ->)|(e3 & ->)].
  - destruct (print_metrics_set (set_predictions_csv preds s2))
      as (m & x & r2' & ev & a & d & _ & _ & _ & _ & _ & _ & ->).
    { destruct Hset as (?&?&?&?&?&?&?&?). by repeat split. }
    intros [= <- <- <-]. left. split; [done|]. eexists. split; [done|].
    split; [by eexists|]. split; [|done].
    destruct Hset as (?&?&?&?&?&?&?&?). by repeat split.
  - intros [= <- <- <-]. right. exists e3. repeat split; [done..|].
    intros s [= <-]. congruence.
Qed.
End ARIMAExtras.

(** ** Further properties of the tabular forecaster *)

Section XGBExtras.
Variable grid_search_fit : Pandas.DataFrame -> list Pandas.value -> result XGB.Model.
Import Pandas Spec Examples Sklearn XGB Pipeline.

Lemma filter_prefix {A} (P : A -> Prop) `{!forall x, Decision (P x)}
    (l : list A) (n : nat) :
  (forall i x, l !! i = Some x -> P x <-> (i < n)%nat) ->
  filter P l = take n l.
Proof.
  revert n. induction l as [|x l IH]; intros n Hp; [by rewrite take_nil|].
  rewrite filter_cons. destruct n as [|n].
  - rewrite decide_False by (rewrite (Hp 0%nat x eq_refl); lia).
    rewrite (IH 0%nat); [by rewrite !take_0|].
    intros i y Hy. rewrite (Hp (S i) y Hy). lia.
  - rewrite decide_True by (rewrite (Hp 0%nat x eq_refl); lia).
    cbn [take]. f_equal. apply IH.
    intros i y Hy. rewrite (Hp (S i) y Hy). lia.
Qed.

Lemma filter_window {A} (P : A -> Prop) `{!forall x, Decision (P x)}
    (l : list A) (a n : nat) :
  (forall i x, l !! i = Some x -> P x <-> (a <= i < a + n)%nat) ->
  filter P l = take n (drop a l).
Proof.
  revert l. induction a as [|a IH]; intros l Hp.
  - rewrite drop_0. apply filter_prefix. intros i x Hx. rewrite (Hp i x Hx). lia.
  - destruct l as [|x l]; [by rewrite drop_nil, take_nil|].
    rewrite filter_cons, decide_False by (rewrite (Hp 0%nat x eq_refl); lia).
    cbn [drop]. apply IH. intros i y Hy. rewrite (Hp (S i) y Hy). lia.
Qed.

Lemma label_encoding_rows wb s :
  init wb = Ok s ->
  exists d0,
    prepare_data wb = Ok d0 /\
    Forall2 (fun r0 r => exists code,
               index_of (cell r0 "comune") (le s) = Some code /\
               r = <["comune" := code_value code]> r0)
            (df_rows d0) (df_rows (data s)).
Proof.
  intros Hinit.
  apply xgb_init_Ok in Hinit as (d0 & comune & codes & Hprep & Hget & Hft & Hdata).
  exists d0. split; [done|].
  apply fit_transform_Ok in Hft as [_ Htr].
  apply getitem_Ok in Hget as [_ Hcomune].
  rewrite Hdata. cbn [setitem df_rows]. apply encoded_rows.
  apply transform_Ok in Htr. by rewrite <- Hcomune.
Qed.

Lemma xgb_init_fresh wb s :
  init wb = Ok s ->
  sheets_dict s = wb /\ split_attrs s = mkSplit None None None None None None /\
  best_xgb_model s = None /\ y_pred s = None /\
  metric_attrs s = mkMetrics None None None None None None /\
  predictions_csv s = None.
Proof.
  unfold init, rbind.
  destruct (prepare_data wb) as [d0|]; [|discriminate].
  destruct (getitem d0 "comune") as [comune|]; [|discriminate].
  destruct (fit_transform comune) as [[cls codes]|]; [|discriminate].
  intros [= <-]. by repeat split.
Qed.

Lemma xgb_prepare_data_columns wb d :
  prepare_data wb = Ok d -> df_columns d = kept_columns.
Proof.
  unfold prepare_data, rbind.
  destruct (concat (map snd wb)) as [d0|]; [|discriminate].
  destruct (getitem_list _ kept_columns) as [d1|] eqn:Hg; [|discriminate].
  intros [= <-]. by apply getitem_list_Ok in Hg as [_ ->].
Qed.

Lemma xgb_init_columns wb s :
  init wb = Ok s -> df_columns (data s) = kept_columns.
Proof.
  intros H. apply xgb_init_Ok in H as (d0 & comune & codes & Hp & _ & _ & ->).
  apply xgb_prepare_data_columns in Hp. cbn [setitem df_columns]. by rewrite Hp.
Qed.

(** Every row of the encoded dataset, position by position: its year is
    the index divided by 107 and its identifier is a code. *)
Lemma xgb_init_rows wb s i r :
  init wb = Ok s -> df_rows (data s) !! i = Some r ->
  has_year (Z.of_nat i / 107) r /\
  exists code v, cell r "comune" = code_value code /\
                 le s !! code = Some v /\ index_of v (le s) = Some code.
Proof.
  intros Hinit Hr.
  destruct (label_encoding_rows wb s Hinit) as (d0 & Hprep & Hrows).
  destruct (Forall2_lookup_r _ _ _ _ _ Hrows Hr) as (r0 & Hr0 & code & Hcode & ->).
  apply xgb_prepare_data_rows in Hprep as [_ Hyear].
  destruct (Hyear i r0 Hr0) as (src & _ & ->).
  split.
  - unfold has_year. rewrite lookup_insert_ne by done.
    rewrite project_kept_year. unfold cell. by rewrite lookup_insert_eq.
  - exists code, (cell (project kept_columns
                       (<["year" := Num (Qc_of_Z (Z.of_nat i / 107))]> src.2)) "comune").
    split; [unfold cell; by rewrite lookup_insert_eq|].
    split; [by apply index_of_lookup|done].
Qed.


Lemma getitem_list_features df :
  df_columns df = kept_columns ->
  getitem_list df feature_columns
  = Ok (mkDataFrame feature_columns (map (project feature_columns) (df_rows df))).
Proof. intros H. unfold getitem_list. rewrite H. reflexivity. Qed.

Lemma getitem_kept df c :
  df_columns df = kept_columns -> c ∈ kept_columns ->
  getitem df c = Ok (map (fun r => cell r c) (df_rows df)).
Proof. intros H Hc. apply getitem_in. by rewrite H. Qed.

Lemma xgb_split_data_run s :
  df_columns (data s) = kept_columns ->
  split_data s = (Ok tt, split_result s).
Proof.
  intros Hcols.
  unfold split_data, split_result, mbind, mget, mlift, mset.
  rewrite (getitem_kept _ "year" Hcols) by (by left).
  cbn [train_data test_data set_train_data set_test_data with_split
       split_attrs s_train_data s_test_data attr].
  unfold getitem_mask. rewrite !select_column_mask.
  rewrite (list_filter_iff (fun r => lt_scalar (cell r "year") 10) (year_lt 10))
    by (intros r; apply lt_scalar_year).
  rewrite (list_filter_iff (fun r => eq_scalar (cell r "year") (Num (Qc_of_Z 10)))
             (year_eq 10)) by (intros r; apply eq_scalar_year).
  rewrite !getitem_list_features by done.
  rewrite !(getitem_kept _ "cns deaths") by (done || (do 4 right; left)).
  reflexivity.
Qed.

Lemma year_index_lt (i : nat) r :
  has_year (Z.of_nat i / 107) r -> year_lt 10 r <-> (i < 1070)%nat.
Proof.
  intros H. rewrite (has_year_lt _ _ _ H).
  pose proof (Z.div_lt_upper_bound (Z.of_nat i) 107 10).
  pose proof (Z.div_le_lower_bound (Z.of_nat i) 107 10).
  split; intros Hi; lia.
Qed.

Lemma year_index_eq (i : nat) r :
  has_year (Z.of_nat i / 107) r ->
  year_eq 10 r <-> (1070 <= i < 1070 + 107)%nat.
Proof.
  intros H. rewrite (has_year_eq _ _ _ H). split; intros Hi.
  - assert (10 * 107 <= Z.of_nat i < (10 + 1) * 107)%Z; [|lia].
    rewrite <- Hi. split.
    + rewrite Z.mul_comm. apply Z.mul_div_le. lia.
    + rewrite Z.mul_comm. apply Z.mul_succ_div_gt. lia.
  - symmetry. apply Z.div_unique with (r := (Z.of_nat i - 1070)%Z); lia.
Qed.

(** X11.  On the forecaster the constructor returns, [split_data] always
    returns, and the split is by position: the training set is the first
    1070 rows of the dataset and the test set the 107 rows after them (fewer
    when the dataset is shorter); rows from position 1177 on are in
    neither. *)
Theorem xgb_split_positional wb s :
  init wb = Ok s ->
  exists s' tr te,
    split_data s = (Ok tt, s') /\
    train_data s' = Some tr /\ test_data s' = Some te /\
    df_rows tr = take 1070 (df_rows (data s)) /\
    df_rows te = take 107 (drop 1070 (df_rows (data s))).
Proof.
  intros Hinit. pose proof (xgb_init_columns _ _ Hinit) as Hcols.
  eexists _, _, _. split; [apply (xgb_split_data_run s Hcols)|].
  split; [reflexivity|]. split; [reflexivity|]. cbn [df_rows]. split.
  - apply filter_prefix. intros i r Hr.
    apply year_index_lt. by apply (xgb_init_rows wb s i r Hinit).
  - apply filter_window. intros i r Hr.
    apply year_index_eq. by apply (xgb_init_rows wb s i r Hinit).
Qed.

Lemma project_features_outcome r :
  project feature_columns r !! "cns deaths" = None.
Proof.
  unfold project, feature_columns. cbn [map list_to_map foldr].
  by rewrite !lookup_insert_ne, lookup_empty.
Qed.

(** X12.  After [split_data] the features and the targets are aligned with
    the rows of their set: the [i]-th feature row is the [i]-th row
    restricted to the four feature columns, with the cells unchanged, and
    the [i]-th target is its outcome.  The outcome column is not among the
    features. *)
Theorem xgb_features_targets wb s s' :
  init wb = Ok s ->
  split_data s = (Ok tt, s') ->
  exists tr te,
    train_data s' = Some tr /\ test_data s' = Some te /\
    X_train s' = Some (mkDataFrame feature_columns
                         (map (project feature_columns) (df_rows tr))) /\
    y_train s' = Some (map (fun r => cell r "cns deaths") (df_rows tr)) /\
    X_test s' = Some (mkDataFrame feature_columns
                        (map (project feature_columns) (df_rows te))) /\
    y_test s' = Some (map (fun r => cell r "cns deaths") (df_rows te)) /\
    ("cns deaths" ∉ feature_columns) /\
    (forall r, r ∈ df_rows tr ++ df_rows te ->
       project feature_columns r !! "cns deaths" = None /\
       forall c, c ∈ feature_columns ->
                 cell (project feature_columns r) c = cell r c).
Proof.
  intros Hinit Hsplit. pose proof (xgb_init_columns _ _ Hinit) as Hcols.
  rewrite (xgb_split_data_run s Hcols) in Hsplit. injection Hsplit as <-.
  eexists _, _. repeat (split; [reflexivity|]).
  split.
  { unfold feature_columns. intros H.
    repeat (apply elem_of_cons in H as [H|H]; [discriminate H|]).
    by apply elem_of_nil in H. }
  intros r _. split; [apply project_features_outcome|].
  intros c Hc. unfold feature_columns in Hc.
  repeat (apply elem_of_cons in Hc as [->|Hc];
          [unfold cell, project, feature_columns; cbn [map list_to_map foldr];
           rewrite ?lookup_insert_eq, ?lookup_insert_ne by done; try done|]).
  all: try by apply elem_of_nil in Hc.
Qed.

Lemma xgb_train_run s x y :
  X_train s = Some x -> y_train s = Some y ->
  train grid_search_fit s
  = match grid_search_fit x y with
    | Ok model => (Ok tt, set_best_xgb_model model s)
    | Raise e => (Raise e, s)
    end.
Proof.
  intros Hx Hy. unfold train, mbind, mget, mlift, mset. rewrite Hx, Hy.
  cbn [attr]. by destruct (grid_search_fit x y).
Qed.

Lemma xgb_predict_run s model x :
  best_xgb_model s = Some model -> X_test s = Some x ->
  predict s
  = match model x with
    | Ok y => (Ok tt, set_y_pred y s)
    | Raise e => (Raise e, s)
    end.
Proof.
  intros Hm Hx. unfold predict, mbind, mget, mlift, mset. rewrite Hm, Hx.
  cbn [attr]. by destruct (model x).
Qed.

Lemma xgb_evaluate_run s yt yp :
  y_test s = Some yt -> y_pred s = Some yp ->
  evaluate s
  = match check_reg_targets yt yp with
    | Ok (qt, qp) =>
        (Ok tt,
         set_medae (medae_of qt qp)
           (set_mae (mae_of qt qp)
              (set_evs (evs_of qt qp)
                 (set_r2 (r2_of qt qp)
                    (set_rmse (np_sqrt (mse_of qt qp))
                       (set_mse (mse_of qt qp) s))))))
    | Raise e => (Raise e, s)
    end.
Proof.
  intros Ht Hp. unfold evaluate, mbind, mget, mlift, mset. rewrite Ht, Hp.
  cbn [attr].
  unfold mean_squared_error, r2_score, explained_variance_score,
    mean_absolute_error, median_absolute_error.
  by destruct (check_reg_targets yt yp) as [[qt qp]|e].
Qed.

(** X13.  The methods of the tabular forecaster must be called in the
    order of the script: each one raises [AttributeError], naming the first
    attribute it reads that is not set yet, and leaves the forecaster
    unchanged.  In particular nothing can be evaluated or saved before
    [predict], even after a successful [train]. *)
Theorem xgb_method_order wb s :
  init wb = Ok s ->
  train grid_search_fit s = (Raise (AttributeError "X_train"), s) /\
  predict s = (Raise (AttributeError "best_xgb_model"), s) /\
  evaluate s = (Raise (AttributeError "y_test"), s) /\
  save_predictions s = (Raise (AttributeError "y_pred"), s) /\
  forall s1, split_data s = (Ok tt, s1) ->
    predict s1 = (Raise (AttributeError "best_xgb_model"), s1) /\
    evaluate s1 = (Raise (AttributeError "y_pred"), s1) /\
    save_predictions s1 = (Raise (AttributeError "y_pred"), s1) /\
    forall model s2, train grid_search_fit s1 = (Ok tt, s2) ->
      best_xgb_model s2 = Some model ->
      evaluate s2 = (Raise (AttributeError "y_pred"), s2) /\
      save_predictions s2 = (Raise (AttributeError "y_pred"), s2).
Proof.
  intros Hinit. pose proof (xgb_init_columns _ _ Hinit) as Hcols.
  destruct (xgb_init_fresh _ _ Hinit) as (_ & Hsplit & Hmodel & Hpred & _).
  injection Hsplit as Htr Hte Hxtr Hytr Hxte Hyte.
  unfold train, predict, evaluate, save_predictions, mbind, mget, mlift, mset.
  rewrite Hxtr, Hmodel, Hyte, Hpred. cbn [attr].
  repeat (split; [reflexivity|]).
  intros s1. rewrite (xgb_split_data_run s Hcols). intros [= <-].
  cbn. rewrite Hmodel, Hpred. cbn.
  repeat (split; [reflexivity|]).
  intros model s2.
  destruct (grid_search_fit _ _) as [m|e]; [|discriminate].
  intros [= <-] _. cbn. rewrite Hpred. by cbn.
Qed.

Ltac xgb_fields :=
  unfold xgb_summary, split_result;
  cbn [sheets_dict data le train_data test_data X_train y_train X_test y_test
       best_xgb_model y_pred mse rmse r2 evs mae medae predictions_csv
       set_train_data set_test_data set_X_train set_y_train set_X_test
       set_y_test set_best_xgb_model set_y_pred set_mse set_rmse set_r2
       set_evs set_mae set_medae set_predictions_csv with_split with_metrics
       split_attrs metric_attrs s_train_data s_test_data s_X_train s_y_train
       s_X_test s_y_test m_mse m_rmse m_r2 m_evs m_mae m_medae].

Lemma split_attrs_model m s : split_attrs (set_best_xgb_model m s) = split_attrs s.
Proof. reflexivity. Qed.
Lemma split_attrs_y_pred y s : split_attrs (set_y_pred y s) = split_attrs s.
Proof. reflexivity. Qed.
Lemma split_attrs_metrics g s : split_attrs (with_metrics g s) = split_attrs s.
Proof. reflexivity. Qed.
Lemma split_attrs_csv y s : split_attrs (set_predictions_csv y s) = split_attrs s.
Proof. reflexivity. Qed.

Ltac xgb_split_attrs :=
  unfold set_medae, set_mae, set_evs, set_r2, set_rmse, set_mse;
  rewrite ?split_attrs_csv, ?split_attrs_metrics, ?split_attrs_y_pred,
    ?split_attrs_model.

Lemma xgb_save_run s y :
  y_pred s = Some y ->
  save_predictions s = (Ok tt, set_predictions_csv y s).
Proof.
  intros Hy. unfold save_predictions, mbind, mget, mlift, mset.
  by rewrite Hy.
Qed.

(** The five calls of the script, one after the other, on a forecaster
    whose dataset has the assembled columns. *)
Lemma xgb_pipeline_run f :
  df_columns (data f) = kept_columns ->
  let s1 := split_result f in
  forall xtr ytr xte yte,
    X_train s1 = Some xtr -> y_train s1 = Some ytr ->
    X_test s1 = Some xte -> y_test s1 = Some yte ->
    (run split_data; run train grid_search_fit; run predict; run evaluate;
     save_predictions)%method f
    = match grid_search_fit xtr ytr with
      | Raise e => (Raise e, s1)
      | Ok model =>
          let s2 := set_best_xgb_model model s1 in
          match model xte with
          | Raise e => (Raise e, s2)
          | Ok yp =>
              let s3 := set_y_pred yp s2 in
              match check_reg_targets yte yp with
              | Raise e => (Raise e, s3)
              | Ok (qt, qp) =>
                  (Ok tt,
                   set_predictions_csv yp
                     (set_medae (medae_of qt qp)
                        (set_mae (mae_of qt qp)
                           (set_evs (evs_of qt qp)
                              (set_r2 (r2_of qt qp)
                                 (set_rmse (np_sqrt (mse_of qt qp))
                                    (set_mse (mse_of qt qp) s3)))))))
              end
          end
      end.
Proof.
  intros Hcols s1 xtr ytr xte yte Hxtr Hytr Hxte Hyte.
  unfold mbind at 1. rewrite (xgb_split_data_run f Hcols). fold s1.
  unfold mbind at 1. rewrite (xgb_train_run s1 xtr ytr Hxtr Hytr).
  destruct (grid_search_fit xtr ytr) as [model|e]; [|reflexivity].
  unfold mbind at 1.
  rewrite (xgb_predict_run (set_best_xgb_model model s1) model xte eq_refl Hxte).
  destruct (model xte) as [yp|e]; [|reflexivity].
  unfold mbind at 1.
  rewrite (xgb_evaluate_run (set_y_pred yp (set_best_xgb_model model s1))
             yte yp Hyte eq_refl).
  destruct (check_reg_targets yte yp) as [[qt qp]|e]; [|reflexivity].
  match goal with
  | |- context [save_predictions ?s] => by rewrite (xgb_save_run s yp eq_refl)
  end.
Qed.

(** X14.  The tabular script as a whole, once the constructor returned.
    The split always succeeds; the dataset and the encoder are never
    changed afterwards.  If every call returns, the model is the one fitted
    on the training features and targets, the predictions are that model's
    on the test features, the metrics are those of the test targets
    against them, and the predictions are what is saved.  If a call raises,
    no metric is set and no file is written. *)
Theorem xgb_script_outcome wb f :
  init wb = Ok f ->
  exists r s s1,
    script grid_search_fit wb = (r, Some s) /\
    split_data f = (Ok tt, s1) /\
    sheets_dict s = wb /\ data s = data f /\ le s = le f /\
    split_attrs s = split_attrs s1 /\
    match r with
    | Ok _ =>
        exists xtr ytr xte yte model yp qt qp,
          X_train s = Some xtr /\ y_train s = Some ytr /\
          X_test s = Some xte /\ y_test s = Some yte /\
          grid_search_fit xtr ytr = Ok model /\
          model xte = Ok yp /\
          y_pred s = Some yp /\
          check_reg_targets yte yp = Ok (qt, qp) /\
          xgb_summary s = summary_of qt qp /\
          predictions_csv s = Some yp
    | Raise e =>
        predictions_csv s = None /\
        xgb_summary s = mkSummary None None None None None None
    end.
Proof.
  intros Hinit. pose proof (xgb_init_columns _ _ Hinit) as Hcols.
  destruct (xgb_init_fresh _ _ Hinit) as (Hwb & _ & Hmodel & Hpred & Hmet & Hcsv).
  injection Hmet as Hmse Hrmse Hr2 Hevs Hmae Hmedae.
  unfold script. rewrite Hinit.
  rewrite (xgb_pipeline_run f Hcols _ _ _ _ eq_refl eq_refl eq_refl eq_refl).
  pose proof (xgb_split_data_run f Hcols) as Hsplit.
  destruct (grid_search_fit _ _) as [model|e] eqn:Hfit.
  2:{ eexists (Raise e), _, _. split; [reflexivity|]. split; [exact Hsplit|].
      xgb_split_attrs. xgb_fields.
      rewrite Hcsv, Hmse, Hrmse, Hr2, Hevs, Hmae, Hmedae.
      do 5 (split; [assumption || reflexivity|]). reflexivity. }
  cbv zeta. destruct (model _) as [yp|e] eqn:Hyp.
  2:{ eexists (Raise e), _, _. split; [reflexivity|]. split; [exact Hsplit|].
      xgb_split_attrs. xgb_fields.
      rewrite Hcsv, Hmse, Hrmse, Hr2, Hevs, Hmae, Hmedae.
      do 5 (split; [assumption || reflexivity|]). reflexivity. }
  destruct (check_reg_targets _ yp) as [[qt qp]|e] eqn:Hchk.
  2:{ eexists (Raise e), _, _. split; [reflexivity|]. split; [exact Hsplit|].
      xgb_split_attrs. xgb_fields.
      rewrite Hcsv, Hmse, Hrmse, Hr2, Hevs, Hmae, Hmedae.
      do 5 (split; [assumption || reflexivity|]). reflexivity. }
  eexists (Ok tt), _, _. split; [reflexivity|]. split; [exact Hsplit|].
  xgb_split_attrs. xgb_fields. do 4 (split; [assumption || reflexivity|]).
  eexists _, _, _, _, model, yp, qt, qp.
  repeat (split; [eassumption || reflexivity|]). reflexivity.
Qed.

(** X15.  With at most 1070 rows, ten blocks of 107, the test set is
    empty: whatever the fit and the model do, the script raises, at the
    latest in [evaluate], which is given no sample, and writes no
    predictions. *)
Theorem xgb_short_dataset wb f :
  init wb = Ok f ->
  (length (df_rows (data f)) <= 1070)%nat ->
  exists e s,
    script grid_search_fit wb = (Raise e, Some s) /\
    test_data s = Some (mkDataFrame kept_columns []) /\
    y_test s = Some [] /\
    predictions_csv s = None.
Proof.
  intros Hinit Hlen. pose proof (xgb_init_columns _ _ Hinit) as Hcols.
  destruct (xgb_init_fresh _ _ Hinit) as (Hwb & _ & Hmodel & Hpred & Hmet & Hcsv).
  assert (Hte : filter (year_eq 10) (df_rows (data f)) = []).
  { rewrite (filter_window (year_eq 10) _ 1070 107).
    - by rewrite drop_ge.
    - intros i r Hr. apply year_index_eq.
      by apply (xgb_init_rows wb f i r Hinit). }
  assert (Htest : test_data (split_result f) = Some (mkDataFrame kept_columns [])).
  { xgb_fields. by rewrite Hte, Hcols. }
  assert (Hy : y_test (split_result f) = Some []).
  { xgb_fields. cbn [df_rows]. by rewrite Hte. }
  unfold script. rewrite Hinit.
  rewrite (xgb_pipeline_run f Hcols _ _ _ [] eq_refl eq_refl eq_refl Hy).
  destruct (grid_search_fit _ _) as [model|e] eqn:Hfit.
  2:{ exists e. eexists. split; [reflexivity|].
      xgb_fields; cbn [df_rows]; rewrite ?Hte, ?Hcols, ?Hcsv; cbn [map]. by split_and!. }
  cbv zeta. destruct (model _) as [yp|e] eqn:Hyp.
  2:{ exists e. eexists. split; [reflexivity|].
      xgb_fields; cbn [df_rows]; rewrite ?Hte, ?Hcols, ?Hcsv; cbn [map]. by split_and!. }
  assert (Hchk : exists e, check_reg_targets [] yp = Raise e).
  { unfold check_reg_targets. destruct yp; cbn; by eexists. }
  destruct Hchk as [e ->].
  exists e. eexists. split; [reflexivity|].
      xgb_fields; cbn [df_rows]; rewrite ?Hte, ?Hcols, ?Hcsv; cbn [map]. by split_and!.
Qed.


Lemma string_leb_trans s1 s2 s3 :
  String.leb s1 s2 = true -> String.leb s2 s3 = true -> String.leb s1 s3 = true.
Proof.
  unfold String.leb. revert s2 s3.
  induction s1 as [|c1 s1 IH]; intros [|c2 s2] [|c3 s3]; cbn; try done.
  unfold Ascii.compare.
  destruct (N.compare_spec (Ascii.N_of_ascii c1) (Ascii.N_of_ascii c2)),
    (N.compare_spec (Ascii.N_of_ascii c2) (Ascii.N_of_ascii c3)),
    (N.compare_spec (Ascii.N_of_ascii c1) (Ascii.N_of_ascii c3));
    try done; try lia.
  apply IH.
Qed.

Local Instance value_le_trans : Transitive value_le.
Proof.
  intros [|s|p] [|t|q] [|u|r]; cbn; try done.
  - apply string_leb_trans.
  - apply (transitivity (R := Qcle)).
Qed.

Local Instance value_le_total : Total value_le.
Proof.
  intros [|s|p] [|t|q]; cbn; auto.
  - apply String.leb_total.
  - apply (total Qcle).
Qed.

Local Instance value_le_antisym : AntiSymm (=) value_le.
Proof.
  intros [|s|p] [|t|q]; cbn; try done.
  - intros H1 H2. f_equal. by apply String.leb_antisym.
  - intros H1 H2. f_equal. by apply (anti_symm Qcle).
Qed.

Lemma code_value_inj c c' : code_value c = code_value c' -> c = c'.
Proof.
  unfold code_value. intros [= H]. lia.
Qed.

(** X16.  The codes of the encoded dataset are dense: the codes that occur
    in the identifier column are exactly [0 .. n-1], [n] the size of the
    vocabulary. *)
Theorem xgb_codes_dense wb s :
  init wb = Ok s ->
  forall code,
    (code < length (le s))%nat <->
    exists r, r ∈ df_rows (data s) /\ cell r "comune" = code_value code.
Proof.
  intros Hinit code. split.
  - intros Hlt. destruct (lookup_lt_is_Some_2 _ _ Hlt) as [v Hv].
    destruct (xgb_init_Ok _ _ Hinit) as (d0 & comune & codes & Hprep & Hget & Hft & _).
    apply fit_transform_Ok in Hft as [Hfit _].
    pose proof (fit_Ok _ _ Hfit) as (_ & Hnd & Hin).
    apply getitem_Ok in Hget as [_ ->].
    assert (Hvin : v ∈ map (fun r => cell r "comune") (df_rows d0)).
    { apply Hin. by eapply list_elem_of_lookup_2. }
    apply list_elem_of_fmap in Hvin as (r0 & -> & Hr0).
    apply list_elem_of_lookup in Hr0 as [i Hi].
    destruct (label_encoding_rows _ _ Hinit) as (d0' & Hprep' & Hrows).
    rewrite Hprep in Hprep'. injection Hprep' as <-.
    destruct (Forall2_lookup_l _ _ _ _ _ Hrows Hi) as (r & Hr & code' & Hcode' & ->).
    exists (<["comune" := code_value code']> r0). split.
    + by eapply list_elem_of_lookup_2.
    + unfold cell. rewrite lookup_insert_eq.
      apply index_of_lookup in Hcode'.
      by rewrite (NoDup_lookup _ _ _ _ Hnd Hv Hcode').
  - intros (r & Hr & Hcell).
    apply list_elem_of_lookup in Hr as [i Hi].
    destruct (xgb_init_rows _ _ _ _ Hinit Hi) as (_ & code' & v & Hcell' & Hv & _).
    rewrite Hcell in Hcell'. apply code_value_inj in Hcell' as ->.
    by eapply lookup_lt_Some.
Qed.

Lemma fit_sorted y classes :
  fit y = Ok classes -> StronglySorted value_le classes.
Proof.
  intros Hfit. apply fit_Ok in Hfit as (-> & _).
  apply (StronglySorted_merge_sort value_le).
Qed.

Lemma strongly_sorted_lookup {A} (R : relation A) l i j x y :
  StronglySorted R l -> l !! i = Some x -> l !! j = Some y ->
  (i < j)%nat -> R x y.
Proof.
  intros Hs. revert i j. induction Hs as [|a l Hs IH Hall]; intros i j; [done|].
  destruct i as [|i], j as [|j]; cbn; try lia.
  - intros [= <-] Hj _. eapply Forall_forall in Hall; [exact Hall|].
    by eapply list_elem_of_lookup_2.
  - intros Hi Hj Hij. apply (IH i j); [done..|lia].
Qed.

(** X17.  Codes follow the order of the identifiers, not the order of the
    rows: a smaller code is a smaller identifier, and two workbooks with the
    same set of identifiers give the same vocabulary, hence the same code
    to each identifier. *)
Theorem xgb_codes_ordered wb s :
  init wb = Ok s ->
  (forall i j u v,
      le s !! i = Some u -> le s !! j = Some v ->
      (i < j)%nat <-> value_le u v /\ u <> v) /\
  (forall wb' s',
      init wb' = Ok s' ->
      (forall v, v ∈ le s <-> v ∈ le s') ->
      le s' = le s).
Proof.
  intros Hinit.
  destruct (xgb_init_Ok _ _ Hinit) as (d0 & comune & codes & _ & _ & Hft & _).
  apply fit_transform_Ok in Hft as [Hfit _].
  pose proof (fit_sorted _ _ Hfit) as Hsorted.
  pose proof (fit_Ok _ _ Hfit) as (_ & Hnd & _).
  split.
  - intros i j u v Hu Hv. split.
    + intros Hij. split; [by eapply strongly_sorted_lookup|].
      intros ->. pose proof (NoDup_lookup _ _ _ _ Hnd Hu Hv). lia.
    + intros [Huv Hne].
      destruct (decide (i < j)%nat) as [|Hge]; [done|]. exfalso.
      destruct (decide (i = j)) as [->|Hij]; [congruence|].
      apply Hne, (anti_symm value_le); [done|].
      eapply (strongly_sorted_lookup value_le (le s) j i); [done..|lia].
  - intros wb' s' Hinit' Hsame.
    destruct (xgb_init_Ok _ _ Hinit') as (d0' & comune' & codes' & _ & _ & Hft' & _).
    apply fit_transform_Ok in Hft' as [Hfit' _].
    pose proof (fit_sorted _ _ Hfit') as Hsorted'.
    pose proof (fit_Ok _ _ Hfit') as (_ & Hnd' & _).
    apply (StronglySorted_unique value_le); [done..|].
    apply NoDup_Permutation; [done..|]. intros v. by rewrite Hsame.
Qed.

(** X18.  The constructor of the tabular forecaster fails in two ways
    only: with the exception of the assembler, or, when the identifier
    column mixes strings and numbers, with the [TypeError] of the encoder.
    The transform that follows the fit never meets an unseen label. *)
Theorem xgb_init_failures wb :
  match prepare_data wb with
  | Raise e => init wb = Raise e
  | Ok d0 =>
      if uniform (map (fun r => cell r "comune") (df_rows d0))
      then is_Ok (init wb)
      else init wb = Raise (TypeError "Encoders require their input argument must be uniformly strings or numbers.")
  end.
Proof.
  unfold init. destruct (prepare_data wb) as [d0|e] eqn:Hprep; [|reflexivity].
  cbn [rbind].
  rewrite (getitem_kept d0 "comune" (xgb_prepare_data_columns _ _ Hprep))
    by (right; left).
  cbn [rbind].
  destruct (uniform _) eqn:Hu.
  - destruct (fit_transform_total (map (fun r => cell r "comune") (df_rows d0)))
      as [[cls codes] ->].
    + unfold fit. rewrite Hu. by eexists.
    + by eexists.
  - unfold fit_transform, fit. by rewrite Hu.
Qed.

End XGBExtras.

(** ** The further properties on the example workbooks *)

Section ExtraExamples.
Import Pandas Spec Examples Sklearn Console Pipeline Scenarios.

(** X1 on [forecaster_two], split at 2018 and 2019: the four training rows
    and the test row are the whole dataset. *)
Lemma split_partition_witness :
  ARIMA.split_data 2018 2019 forecaster_two = (Ok tt, split_two) /\
  df_rows train_two `sublist_of` df_rows (ARIMA.combined_data forecaster_two) /\
  df_rows test_two `sublist_of` df_rows (ARIMA.combined_data forecaster_two) /\
  df_rows train_two ++ df_rows test_two
    ++ filter (fun r => ~ year_le 2018 r /\ ~ year_eq 2019 r)
         (df_rows (ARIMA.combined_data forecaster_two))
  ≡ₚ df_rows (ARIMA.combined_data forecaster_two).
Proof.
  split; [exact split_two_run|].
  destruct (split_partition forecaster_two 2018 2019 split_two train_two test_two
              split_two_run eq_refl eq_refl) as (H1 & H2 & H3).
  split; [exact H1|]. split; [exact H2|]. apply H3. lia.
Defined.

(** X2: a second split of [split_two], at 2017 and 2018, is the split of
    [forecaster_two] at these years. *)
Lemma split_data_again_witness :
  ARIMA.split_data 2018 2019 forecaster_two = (Ok tt, split_two) /\
  ARIMA.split_data 2017 2018 split_two
  = ARIMA.split_data 2017 2018 forecaster_two.
Proof.
  split; [exact split_two_run|].
  exact (split_data_again forecaster_two 2018 2019 split_two 2017 2018
           split_two_run).
Defined.

Lemma two_comune : "comune" ∈ df_columns (ARIMA.combined_data forecaster_two).
Proof. left. Qed.

Lemma two_rows : df_rows (ARIMA.combined_data forecaster_two) <> [].
Proof. discriminate. Qed.

(** X3 on [forecaster_two], which has rows: the call raises on
    [train_data]. *)
Lemma train_and_evaluate_unsplit_witness :
  ARIMA.init parse_decimal wb_two = Ok forecaster_two /\
  ARIMA.train_and_evaluate any_range naive_forecast forecaster_two
  = (Raise (AttributeError "train_data"), forecaster_two).
Proof.
  split; [exact init_wb_two|].
  rewrite (proj1 (train_and_evaluate_unsplit parse_decimal any_range
                    naive_forecast wb_two forecaster_two init_wb_two two_comune)).
  apply decide_False. exact two_rows.
Defined.

Lemma no_test_two_run :
  ARIMA.split_data 2018 2020 forecaster_two = (Ok tt, no_test_two).
Proof. vm_refl. Qed.

Lemma no_test_two_data :
  ARIMA.combined_data no_test_two = ARIMA.combined_data forecaster_two.
Proof. vm_refl. Qed.

Lemma no_test_two_comune :
  "comune" ∈ df_columns (ARIMA.combined_data no_test_two).
Proof. rewrite no_test_two_data. left. Qed.

Lemma no_test_two_years :
  Forall (fun r => ~ year_eq 2020 r) (df_rows (ARIMA.combined_data no_test_two)).
Proof.
  rewrite no_test_two_data. refine (bool_decide_eq_true_1 _ _). vm_refl.
Qed.

(** X4 on [forecaster_two] split at 2018 and 2020: there is no sheet of
    2020. *)
Lemma train_and_evaluate_no_test_rows_witness :
  ARIMA.split_data 2018 2020 forecaster_two = (Ok tt, no_test_two) /\
  ARIMA.train_and_evaluate any_range naive_forecast no_test_two
  = (Raise (ValueError "Found array with 0 sample(s)"),
     ARIMA.set_predictions [] (ARIMA.set_total_time no_test_two)) /\
  ARIMA.predictions
    (ARIMA.train_and_evaluate any_range naive_forecast no_test_two).2 = Some [] /\
  ARIMA.total_time_set
    (ARIMA.train_and_evaluate any_range naive_forecast no_test_two).2 = true /\
  arima_summary (ARIMA.train_and_evaluate any_range naive_forecast no_test_two).2
  = arima_summary no_test_two.
Proof.
  split; [exact no_test_two_run|].
  exact (train_and_evaluate_no_test_rows parse_decimal any_range naive_forecast
           wb_two forecaster_two 2018 2020 no_test_two
           init_wb_two no_test_two_run no_test_two_comune no_test_two_years).
Defined.

Lemma evaluated_two_predictions :
  ARIMA.predictions evaluated_two = Some [(Str "A", num 5, num 6)].
Proof. vm_refl. Qed.

(** X5 on [wb_two]: the one prediction is that of "A", fitted on its two
    training outcomes and compared with its outcome of 2019. *)
Lemma predictions_in_order_witness :
  ARIMA.predictions evaluated_two = Some [(Str "A", num 5, num 6)] /\
  map entity_of [(Str "A", num 5, num 6)]
  = filter (fun c => entity_rows c train_two <> [] /\ entity_rows c test_two <> [])
      (unique (map (fun r => cell r "comune")
                   (df_rows (ARIMA.combined_data split_two)))) /\
  naive_forecast (map (fun r => cell r "cns deaths")
                      (entity_rows (Str "A") train_two)) = Ok (num 5) /\
  exists r0, head (entity_rows (Str "A") test_two) = Some r0 /\
             num 6 = cell r0 "cns deaths".
Proof.
  split; [exact evaluated_two_predictions|].
  destruct (predictions_in_order parse_decimal any_range naive_forecast
              wb_two forecaster_two 2018 2019 split_two _ evaluated_two
              train_two test_two [(Str "A", num 5, num 6)]
              init_wb_two split_two_run eq_refl eq_refl evaluated_two_run
              evaluated_two_predictions) as (Hord & _ & Hfit).
  split; [exact Hord|].
  apply (Hfit (Str "A") (num 5) (num 6)). left.
Defined.

Lemma one_year : "year" ∈ df_columns (ARIMA.combined_data forecaster_one).
Proof. do 2 right. left. Qed.

Lemma one_comuni :
  getitem (ARIMA.combined_data forecaster_one) "comune" = Ok [Str "A"].
Proof. vm_refl. Qed.

Lemma one_A_fit :
  ARIMA.predict_arima any_range naive_forecast
    (entity_slice (Str "A") (ARIMA.combined_data forecaster_one))
  = Raise (LibraryError "too few observations").
Proof. vm_refl. Qed.

(** X7 on [forecaster_one]: the single observation of "A" is too short a
    series for the naive forecaster. *)
Lemma upcoming_year_failure_witness :
  ARIMA.predict_arima any_range naive_forecast
    (entity_slice (Str "A") (ARIMA.combined_data forecaster_one))
  = Raise (LibraryError "too few observations") /\
  ARIMA.predict_upcoming_year any_range naive_forecast 2020 forecaster_one
  = (Raise (LibraryError "too few observations"), forecaster_one).
Proof.
  split; [exact one_A_fit|].
  refine (upcoming_year_failure any_range naive_forecast forecaster_one 2020
            [Str "A"] [] (Str "A") [] _ one_year one_comuni eq_refl _
            one_A_rows one_A_fit).
  intros c' Hc'. by apply elem_of_nil in Hc'.
Defined.

(** X8 and X9 on the forecaster of [wb_two] after [split_data] and
    [train_and_evaluate]. *)
Lemma reachable_two :
  reachable parse_decimal any_range naive_forecast wb_two
    (ARIMA.train_and_evaluate any_range naive_forecast
       (ARIMA.split_data 2018 2019 forecaster_two).2).2.
Proof.
  apply reach_train_and_evaluate, reach_split_data, reach_init.
  exact init_wb_two.
Qed.

Lemma evaluated_two_state :
  (ARIMA.train_and_evaluate any_range naive_forecast
     (ARIMA.split_data 2018 2019 forecaster_two).2).2 = evaluated_two.
Proof. unfold evaluated_two. by rewrite split_two_run. Qed.

Lemma reachable_dataset_witness :
  ARIMA.excel_data evaluated_two = wb_two /\
  ARIMA.prepare_data parse_decimal wb_two
  = Ok (ARIMA.combined_data evaluated_two) /\
  ((ARIMA.train_data evaluated_two = None /\
    ARIMA.test_data evaluated_two = None) \/
   exists t k,
     ARIMA.train_data evaluated_two
     = Some (mkDataFrame (df_columns (ARIMA.combined_data evaluated_two))
               (filter (year_le t)
                  (df_rows (ARIMA.combined_data evaluated_two)))) /\
     ARIMA.test_data evaluated_two
     = Some (mkDataFrame (df_columns (ARIMA.combined_data evaluated_two))
               (filter (year_eq k)
                  (df_rows (ARIMA.combined_data evaluated_two))))).
Proof.
  rewrite <- evaluated_two_state.
  exact (reachable_dataset parse_decimal any_range naive_forecast wb_two _
           reachable_two).
Defined.

Lemma evaluated_two_mse : ARIMA.mse evaluated_two = Some 1%Qc.
Proof. vm_refl. Qed.

Lemma evaluated_two_time : ARIMA.total_time_set evaluated_two = true.
Proof. vm_refl. Qed.

Lemma reachable_scored_two :
  reachable parse_decimal any_range naive_forecast wb_two scored_two.
Proof. apply reach_calculate_evaluation_metrics, reach_init. exact init_wb_two. Qed.

Lemma scored_two_mse : ARIMA.mse scored_two = Some 1%Qc.
Proof. vm_refl. Qed.

Lemma scored_two_time : ARIMA.total_time_set scored_two = false.
Proof. vm_refl. Qed.

(** X9 on [evaluated_two], where the report is complete, and on
    [scored_two], where it stops at the time line. *)
Lemma print_outcomes_witness :
  (exists m x r e a d,
     print_evaluation_metrics evaluated_two
     = (metric_lines m x r e a d
          ++ [("Time taken to train the model:", ShowSeconds)], Ok tt)) /\
  (exists m x r e a d,
     print_evaluation_metrics scored_two
     = (metric_lines m x r e a d, Raise (AttributeError "total_time"))).
Proof.
  split.
  - pose proof (print_outcomes parse_decimal any_range naive_forecast wb_two _
                  reachable_two) as H.
    rewrite evaluated_two_state in H.
    destruct H as [[(Hm & _) _]|(m & x & r & e & a & d & _ & _ & _ & _ & _ & _ & H)].
    + rewrite evaluated_two_mse in Hm. discriminate Hm.
    + rewrite evaluated_two_time in H. by exists m, x, r, e, a, d.
  - destruct (print_outcomes parse_decimal any_range naive_forecast wb_two _
                reachable_scored_two)
      as [[(Hm & _) _]|(m & x & r & e & a & d & _ & _ & _ & _ & _ & _ & H)].
    + rewrite scored_two_mse in Hm. discriminate Hm.
    + rewrite scored_two_time in H. by exists m, x, r, e, a, d.
Defined.

Lemma main_two_run :
  main parse_decimal any_range naive_forecast wb_two
  = (main_two.1.1, main_two.1.2, main_two.2).
Proof. unfold main_two. by destruct (main _ _ _ _) as [[out r] o]. Qed.

Lemma main_two_returns : main_two.1.2 = Ok tt.
Proof. vm_refl. Qed.

(** X10 on [wb_two]: the script returns, so the file is written and the
    report printed. *)
Lemma main_outcome_witness :
  main_two.1.2 = Ok tt /\
  exists s, main_two.2 = Some s /\ is_Some (ARIMA.predictions_csv s) /\
            metrics_set s /\ length main_two.1.1 = 7%nat.
Proof.
  split; [exact main_two_returns|].
  destruct (main_outcome parse_decimal any_range naive_forecast wb_two _ _ _
              main_two_run) as [[_ H]|(e & He & _)]; [exact H|].
  rewrite main_two_returns in He. discriminate He.
Defined.

(** X11 and X12 on the eleven sheets of [wb_x_eleven]. *)
Lemma xgb_split_positional_witness :
  exists s' tr te,
    XGB.split_data x_eleven = (Ok tt, s') /\
    XGB.train_data s' = Some tr /\ XGB.test_data s' = Some te /\
    df_rows tr = take 1070 (df_rows (XGB.data x_eleven)) /\
    df_rows te = take 107 (drop 1070 (df_rows (XGB.data x_eleven))).
Proof. exact (xgb_split_positional wb_x_eleven x_eleven init_wb_x_eleven). Defined.

Lemma xgb_features_targets_witness :
  exists tr te,
    XGB.train_data x_eleven_split = Some tr /\
    XGB.test_data x_eleven_split = Some te /\
    XGB.X_train x_eleven_split
    = Some (mkDataFrame XGB.feature_columns
              (map (project XGB.feature_columns) (df_rows tr))) /\
    XGB.y_train x_eleven_split
    = Some (map (fun r => cell r "cns deaths") (df_rows tr)) /\
    XGB.X_test x_eleven_split
    = Some (mkDataFrame XGB.feature_columns
              (map (project XGB.feature_columns) (df_rows te))) /\
    XGB.y_test x_eleven_split
    = Some (map (fun r => cell r "cns deaths") (df_rows te)) /\
    ("cns deaths" ∉ XGB.feature_columns) /\
    (forall r, r ∈ df_rows tr ++ df_rows te ->
       project XGB.feature_columns r !! "cns deaths" = None /\
       forall c, c ∈ XGB.feature_columns ->
                 cell (project XGB.feature_columns r) c = cell r c).
Proof.
  exact (xgb_features_targets wb_x_eleven x_eleven x_eleven_split
           init_wb_x_eleven split_x_eleven).
Defined.

(** X13 on [x_two], the forecaster of [wb_x_two]: [train] before
    [split_data]. *)
Lemma xgb_method_order_witness :
  XGB.init wb_x_two = Ok x_two /\
  XGB.train constant_fit x_two = (Raise (AttributeError "X_train"), x_two) /\
  XGB.predict x_two = (Raise (AttributeError "best_xgb_model"), x_two) /\
  XGB.evaluate x_two = (Raise (AttributeError "y_test"), x_two) /\
  XGB.save_predictions x_two = (Raise (AttributeError "y_pred"), x_two).
Proof.
  split; [exact init_wb_x_two|].
  destruct (xgb_method_order constant_fit wb_x_two x_two init_wb_x_two)
    as (H1 & H2 & H3 & H4 & _).
  split; [exact H1|]. split; [exact H2|]. split; [exact H3|]. exact H4.
Defined.

(** X14 on [wb_x_eleven] with the constant regressor. *)
Lemma xgb_script_outcome_witness :
  exists r s s1,
    XGB.script constant_fit wb_x_eleven = (r, Some s) /\
    XGB.split_data x_eleven = (Ok tt, s1) /\
    XGB.sheets_dict s = wb_x_eleven /\ XGB.data s = XGB.data x_eleven /\
    XGB.le s = XGB.le x_eleven /\
    XGB.split_attrs s = XGB.split_attrs s1.
Proof.
  destruct (xgb_script_outcome constant_fit wb_x_eleven x_eleven init_wb_x_eleven)
    as (r & s & s1 & H1 & H2 & H3 & H4 & H5 & H6 & _).
  exists r, s, s1. repeat (split; [assumption|]). assumption.
Defined.

Lemma x_two_short : (length (df_rows (XGB.data x_two)) <= 1070)%nat.
Proof. cbn. lia. Qed.

(** X15 on the three rows of [wb_x_two]. *)
Lemma xgb_short_dataset_witness :
  exists e s,
    XGB.script constant_fit wb_x_two = (Raise e, Some s) /\
    XGB.test_data s = Some (mkDataFrame XGB.kept_columns []) /\
    XGB.y_test s = Some [] /\
    XGB.predictions_csv s = None.
Proof.
  exact (xgb_short_dataset constant_fit wb_x_two x_two init_wb_x_two x_two_short).
Defined.

(** X16 and X17 on [x_two]: the codes are 0 and 1, "A" before "B" although
    "B" comes first in the workbook. *)
Lemma xgb_codes_dense_witness :
  XGB.le x_two = [Str "A"; Str "B"] /\
  exists r, r ∈ df_rows (XGB.data x_two) /\ cell r "comune" = XGB.code_value 1.
Proof.
  split; [reflexivity|].
  apply (xgb_codes_dense wb_x_two x_two init_wb_x_two 1%nat). cbn. lia.
Defined.

Lemma xgb_codes_ordered_witness :
  XGB.le x_two !! 0%nat = Some (Str "A") /\
  XGB.le x_two !! 1%nat = Some (Str "B") /\
  value_le (Str "A") (Str "B") /\ Str "A" <> Str "B".
Proof.
  split; [reflexivity|]. split; [reflexivity|].
  apply (proj1 (xgb_codes_ordered wb_x_two x_two init_wb_x_two)
           0%nat 1%nat (Str "A") (Str "B") eq_refl eq_refl).
  lia.
Defined.

End ExtraExamples.
